(** * Commit analysis and classification engine: a shallow embedding

    Sources embedded here:
    - [src/lib/ai-provider.js], which holds the classes [AIProvider]
      (model tiers, choice of the provider, completions) and [GitManager]
      (log retrieval and parsing, changed files, status);
    - [src/lib/ai-changelog-generator.js], class [AIChangelogGenerator]
      (file classification, commit aggregation, summaries, batches,
      release insights, commit message suggestion).

    Conventions.  JavaScript strings are modelled as [string], that is as
    sequences of 8-bit characters; [JS.toUpperCase] and [JS.toLowerCase]
    convert the ASCII letters and whitespace is the ASCII whitespace.
    Where a fact depends on the case of letters outside ASCII, the method
    is also given with the case conversion of the runtime as an argument
    ([isBreakingChangeWith], [detectLanguageWith]).  JavaScript numbers
    that hold counts are [Z].  Everything the program obtains from
    outside is an explicit argument of the function that uses it: the git
    subprocess ([Git]), the summarization service ([Service]), and the
    facilities of the JavaScript runtime that the program only calls
    ([Runtime]: the regular-expression engine, [Date.parse],
    [JSON.parse]).  Code that updates the counters of the generator or
    may throw lives in the monad [M]. *)

From Stdlib Require Import ZArith Lia Ascii String List Bool QArith.
From Stdlib Require Import Numbers.DecimalString.
From stdpp Require Import base tactics option list strings.

Local Open Scope Z_scope.


(* ===================================================================== *)
(** * JavaScript string primitives *)
(* ===================================================================== *)

Module JS.

(** [!s] for a string: only the empty string is falsy. *)
Definition falsy (s : string) : bool :=
  match s with EmptyString => true | String _ _ => false end.

Definition truthy (s : string) : bool := negb (falsy s).

(** [s.startsWith(p)] *)
Fixpoint startsWith (s p : string) {struct p} : bool :=
  match p, s with
  | EmptyString, _ => true
  | String _ _, EmptyString => false
  | String a p', String b s' => if Ascii.eqb a b then startsWith s' p' else false
  end.

(** [s.includes(p)] *)
Fixpoint includes (s p : string) : bool :=
  startsWith s p ||
  match s with
  | EmptyString => false
  | String _ s' => includes s' p
  end.

Definition rev (s : string) : string :=
  string_of_list_ascii (List.rev (list_ascii_of_string s)).

(** [s.endsWith(p)] *)
Definition endsWith (s p : string) : bool := startsWith (rev s) (rev p).

Definition in_range (lo hi : nat) (c : ascii) : bool :=
  let n := nat_of_ascii c in (Nat.leb lo n && Nat.leb n hi)%bool.

Definition upper_char (c : ascii) : ascii :=
  if in_range 97 122 c then ascii_of_nat (nat_of_ascii c - 32) else c.

Definition lower_char (c : ascii) : ascii :=
  if in_range 65 90 c then ascii_of_nat (nat_of_ascii c + 32) else c.

Fixpoint map_chars (f : ascii -> ascii) (s : string) : string :=
  match s with
  | EmptyString => EmptyString
  | String c s' => String (f c) (map_chars f s')
  end.

(** [s.toUpperCase()] and [s.toLowerCase()] *)
Definition toUpperCase : string -> string := map_chars upper_char.
Definition toLowerCase : string -> string := map_chars lower_char.

(** White space removed by [trim]: tab, line feed, vertical tab, form
    feed, carriage return, space. *)
Definition is_space (c : ascii) : bool :=
  let n := nat_of_ascii c in (Nat.leb 9 n && Nat.leb n 13 || Nat.eqb n 32)%bool.

Fixpoint trimStart (s : string) : string :=
  match s with
  | EmptyString => EmptyString
  | String c s' => if is_space c then trimStart s' else s
  end.

Fixpoint trimEnd (s : string) : string :=
  match s with
  | EmptyString => EmptyString
  | String c s' =>
      match trimEnd s' with
      | EmptyString => if is_space c then EmptyString else String c EmptyString
      | String _ _ as t => String c t
      end
  end.

(** [s.trim()] *)
Definition trim (s : string) : string := trimEnd (trimStart s).

(** Every character of [s] is white space. *)
Fixpoint all_space (s : string) : bool :=
  match s with
  | EmptyString => true
  | String c s' => is_space c && all_space s'
  end.

(** [s.split(c)] for a one-character separator: the pieces between the
    occurrences of [c]; never the empty list. *)
Fixpoint split (c : ascii) (s : string) : list string :=
  match s with
  | EmptyString => [EmptyString]
  | String a s' =>
      if Ascii.eqb a c then EmptyString :: split c s'
      else match split c s' with
           | [] => [String a EmptyString]
           | p :: ps => String a p :: ps
           end
  end.

(** [l.join(sep)] *)
Fixpoint join (sep : string) (l : list string) : string :=
  match l with
  | [] => EmptyString
  | [x] => x
  | x :: rest => x +:+ sep +:+ join sep rest
  end.

(** The character [c] occurs in [s]. *)
Fixpoint has_char (c : ascii) (s : string) : bool :=
  match s with
  | EmptyString => false
  | String a s' => Ascii.eqb a c || has_char c s'
  end.

(** [`${n}`] for an integer. *)
Definition showZ (n : Z) : string := NilEmpty.string_of_int (Z.to_int n).

(** [xs.some(p => s.includes(p))] *)
Definition includesAny (s : string) (ps : list string) : bool :=
  existsb (includes s) ps.

End JS.

(** [Contains s p]: [p] occurs in [s] as a contiguous token. *)
Definition Contains (s p : string) : Prop :=
  exists a b, s = a +:+ p +:+ b.

(** [ContainsCI s p], for an upper-case token [p]: [p] occurs in [s] up to
    the case of the letters of [s]. *)
Definition ContainsCI (s p : string) : Prop :=
  Contains (JS.toUpperCase s) p.


(* ===================================================================== *)
(** * Breaking-change detection                                           *)
(* ===================================================================== *)

(** [GitManager.isBreakingChange(subject, body = '')] and the method of the
    same name of [AIChangelogGenerator]: the two bodies are the same text.
    [toUpperCase] is [String.prototype.toUpperCase], which also maps
    letters outside ASCII, some of them to ASCII letters (U+0131, the
    dotless i, to [I]; U+017F, the long s, to [S]). *)
Definition isBreakingChangeWith (toUpperCase : string -> string)
  (subject body : string) : bool :=
  if JS.falsy subject then false
  else
    JS.includes subject "!:" ||
    JS.includes (toUpperCase subject) "BREAKING" ||
    JS.includes body "BREAKING CHANGE:" ||
    JS.includes body "BREAKING-CHANGE:" ||
    JS.includes (toUpperCase body) "BREAKING CHANGE".

(** The method on messages whose letters are ASCII letters. *)
Definition isBreakingChange (subject body : string) : bool :=
  isBreakingChangeWith JS.toUpperCase subject body.

(** The breaking flag as the specification words it: the subject contains
    [!:], or the subject or the body contains [BREAKING CHANGE] whatever
    the case of the letters. *)
Definition spec_breaking (subject body : string) : bool :=
  JS.includes subject "!:" ||
  JS.includes (JS.toUpperCase subject) "BREAKING CHANGE" ||
  JS.includes (JS.toUpperCase body) "BREAKING CHANGE".

(* ===================================================================== *)
(** * Values, exceptions and counters                                     *)
(* ===================================================================== *)

(** A JavaScript value as it can appear in a summary object or come out of
    [JSON.parse]. *)
#[local] Set Warnings "-register-all".
Inductive jsval : Type :=
  | JUndefined
  | JNull
  | JBool (b : bool)
  | JNum (q : Q)
  | JStr (s : string)
  | JArr (items : list jsval)
  | JObj (fields : list (string * jsval)).
#[local] Set Warnings "register-all".

(** Truthiness, as [||], [Boolean(_)] and [if] see it. *)
Definition js_truthy (v : jsval) : bool :=
  match v with
  | JUndefined | JNull => false
  | JBool b => b
  | JNum q => negb (Qeq_bool q 0)
  | JStr s => JS.truthy s
  | JArr _ | JObj _ => true
  end.

(** [v || d] *)
Definition js_or (v d : jsval) : jsval := if js_truthy v then v else d.

(** [Array.isArray(v) ? v : []] *)
Definition array_or_empty (v : jsval) : jsval :=
  match v with JArr _ => v | _ => JArr [] end.

(** A field is populated when it is neither [null] nor [undefined]. *)
Definition populated (v : jsval) : Prop := v <> JNull /\ v <> JUndefined.

(** What a call does: it returns a value or it throws. *)
Inductive outcome (A : Type) : Type :=
  | Returned (a : A)
  | Thrown (message : string).
Arguments Returned {A} a.
Arguments Thrown {A} message.

(** [this.metrics] of [AIChangelogGenerator]. *)
Record Metrics : Type := mkMetrics {
  commitsProcessed : Z;
  apiCalls : Z;
  errors : Z;
  batchesProcessed : Z;
  totalTokens : Z
}.

Definition bump_errors (m : Metrics) : Metrics :=
  mkMetrics (commitsProcessed m) (apiCalls m) (errors m + 1)
            (batchesProcessed m) (totalTokens m).
Definition bump_apiCalls (m : Metrics) : Metrics :=
  mkMetrics (commitsProcessed m) (apiCalls m + 1) (errors m)
            (batchesProcessed m) (totalTokens m).
Definition bump_commitsProcessed (m : Metrics) : Metrics :=
  mkMetrics (commitsProcessed m + 1) (apiCalls m) (errors m)
            (batchesProcessed m) (totalTokens m).
Definition bump_batchesProcessed (m : Metrics) : Metrics :=
  mkMetrics (commitsProcessed m) (apiCalls m) (errors m)
            (batchesProcessed m + 1) (totalTokens m).
Definition add_tokens (n : Z) (m : Metrics) : Metrics :=
  mkMetrics (commitsProcessed m) (apiCalls m) (errors m)
            (batchesProcessed m) (totalTokens m + n).

(** Code that reads and updates the counters and may throw. *)
Definition M (A : Type) : Type := Metrics -> outcome A * Metrics.

Definition ret {A} (a : A) : M A := fun m => (Returned a, m).
Definition throw {A} (msg : string) : M A := fun m => (Thrown msg, m).
Definition bind {A B} (c : M A) (k : A -> M B) : M B :=
  fun m => match c m with
           | (Returned a, m') => k a m'
           | (Thrown e, m') => (Thrown e, m')
           end.
Definition update (f : Metrics -> Metrics) : M unit :=
  fun m => (Returned tt, f m).
(** [try { c } catch (error) { h error }] *)
Definition try_catch {A} (c : M A) (h : string -> M A) : M A :=
  fun m => match c m with
           | (Returned a, m') => (Returned a, m')
           | (Thrown e, m') => h e m'
           end.
(** An outside call whose outcome is given. *)
Definition lift {A} (o : outcome A) : M A := fun m => (o, m).

Notation "x <- c ;; k" := (bind c (fun x => k))
  (at level 100, c at next level, right associativity).
Notation "c ;;; k" := (bind c (fun _ => k))
  (at level 100, right associativity).

(* ===================================================================== *)
(** * Data model of the generator                                         *)
(* ===================================================================== *)

(** Result of [analyzeSemanticChanges], after [convertSetsToArrays]. *)
Record SemanticChanges : Type := mkSemanticChanges {
  changeType : string;
  sc_patterns : list string;
  sc_frameworks : list string;
  sc_keywords : list string;
  sc_codeElements : list string;
  sc_apiChanges : list string;
  sc_dataChanges : list string
}.

(** Result of [analyzeFunctionalImpact]. *)
Record FunctionalImpact : Type := mkFunctionalImpact {
  fi_scope : string;
  fi_breaking : bool;
  fi_userFacing : bool;
  fi_apiChanges : bool;
  fi_dataChanges : bool;
  fi_securityRelated : bool;
  fi_performanceImpact : bool;
  fi_migrationRequired : bool;
  fi_deploymentImpact : string
}.

(** Result of [assessBusinessRelevance]. *)
Record BusinessRelevance : Type := mkBusinessRelevance {
  br_priority : string;
  br_userImpact : string;
  br_businessValue : string;
  br_customerFacing : bool;
  br_revenueImpact : bool
}.

(** What [detectLanguage] returns: the name of a language (or
    ['Unknown']), or the member of [Object.prototype] that the lookup in
    the language table found under the extension, which is a function
    (for [constructor], the function [Object]) or, for [__proto__], the
    prototype object itself. *)
Inductive Language : Type :=
  | LanguageName (name : string)
  | PrototypeMember (key : string).

(** The object built by [analyzeFileChange]. *)
Record FileChange : Type := mkFileChange {
  status : string;
  filePath : string;
  diff : string;
  beforeContent : string;
  afterContent : string;
  category : string;
  language : Language;
  importance : Z;
  complexity : Z;
  semanticChanges : SemanticChanges;
  functionalImpact : FunctionalImpact;
  businessRelevance : BusinessRelevance
}.

(** Result of [getCommitDiffStats]. *)
Record DiffStats : Type := mkDiffStats {
  ds_files : Z;
  insertions : Z;
  deletions : Z
}.

Record ComplexityFactors : Type := mkComplexityFactors {
  filesCount : Z;
  linesChanged : Z;
  categoriesCount : Z
}.

(** Result of [assessOverallComplexity]. *)
Record Complexity : Type := mkComplexity {
  cx_level : string;
  cx_score : Z;
  cx_factors : ComplexityFactors
}.

(** Result of [assessRisk]. *)
Record RiskAssessment : Type := mkRiskAssessment {
  ra_level : string;
  ra_score : Z;
  ra_factors : list string
}.

(** Result of [performSemanticAnalysis]. *)
Record SemanticAnalysis : Type := mkSemanticAnalysis {
  hasApiChanges : bool;
  hasDbChanges : bool;
  hasUiChanges : bool;
  hasConfigChanges : bool;
  affectedFeatures : list string;
  sa_riskLevel : string;
  sa_patterns : list string;
  sa_frameworks : list string;
  sa_codeElements : list string
}.

(** The object built by [getCommitAnalysis]; [author] and [date] are
    [undefined] when the first line of the git output has too few fields. *)
Record CommitAnalysis : Type := mkCommitAnalysis {
  hash : string;
  fullHash : string;
  subject : string;
  author : option string;
  date : option string;
  body : string;
  files : list FileChange;
  diffStats : DiffStats;
  type : string;
  scope : option string;
  breaking : bool;
  semanticAnalysis : SemanticAnalysis;
  ca_complexity : Complexity;
  riskAssessment : RiskAssessment
}.

(** The elements of [new Set(xs)] in insertion order: the first
    occurrence of each one. *)
Fixpoint uniq_from (seen xs : list string) : list string :=
  match xs with
  | [] => []
  | x :: rest =>
      if existsb (String.eqb x) seen then uniq_from seen rest
      else x :: uniq_from (x :: seen) rest
  end.
Definition uniq (xs : list string) : list string := uniq_from [] xs.

Definition zlength {A} (l : list A) : Z := Z.of_nat (length l).

(** [files.some(f => f.category === c)] *)
Definition someCategory (c : string) (fs : list FileChange) : bool :=
  existsb (fun f => String.eqb (category f) c) fs.

(* ===================================================================== *)
(** * Commit aggregator: complexity and risk                              *)
(* ===================================================================== *)

(** [assessOverallComplexity(files, diffStats)] *)
Definition assessOverallComplexity (files : list FileChange) (diffStats : DiffStats)
  : Complexity :=
  let filesCount := zlength files in
  let linesChanged := insertions diffStats + deletions diffStats in
  let complexityScore := 0 in
  (* File count impact *)
  let complexityScore :=
    if filesCount >? 50 then complexityScore + 5
    else if filesCount >? 20 then complexityScore + 3
    else if filesCount >? 10 then complexityScore + 2
    else if filesCount >? 5 then complexityScore + 1
    else complexityScore in
  (* Lines changed impact *)
  let complexityScore :=
    if linesChanged >? 5000 then complexityScore + 5
    else if linesChanged >? 1000 then complexityScore + 3
    else if linesChanged >? 500 then complexityScore + 2
    else if linesChanged >? 100 then complexityScore + 1
    else complexityScore in
  (* File type diversity *)
  let categories := uniq (map category files) in
  let complexityScore :=
    if zlength categories >? 4 then complexityScore + 2
    else if zlength categories >? 2 then complexityScore + 1
    else complexityScore in
  (* Determine complexity level *)
  let level :=
    if complexityScore >=? 8 then "very high"
    else if complexityScore >=? 6 then "high"
    else if complexityScore >=? 4 then "medium"
    else if complexityScore >=? 2 then "low"
    else "minimal" in
  {| cx_level := level;
     cx_score := complexityScore;
     cx_factors := {| filesCount := filesCount;
                      linesChanged := linesChanged;
                      categoriesCount := zlength categories |} |}.

Definition securityKeywords : list string :=
  ["auth"; "security"; "password"; "token"; "permission"].

(** One step of [assessRisk]: when the condition holds, add the points
    and push the factor name. *)
Definition risk_factor (cond : bool) (points : Z) (name : string)
  (acc : Z * list string) : Z * list string :=
  if cond then (fst acc + points, snd acc ++ [name]) else acc.

(** [assessRisk(files, diffStats, subject, body)] *)
Definition assessRisk (files : list FileChange) (diffStats : DiffStats)
  (subject body : string) : RiskAssessment :=
  let acc := (0, []) in
  (* Breaking changes *)
  let acc := risk_factor (isBreakingChange subject body) 5
                         "Breaking changes detected" acc in
  (* Database changes *)
  let acc := risk_factor (someCategory "database" files) 3
                         "Database schema changes" acc in
  (* Configuration changes *)
  let acc := risk_factor (someCategory "config" files) 2
                         "Configuration changes" acc in
  (* Large scale changes *)
  let acc := risk_factor
               ((zlength files >? 50) ||
                (insertions diffStats + deletions diffStats >? 2000))
               2 "Large scale changes" acc in
  (* Security-related changes *)
  let acc := risk_factor
               (existsb (fun keyword =>
                           JS.includes (JS.toLowerCase subject) keyword ||
                           JS.includes (JS.toLowerCase body) keyword)
                        securityKeywords)
               3 "Security-related changes" acc in
  let riskScore := fst acc in
  let level :=
    if riskScore >=? 8 then "critical"
    else if riskScore >=? 6 then "high"
    else if riskScore >=? 4 then "medium"
    else if riskScore >=? 2 then "low-medium"
    else "low" in
  {| ra_level := level; ra_score := riskScore; ra_factors := snd acc |}.

(** Notions used to state facts about [assessRisk]: the security-keyword
    test, the points of one factor, and the thresholds of the level. *)
Definition securityHit (subject body : string) : bool :=
  existsb (fun keyword =>
             JS.includes (JS.toLowerCase subject) keyword ||
             JS.includes (JS.toLowerCase body) keyword)
          securityKeywords.

Definition points (cond : bool) (p : Z) : Z := if cond then p else 0.

Definition riskLevelOf (score : Z) : string :=
  if score >=? 8 then "critical"
  else if score >=? 6 then "high"
  else if score >=? 4 then "medium"
  else if score >=? 2 then "low-medium"
  else "low".

(* ===================================================================== *)
(** * Model selector ([AIProvider])                                       *)
(* ===================================================================== *)

Module AIProvider.

Inductive Provider : Type := Azure | OpenAI | NoProvider.

(** [this.modelConfig] *)
Record ModelConfig : Type := mkModelConfig {
  default : string;
  simple : string;
  complex : string;
  reasoning : string;
  advanced_reasoning : string;
  reasoning_legacy : string;
  advanced_reasoning_legacy : string;
  nano : string
}.

(** The configuration when no environment variable overrides a tier. *)
Definition defaultModelConfig : ModelConfig :=
  {| default := "gpt-4.1";
     simple := "gpt-4.1-mini";
     complex := "gpt-4.1";
     reasoning := "o4-mini";
     advanced_reasoning := "o4";
     reasoning_legacy := "o3-mini";
     advanced_reasoning_legacy := "o3";
     nano := "gpt-4.1-nano" |}.

(** The argument of [selectModelForCommit]; [files] and [message] may be
    missing. *)
Record CommitInfo : Type := mkCommitInfo {
  ci_files : option (list string);
  additions : Z;
  deletions : Z;
  message : option string;
  ci_breaking : bool;
  ci_complex : bool
}.

(** [commitInfo.message?.includes(p)], as a condition. *)
Definition messageIncludes (info : CommitInfo) (f : string -> string) (p : string) : bool :=
  match message info with
  | Some msg => JS.includes (f msg) p
  | None => false
  end.

(** [selectModelForCommit(commitInfo)] *)
Definition selectModelForCommit (activeProvider : Provider) (modelConfig : ModelConfig)
  (commitInfo : CommitInfo) : string :=
  let filesChanged :=
    match ci_files commitInfo with Some fs => zlength fs | None => 0 end in
  let linesChanged := additions commitInfo + deletions commitInfo in
  let hasBreakingChanges :=
    messageIncludes commitInfo id "BREAKING" || messageIncludes commitInfo id "!:" in
  let hasComplexLogic :=
    messageIncludes commitInfo JS.toLowerCase "refactor" ||
    messageIncludes commitInfo JS.toLowerCase "algorithm" ||
    messageIncludes commitInfo JS.toLowerCase "architecture" in
  if (filesChanged >? 100) || (linesChanged >? 5000) || hasBreakingChanges || hasComplexLogic
  then
    match activeProvider with
    | Azure =>
        if (filesChanged >? 200) || (linesChanged >? 10000)
        then advanced_reasoning modelConfig
        else reasoning modelConfig
    | _ => complex modelConfig
    end
  else if (filesChanged >? 20) || (linesChanged >? 1000) then complex modelConfig
  else if (filesChanged <? 3) && (linesChanged <? 50) then nano modelConfig
  else if (filesChanged <? 10) && (linesChanged <? 200) then simple modelConfig
  else default modelConfig.

End AIProvider.

(** The [commitInfo] that [AIChangelogGenerator.selectOptimalModel] hands
    to the provider. *)
Definition commitInfoOf (commitAnalysis : CommitAnalysis) : AIProvider.CommitInfo :=
  let hasArchitecturalChanges :=
    existsb (String.eqb "refactor") (sa_patterns (semanticAnalysis commitAnalysis)) ||
    existsb (String.eqb "architecture") (sa_patterns (semanticAnalysis commitAnalysis)) ||
    (zlength (sa_frameworks (semanticAnalysis commitAnalysis)) >? 2) in
  {| AIProvider.ci_files := Some (map filePath (files commitAnalysis));
     AIProvider.additions := insertions (diffStats commitAnalysis);
     AIProvider.deletions := deletions (diffStats commitAnalysis);
     AIProvider.message := Some (subject commitAnalysis);
     AIProvider.ci_breaking := breaking commitAnalysis;
     AIProvider.ci_complex := hasArchitecturalChanges |}.

(* ===================================================================== *)
(** * Diff classifier                                                     *)
(* ===================================================================== *)

(** What the JavaScript runtime provides and the program only calls: the
    regular-expression engine, for the expressions that are more than a
    literal prefix, suffix or infix test, and [Date.parse].  An expression
    is named by its literal as written in the source.
    - [regex_test r s] is [r.test(s)];
    - [regex_match r s] is [s.match(r)] for an expression without the [g]
      flag: [None] for [null], otherwise the array of the whole match and
      the groups, a group that took no part being [None];
    - [regex_matchAll1 r s] lists [match[1]] over [s.matchAll(r)];
    - [date_parses s] is [!isNaN(Date.parse(s))];
    - [json_parse s] is [JSON.parse(s)], [None] when it throws. *)
Record Runtime : Type := mkRuntime {
  regex_test : string -> string -> bool;
  regex_match : string -> string -> option (list (option string));
  regex_matchAll1 : string -> string -> list string;
  date_parses : string -> bool;
  json_parse : string -> option jsval
}.

(** [match[i]] for a group that takes part in every match of its
    expression. *)
Definition group (i : nat) (groups : list (option string)) : string :=
  match nth i groups None with Some s => s | None => "" end.

(** The git subprocess: [execGit command] is the standard output, or
    [None] when [execSync] fails and [execGit] throws. *)
Definition Git : Type := string -> option string.

(** [execGitSafe(command)]: the output, or [''] on failure. *)
Definition execGitSafe (git : Git) (command : string) : string :=
  match git command with Some out => out | None => "" end.

Definition dquote : string := String (ascii_of_nat 34) EmptyString.

Definition unavailable : string := "Binary file or diff unavailable".

(** [!diff || diff === 'Binary file or diff unavailable'] *)
Definition diffMissing (diff : string) : bool :=
  JS.falsy diff || String.eqb diff unavailable.

(** [xs.some(suffix => s.endsWith(suffix))]: the source writes these tests
    as [s.match(/\.(a|b|c)$/)]. *)
Definition endsWithAny (s : string) (suffixes : list string) : bool :=
  existsb (JS.endsWith s) suffixes.

Definition startsWithAny (s : string) (prefixes : list string) : bool :=
  existsb (JS.startsWith s) prefixes.

(** [categorizeFile(filePath)] *)
Definition categorizeFile (filePath : string) : string :=
  if JS.falsy filePath then "other" else
  let pathLower := JS.toLowerCase filePath in
  if endsWithAny pathLower [".ts"; ".tsx"; ".js"; ".jsx"] then "source"
  else if endsWithAny pathLower [".css"; ".scss"; ".sass"; ".less"; ".styl"] then "style"
  else if endsWithAny pathLower [".json"; ".yaml"; ".yml"; ".toml"; ".ini"; ".xml"] then "config"
  else if endsWithAny pathLower [".md"; ".txt"; ".rst"; ".adoc"] then "docs"
  else if endsWithAny pathLower
            [".test.ts"; ".test.tsx"; ".test.js"; ".test.jsx";
             ".spec.ts"; ".spec.tsx"; ".spec.js"; ".spec.jsx"] then "test"
  else if endsWithAny pathLower [".sql"; ".prisma"] || JS.includes pathLower "migration"
       then "database"
  else if endsWithAny pathLower [".png"; ".jpg"; ".jpeg"; ".gif"; ".svg"; ".webp"; ".ico"]
       then "asset"
  else if endsWithAny pathLower [".sh"; ".bash"; ".ps1"; ".bat"] then "script"
  else "other".

(** The own keys of [languageMap]. *)
Definition languageMap : list (string * string) :=
  [("ts", "TypeScript"); ("tsx", "TypeScript React"); ("js", "JavaScript");
   ("jsx", "JavaScript React"); ("py", "Python"); ("java", "Java"); ("c", "C");
   ("cpp", "C++"); ("go", "Go"); ("rs", "Rust"); ("php", "PHP"); ("rb", "Ruby");
   ("swift", "Swift"); ("kt", "Kotlin"); ("css", "CSS"); ("scss", "SCSS");
   ("sass", "Sass"); ("html", "HTML"); ("json", "JSON"); ("md", "Markdown");
   ("sql", "SQL"); ("yml", "YAML"); ("yaml", "YAML"); ("toml", "TOML");
   ("sh", "Shell"); ("bash", "Bash")].

Fixpoint assoc (k : string) (table : list (string * string)) : option string :=
  match table with
  | [] => None
  | (k', v) :: rest => if String.eqb k k' then Some v else assoc k rest
  end.

(** The properties that an object literal inherits from
    [Object.prototype], each with the text that a template literal makes
    of its value: the source text of a built-in function as Node prints
    it, and [[object Object]] for the prototype object that [__proto__]
    reads. *)
Definition objectPrototype : list (string * string) :=
  [("constructor", "function Object() { [native code] }");
   ("__defineGetter__", "function __defineGetter__() { [native code] }");
   ("__defineSetter__", "function __defineSetter__() { [native code] }");
   ("hasOwnProperty", "function hasOwnProperty() { [native code] }");
   ("__lookupGetter__", "function __lookupGetter__() { [native code] }");
   ("__lookupSetter__", "function __lookupSetter__() { [native code] }");
   ("isPrototypeOf", "function isPrototypeOf() { [native code] }");
   ("propertyIsEnumerable", "function propertyIsEnumerable() { [native code] }");
   ("toString", "function toString() { [native code] }");
   ("valueOf", "function valueOf() { [native code] }");
   ("__proto__", "[object Object]");
   ("toLocaleString", "function toLocaleString() { [native code] }")].

(** [table[key]] for an object literal [table] whose own properties hold
    strings: the own property, else the inherited one, else
    [undefined]. *)
Inductive Property : Type :=
  | Own (value : string)
  | Inherited (key : string)
  | Undefined.

Definition property (table : list (string * string)) (key : string) : Property :=
  match assoc key table with
  | Some value => Own value
  | None =>
      match assoc key objectPrototype with
      | Some _ => Inherited key
      | None => Undefined
      end
  end.

(** [languageMap[ext] || 'Unknown']: the names of the table are not
    empty, and a function or an object is truthy. *)
Definition languageOf (ext : string) : Language :=
  match property languageMap ext with
  | Own lang => LanguageName lang
  | Inherited key => PrototypeMember key
  | Undefined => LanguageName "Unknown"
  end.

(** [detectLanguage(filePath)]; [toLowerCase] is
    [String.prototype.toLowerCase], which also maps letters outside
    ASCII (U+212A, the Kelvin sign, to [k]). *)
Definition detectLanguageWith (toLowerCase : string -> string)
  (filePath : string) : Language :=
  if JS.falsy filePath then LanguageName "Unknown" else
  let ext := toLowerCase (List.last (JS.split "." filePath) "") in
  languageOf ext.

(** The method on paths whose letters are ASCII letters. *)
Definition detectLanguage (filePath : string) : Language :=
  detectLanguageWith JS.toLowerCase filePath.

(** [assessFileImportance(filePath, status)] *)
Definition assessFileImportance (filePath status : string) : Z :=
  if JS.falsy filePath then 1 else
  let score := 0 in
  (* Core application files *)
  let score := if JS.includesAny filePath ["/pages/"; "/app/"; "/src/"; "/components/"]
               then score + 3 else score in
  let score := if JS.includesAny filePath ["/api/"; "/server/"; "/backend/"]
               then score + 3 else score in
  let score := if JS.includesAny filePath ["/utils/"; "/lib/"; "/helpers/"]
               then score + 2 else score in
  (* Configuration files *)
  let score := if startsWithAny filePath
                    ["package.json"; "tsconfig"; "webpack.config"; "babel.config"]
               then score + 3 else score in
  let score := if JS.includesAny (JS.toLowerCase filePath)
                    [".env"; "dockerfile"; "docker-compose"]
               then score + 2 else score in
  (* Database/Schema files *)
  let score := if JS.includesAny filePath ["/migrations/"; "/schema/"; "/database/"]
               then score + 3 else score in
  (* Status impact *)
  let score := if String.eqb status "A" then score + 2 else score in
  let score := if String.eqb status "D" then score + 1 else score in
  Z.min score 5.

(** [lines.filter(line => line.startsWith(p)).length] over
    [diff.split('\n')] *)
Definition countLinesStarting (p : string) (diff : string) : Z :=
  zlength (List.filter (fun line => JS.startsWith line p)
                  (JS.split (ascii_of_nat 10) diff)).

(** [assessChangeComplexity(diff)] *)
Definition assessChangeComplexity (diff : string) : Z :=
  if diffMissing diff then 1 else
  let additions := countLinesStarting "+" diff in
  let deletions := countLinesStarting "-" diff in
  let total := additions + deletions in
  if total <? 10 then 1
  else if total <? 50 then 2
  else if total <? 100 then 3
  else if total <? 200 then 4
  else 5.

(** The sets and arrays that [analyzeSemanticChanges] fills, in order of
    insertion. *)
Record SemanticAcc : Type := mkSemanticAcc {
  acc_changeType : string;
  acc_patterns : list string;
  acc_frameworks : list string;
  acc_codeElements : list string;
  acc_apiChanges : list string
}.

Definition addPattern (p : string) (a : SemanticAcc) : SemanticAcc :=
  mkSemanticAcc (acc_changeType a) (acc_patterns a ++ [p]) (acc_frameworks a)
                (acc_codeElements a) (acc_apiChanges a).
Definition addFramework (f : string) (a : SemanticAcc) : SemanticAcc :=
  mkSemanticAcc (acc_changeType a) (acc_patterns a) (acc_frameworks a ++ [f])
                (acc_codeElements a) (acc_apiChanges a).
Definition addCodeElements (es : list string) (a : SemanticAcc) : SemanticAcc :=
  mkSemanticAcc (acc_changeType a) (acc_patterns a) (acc_frameworks a)
                (acc_codeElements a ++ es) (acc_apiChanges a).
Definition addApiChange (c : string) (a : SemanticAcc) : SemanticAcc :=
  mkSemanticAcc (acc_changeType a) (acc_patterns a) (acc_frameworks a)
                (acc_codeElements a) (acc_apiChanges a ++ [c]).
Definition setChangeType (t : string) (a : SemanticAcc) : SemanticAcc :=
  mkSemanticAcc t (acc_patterns a) (acc_frameworks a)
                (acc_codeElements a) (acc_apiChanges a).

Definition when (cond : bool) (f : SemanticAcc -> SemanticAcc) (a : SemanticAcc)
  : SemanticAcc := if cond then f a else a.

(** [convertSetsToArrays(analysis)] *)
Definition convertSetsToArrays (a : SemanticAcc) : SemanticChanges :=
  {| changeType := acc_changeType a;
     sc_patterns := uniq (acc_patterns a);
     sc_frameworks := uniq (acc_frameworks a);
     sc_keywords := [];
     sc_codeElements := uniq (acc_codeElements a);
     sc_apiChanges := acc_apiChanges a;
     sc_dataChanges := [] |}.

Definition codePatterns : list (string * string) :=
  [("function_definition", "/(?:export\s+)?(?:async\s+)?function\s+(\w+)/g");
   ("component_definition",
    "/(?:export\s+)?(?:const|function)\s+(\w+Component|\w+Page|\w+Layout)/g");
   ("hook_definition", "/(?:export\s+)?(?:const|function)\s+(use\w+)/g");
   ("type_definition", "/(?:export\s+)?(?:type|interface)\s+(\w+)/g");
   ("constant_definition", "/(?:export\s+)?const\s+(\w+)/g")].

Definition advancedPatterns : list (string * list string) :=
  [("error_handling", ["/try\s*{/"; "/catch\s*\(/"; "/throw\s+/"; "/Error\(/"]);
   ("async_operations", ["/async\s+/"; "/await\s+/"; "/Promise\./"; "/\.then\(/"]);
   ("data_validation", ["/validate/"; "/schema/"; "/validation/"; "/validator/i"]);
   ("authentication", ["/auth/"; "/login/"; "/logout/"; "/token/"; "/jwt/"; "/session/i"]);
   ("authorization", ["/permission/"; "/role/"; "/access/"; "/policy/"; "/guard/i"]);
   ("caching", ["/cache/"; "/memo/"; "/useMemo/"; "/useCallback/i"]);
   ("testing", ["/test/"; "/spec/"; "/mock/"; "/describe/"; "/it\(/"]);
   ("styling", ["/className/"; "/css/"; "/styled/"; "/style/"]);
   ("state_management", ["/useState/"; "/useReducer/"; "/store/"; "/state/i"]);
   ("routing", ["/router/"; "/navigate/"; "/redirect/"; "/route/"; "/Link/"]);
   ("data_fetching", ["/fetch/"; "/axios/"; "/useQuery/"; "/useMutation/"; "/api/i"])].

Definition httpMethods : list string := ["GET"; "POST"; "PUT"; "DELETE"; "PATCH"].

(** [analyzeSemanticChanges(diff, filePath)] *)
Definition analyzeSemanticChanges (rt : Runtime) (diff filePath : string)
  : SemanticChanges :=
  let analysis := mkSemanticAcc "modification" [] [] [] [] in
  if diffMissing diff then convertSetsToArrays analysis else
  (* Framework detection *)
  let analysis :=
    when (JS.includes filePath "database/" || JS.includes filePath "sql/" ||
          JS.includes filePath "migrations/")
      (fun a =>
         let a := addFramework "Database" a in
         let a := when (JS.includes diff "CREATE TABLE" || JS.includes diff "ALTER TABLE")
                    (fun a => addPattern "database_schema" (setChangeType "schema_change" a)) a in
         when (JS.includes diff "CREATE POLICY" || JS.includes diff "ALTER POLICY")
           (addPattern "security_policy") a)
      analysis in
  let analysis :=
    when (JS.endsWith filePath ".tsx" || JS.endsWith filePath ".jsx")
      (fun a =>
         let a := addFramework "React" a in
         let a := when (JS.includes diff "useState" || JS.includes diff "useEffect")
                    (addPattern "react_hooks") a in
         when (JS.includes diff "useCallback" || JS.includes diff "useMemo")
           (addPattern "performance_optimization") a)
      analysis in
  let analysis :=
    when (JS.includes filePath "/api/" || JS.includes filePath "route.")
      (fun a =>
         let a := setChangeType "api_change" (addFramework "API" a) in
         fold_left
           (fun a method =>
              when (JS.includes diff ("export async function " +:+ method) ||
                    JS.includes diff ("app." +:+ JS.toLowerCase method))
                (fun a => addPattern "api_endpoint" (addApiChange (method +:+ " endpoint") a))
                a)
           httpMethods a)
      analysis in
  (* Code element detection *)
  let analysis :=
    fold_left
      (fun a '(pattern, regex) =>
         let matches := regex_matchAll1 rt regex diff in
         when (zlength matches >? 0)
           (fun a => addCodeElements matches (addPattern pattern a)) a)
      codePatterns analysis in
  (* Advanced pattern detection *)
  let analysis :=
    fold_left
      (fun a '(pattern, regexes) =>
         when (existsb (fun regex => regex_test rt regex diff) regexes)
           (addPattern pattern) a)
      advancedPatterns analysis in
  convertSetsToArrays analysis.

(** [determineChangeScope(filePath)] *)
Definition determineChangeScope (filePath : string) : string :=
  if JS.falsy filePath then "local"
  else if JS.includes filePath "/lib/" || JS.includes filePath "/utils/" ||
          JS.includes filePath "shared/" then "wide"
  else if JS.includes filePath "/components/" || JS.includes filePath "/hooks/"
       then "moderate"
  else "local".

Definition breakingPatterns : list string :=
  ["/BREAKING\s*CHANGE/i";
   "/export\s+(?:interface|type)\s+\w+.*{/";
   "/export\s+(?:const|function)\s+\w+/";
   "/DROP\s+TABLE/i";
   "/ALTER\s+TABLE.*DROP/i";
   "/removeField/i";
   "/deleteColumn/i"].

Definition userFacingPaths : list string :=
  ["/pages/"; "/app/"; "/src/"; "/components/"; "/views/"; "/templates/";
   "/public/"; ".css"; ".scss"; ".html"].

Definition securityPatterns : list string :=
  ["/auth/i"; "/security/i"; "/password/i"; "/token/i"; "/jwt/i";
   "/encrypt/i"; "/decrypt/i"; "/hash/i"; "/validate/i"; "/sanitize/i";
   "/policy/i"; "/permission/i"; "/role/i"; "/access/i"; "/cors/i"].

Definition performancePatterns : list string :=
  ["/lazy/i"; "/memo/i"; "/callback/i"; "/optimize/i"; "/cache/i";
   "/index/i"; "/query/i"; "/batch/i"; "/concurrent/i"; "/async/i"].

(** [patterns.some(pattern => pattern.test(diff))] *)
Definition someRegex (rt : Runtime) (patterns : list string) (s : string) : bool :=
  existsb (fun pattern => regex_test rt pattern s) patterns.

(** [analyzeFunctionalImpact(diff, filePath, status)] *)
Definition analyzeFunctionalImpact (rt : Runtime) (diff filePath status : string)
  : FunctionalImpact :=
  if diffMissing diff then
    {| fi_scope := determineChangeScope filePath;
       fi_breaking := false; fi_userFacing := false; fi_apiChanges := false;
       fi_dataChanges := false; fi_securityRelated := false;
       fi_performanceImpact := false; fi_migrationRequired := false;
       fi_deploymentImpact := "low" |}
  else
    let breaking := someRegex rt breakingPatterns diff in
    let userFacing := JS.includesAny filePath userFacingPaths in
    let apiChanges :=
      JS.includes filePath "/api/" || JS.includes filePath "route." ||
      JS.includes diff "export async function" || JS.includes diff "app.get" ||
      JS.includes diff "app.post" in
    let dataChanges :=
      JS.includes filePath "database/" || JS.includes filePath "migration" ||
      JS.includes filePath "schema" || JS.includes diff "CREATE TABLE" ||
      JS.includes diff "ALTER TABLE" in
    let securityRelated := someRegex rt securityPatterns diff in
    let performanceImpact := someRegex rt performancePatterns diff in
    let migrationRequired :=
      breaking || dataChanges || JS.includes filePath "package.json" ||
      JS.includes filePath ".env" in
    let deploymentImpact :=
      if breaking || dataChanges then "high"
      else if apiChanges || securityRelated || JS.includes filePath "config" then "medium"
      else "low" in
    {| fi_scope := determineChangeScope filePath;
       fi_breaking := breaking; fi_userFacing := userFacing;
       fi_apiChanges := apiChanges; fi_dataChanges := dataChanges;
       fi_securityRelated := securityRelated;
       fi_performanceImpact := performanceImpact;
       fi_migrationRequired := migrationRequired;
       fi_deploymentImpact := deploymentImpact |}.

Definition highPriorityPaths : list string :=
  ["/dashboard"; "/billing"; "/auth"; "/onboarding";
   "/checkout"; "/payment"; "/subscription"; "/profile"].

Definition mediumPriorityPaths : list string :=
  ["/app/"; "/components/ui"; "/components/forms"; "/api/auth"; "/api/users"].

Definition revenueKeywords : list string :=
  ["/payment/i"; "/billing/i"; "/subscription/i"; "/checkout/i"; "/revenue/i";
   "/pricing/i"; "/plan/i"; "/upgrade/i"; "/downgrade/i"].

(** [assessBusinessRelevance(filePath, diff)] *)
Definition assessBusinessRelevance (rt : Runtime) (filePath diff : string)
  : BusinessRelevance :=
  if JS.falsy filePath then
    {| br_priority := "low"; br_userImpact := "minimal"; br_businessValue := "technical";
       br_customerFacing := false; br_revenueImpact := false |}
  else
    let revenueImpact :=
      if JS.truthy diff then someRegex rt revenueKeywords diff else false in
    if JS.includesAny filePath highPriorityPaths then
      {| br_priority := "high"; br_userImpact := "minimal"; br_businessValue := "direct";
         br_customerFacing := true; br_revenueImpact := revenueImpact |}
    else if JS.includesAny filePath mediumPriorityPaths then
      {| br_priority := "medium"; br_userImpact := "minimal";
         br_businessValue := "indirect";
         br_customerFacing := true; br_revenueImpact := revenueImpact |}
    else
      {| br_priority := "low"; br_userImpact := "minimal"; br_businessValue := "technical";
         br_customerFacing := false; br_revenueImpact := revenueImpact |}.

(** [s.slice(0, 1000)] *)
Fixpoint take_chars (n : nat) (s : string) : string :=
  match n, s with
  | S n', String c s' => String c (take_chars n' s')
  | _, _ => EmptyString
  end.

(** The command [`git show ${commitHash} --pretty=format: -U5 -- "${filePath}"`]
    whose output is the diff of one file. *)
Definition diffCommandOf (commitHash filePath : string) : string :=
  "git show " +:+ commitHash +:+ " --pretty=format: -U5 -- " +:+
  dquote +:+ filePath +:+ dquote.

(** [analyzeFileChange(commitHash, status, filePath)].  The method wraps
    its body in [try]/[catch]; the handler counts an error and returns
    [null], here [None]. *)
Definition analyzeFileChange (rt : Runtime) (git : Git)
  (commitHash status filePath : string) : M (option FileChange) :=
  try_catch
    (let diffCommand := diffCommandOf commitHash filePath in
     (* [execGitSafe] does not throw, so the inner handler that would set
        the diff to the marker text is never entered. *)
     let diff := execGitSafe git diffCommand in
     let beforeContent :=
       if negb (String.eqb status "A") && negb (String.eqb diff unavailable)
       then take_chars 1000
              (execGitSafe git ("git show " +:+ commitHash +:+ "~1:" +:+
                                dquote +:+ filePath +:+ dquote))
       else "" in
     let afterContent :=
       if negb (String.eqb status "D") && negb (String.eqb diff unavailable)
       then take_chars 1000
              (execGitSafe git ("git show " +:+ commitHash +:+ ":" +:+
                                dquote +:+ filePath +:+ dquote))
       else "" in
     ret (Some
       {| status := status;
          filePath := filePath;
          diff := diff;
          beforeContent := beforeContent;
          afterContent := afterContent;
          category := categorizeFile filePath;
          language := detectLanguage filePath;
          importance := assessFileImportance filePath status;
          complexity := assessChangeComplexity diff;
          semanticChanges := analyzeSemanticChanges rt diff filePath;
          functionalImpact := analyzeFunctionalImpact rt diff filePath status;
          businessRelevance := assessBusinessRelevance rt filePath diff |}))
    (fun _ => update bump_errors ;;; ret None).

(* ===================================================================== *)
(** * Commit record parser ([GitManager])                                 *)
(* ===================================================================== *)

Module GitManager.

Definition typeRegex : string :=
  "/^(feat|fix|docs|style|refactor|perf|test|build|ci|chore|revert|breaking|security|deps|config|ui|api|db|wip)(\(.+\))?!?:/i".

Definition scopeRegex : string := "/^\w+\((.+)\)!?:/".

(** [inferTypeFromMessage(message)] *)
Definition inferTypeFromMessage (message : string) : string :=
  if JS.falsy message then "other" else
  let lowerMessage := JS.toLowerCase message in
  if JS.includesAny lowerMessage ["add"; "new"; "implement"] then "feat"
  else if JS.includesAny lowerMessage ["fix"; "bug"; "resolve"] then "fix"
  else if JS.includesAny lowerMessage ["update"; "upgrade"; "improve"] then "refactor"
  else if JS.includesAny lowerMessage ["remove"; "delete"; "clean"] then "chore"
  else if JS.includesAny lowerMessage ["test"; "spec"] then "test"
  else if JS.includesAny lowerMessage ["doc"; "readme"] then "docs"
  else if JS.includesAny lowerMessage ["style"; "format"; "lint"] then "style"
  else if JS.includesAny lowerMessage ["performance"; "perf"; "optimize"] then "perf"
  else if JS.includesAny lowerMessage ["security"; "vulnerability"] then "security"
  else if JS.includesAny lowerMessage ["config"; "setting"] then "config"
  else if JS.includesAny lowerMessage ["build"; "deploy"; "release"] then "build"
  else if JS.includesAny lowerMessage ["ci"; "workflow"; "action"] then "ci"
  else "other".

(** [extractCommitType(message)] *)
Definition extractCommitType (rt : Runtime) (message : string) : string :=
  if JS.falsy message then "other" else
  match regex_match rt typeRegex message with
  | Some groups => JS.toLowerCase (group 1 groups)
  | None => inferTypeFromMessage message
  end.

(** [extractCommitScope(message)] *)
Definition extractCommitScope (rt : Runtime) (message : string) : option string :=
  if JS.falsy message then None else
  match regex_match rt scopeRegex message with
  | Some groups => Some (JS.trim (group 1 groups))
  | None => None
  end.

(** The extra fields of the [detailed] format. *)
Record Details : Type := mkDetails {
  parents : list string;
  refs : string;
  isMerge : bool
}.

(** The objects [parseCommitOutput] builds, one shape per format. *)
Inductive Commit : Type :=
  | OnelineBare (hash : string) (message : string)
  | Oneline (hash shortHash message : string)
  | Simple (shortHash message author date type : string) (scope : option string)
  | Full (hash shortHash subject body message author email authorDate commitDate
          type : string) (scope : option string) (breaking : bool)
         (details : option Details)
  | MessageOnly (message : string).

Definition NUL : ascii := ascii_of_nat 0.
Definition LF : ascii := ascii_of_nat 10.

Definition isFullOrDetailed (format : string) : bool :=
  String.eqb format "full" || String.eqb format "detailed".

(** The separator [parseCommitOutput] splits the output on. *)
Definition separatorOf (format : string) : ascii :=
  if isFullOrDetailed format then NUL else LF.

(** The variable [lines] of [parseCommitOutput]. *)
Definition linesOf (output format : string) : list string :=
  if isFullOrDetailed format
  then List.filter JS.truthy (JS.split NUL (JS.trim output))
  else List.filter (fun line => JS.truthy (JS.trim line)) (JS.split LF (JS.trim output)).

(** [line.indexOf(' ')] splits a line of the [oneline] format. *)
Fixpoint breakAtSpace (line : string) : option (string * string) :=
  match line with
  | EmptyString => None
  | String c rest =>
      if Ascii.eqb c " " then Some (EmptyString, rest)
      else match breakAtSpace rest with
           | Some (pre, post) => Some (String c pre, post)
           | None => None
           end
  end.

Definition onelineCommit (line : string) : Commit :=
  match breakAtSpace line with
  | None => OnelineBare line ""
  | Some (pre, post) => Oneline pre pre post
  end.

(** The callback of [lines.map] for the [simple] format; [None] is the
    [null] of a malformed line. *)
Definition simpleCommit (rt : Runtime) (line : string) : option Commit :=
  match JS.split "|" line with
  | shortHash :: message :: author :: date :: _ =>
      Some (Simple (JS.trim shortHash) (JS.trim message) (JS.trim author) (JS.trim date)
                   (extractCommitType rt message) (extractCommitScope rt message))
  | _ => None
  end.

(** The callback of [lines.map] for the [full] and [detailed] formats. *)
Definition fullCommit (rt : Runtime) (format : string) (line : string) : option Commit :=
  match JS.split "|" line with
  | fullHash :: shortHash :: subject :: body :: author :: email :: authorDate ::
    commitDate :: more =>
      let trimmedBody := JS.trim body in
      let details :=
        if String.eqb format "detailed" then
          let parents :=
            match more with
            | parents :: _ => List.filter JS.truthy (JS.split " " (JS.trim parents))
            | [] => []
            end in
          let refs :=
            match more with
            | _ :: refs :: _ => JS.trim refs
            | _ => ""
            end in
          Some (mkDetails parents refs (Nat.ltb 1 (length parents)))
        else None in
      Some (Full (JS.trim fullHash) (JS.trim shortHash) (JS.trim subject) trimmedBody
                 (JS.trim subject +:+
                  (if JS.truthy trimmedBody
                   then String LF (String LF EmptyString) +:+ trimmedBody
                   else ""))
                 (JS.trim author) (JS.trim email) (JS.trim authorDate)
                 (JS.trim commitDate)
                 (extractCommitType rt subject) (extractCommitScope rt subject)
                 (isBreakingChange subject body)
                 details)
  | _ => None
  end.

(** [xs.filter(Boolean)] over the results of a [map] that may yield
    [null]. *)
Definition dropNull {A} (xs : list (option A)) : list A := omap id xs.

(** [parseCommitOutput(output, format)].  The body sits in a [try] whose
    handler returns the empty list; the operations of the body are total
    on strings, so the handler is not entered. *)
Definition parseCommitOutput (rt : Runtime) (output format : string) : list Commit :=
  if JS.falsy (JS.trim output) then [] else
  let lines := linesOf output format in
  if String.eqb format "oneline" then map onelineCommit lines
  else if String.eqb format "simple" then dropNull (map (simpleCommit rt) lines)
  else if isFullOrDetailed format then dropNull (map (fullCommit rt format) lines)
  else map (fun line => MessageOnly (JS.trim line)) lines.

(** An option of [getCommits] that has a default other than [null]: it
    is not passed (or passed as [undefined]) and the default applies, or
    it is passed as [null], or it is passed with a value. *)
Inductive Arg (A : Type) : Type :=
  | Missing
  | Null
  | Value (a : A).
Arguments Missing {A}.
Arguments Null {A}.
Arguments Value {A} a.

(** The options of [getCommits].  For [since], [until], [author], [grep]
    and [branch], whose default is [null] and which are only tested for
    truth, [None] is an option that was not passed or passed as [null].
    A count is an integer. *)
Record Options : Type := mkOptions {
  count : Arg Z;
  since : option string;
  until : option string;
  author : option string;
  grep : option string;
  format : Arg string;
  excludeMerges : Arg bool;
  branch : option string
}.

(** [x] is passed and truthy. *)
Definition given (x : option string) : option string :=
  match x with
  | Some s => if JS.truthy s then Some s else None
  | None => None
  end.

Definition datePatterns : list string :=
  ["/^\d{4}-\d{2}-\d{2}$/";
   "/^\d{4}-\d{2}-\d{2}\s\d{2}:\d{2}:\d{2}$/";
   "/^\d+\s(seconds?|minutes?|hours?|days?|weeks?|months?|years?)\s+ago$/";
   "/^yesterday$/"; "/^last\s+(week|month|year)$/";
   "/^HEAD~\d+$/"; "/^[a-f0-9]{7,40}$/"].

(** [isValidGitDate(dateStr)] *)
Definition isValidGitDate (rt : Runtime) (dateStr : string) : bool :=
  if JS.falsy dateStr then false
  else existsb (fun pattern => regex_test rt pattern dateStr) datePatterns ||
       date_parses rt dateStr.

(** The [replace] that [getCommits] applies to the author and grep
    filters: a backslash before every double quote and every backslash. *)
Fixpoint escapeQuotes (s : string) : string :=
  match s with
  | EmptyString => EmptyString
  | String c rest =>
      if Ascii.eqb c (ascii_of_nat 34) || Ascii.eqb c (ascii_of_nat 92)
      then String (ascii_of_nat 92) (String c (escapeQuotes rest))
      else String c (escapeQuotes rest)
  end.

Definition formatStrings : list (string * string) :=
  [("simple", "%h|%s|%an|%ad");
   ("full", "%H|%h|%s|%B|%an|%ae|%ad|%cd");
   ("oneline", "%h %s");
   ("detailed", "%H|%h|%s|%B|%an|%ae|%ad|%cd|%P|%D")].

(** The variables [count], [format] and [excludeMerges] after the
    destructuring of [options]: the default replaces a missing option
    only; [None] is [null]. *)
Definition countOf (options : Options) : option Z :=
  match count options with
  | Missing => Some 20
  | Null => None
  | Value n => Some n
  end.

Definition formatOf (options : Options) : option string :=
  match format options with
  | Missing => Some "full"
  | Null => None
  | Value f => Some f
  end.

Definition excludeMergesOf (options : Options) : option bool :=
  match excludeMerges options with
  | Missing => Some true
  | Null => None
  | Value b => Some b
  end.

(** The text of [format] where it is a property key; as the second
    argument of [parseCommitOutput] it is only compared with the names
    of the four formats, none of which [null] or the text [null]
    equals. *)
Definition formatName (options : Options) : string :=
  match formatOf options with
  | Some f => f
  | None => "null"
  end.

(** The pieces [getCommits] appends to [command], in order. *)
Definition branchArg (git : Git) (options : Options) : string :=
  match given (branch options) with
  | Some b =>
      match git ("git rev-parse --verify " +:+ b) with
      | Some _ => " " +:+ b
      | None => ""
      end
  | None => ""
  end.

Definition countArg (options : Options) : string :=
  match countOf options with
  | Some count =>
      if negb (count =? 0) && (count >? 0)
      then " -" +:+ JS.showZ (Z.min count 1000)
      else ""
  | None => ""
  end.

Definition dateArg (rt : Runtime) (flag : string) (value : option string) : string :=
  match given value with
  | Some v =>
      if isValidGitDate rt v then " --" +:+ flag +:+ "=" +:+ dquote +:+ v +:+ dquote
      else ""
  | None => ""
  end.

Definition filterArg (flag : string) (value : option string) : string :=
  match given value with
  | Some v => " --" +:+ flag +:+ "=" +:+ dquote +:+ escapeQuotes v +:+ dquote
  | None => ""
  end.

Definition mergesArg (options : Options) : string :=
  match excludeMergesOf options with
  | Some true => " --no-merges"
  | _ => ""
  end.

(** [formatStrings[format] || formatStrings.full] inside the template
    literal: the own format strings are not empty; an inherited member
    is truthy and is put into the command as its text. *)
Definition formatStringOf (options : Options) : string :=
  match property formatStrings (formatName options) with
  | Own formatString => formatString
  | Inherited key =>
      match assoc key objectPrototype with
      | Some text => text
      | None => ""
      end
  | Undefined => "%H|%h|%s|%B|%an|%ae|%ad|%cd"
  end.

Definition formatArg (options : Options) : string :=
  " --pretty=format:" +:+ dquote +:+ formatStringOf options +:+ dquote +:+
  " --date=iso" +:+
  (if isFullOrDetailed (formatName options) then " -z" else "").

(** The value of [command] when [getCommits] runs it. *)
Definition commandOf (rt : Runtime) (git : Git) (options : Options) : string :=
  "git log" +:+ branchArg git options +:+ countArg options +:+
  dateArg rt "since" (since options) +:+ dateArg rt "until" (until options) +:+
  filterArg "author" (author options) +:+ filterArg "grep" (grep options) +:+
  mergesArg options +:+ formatArg options.

(** [getCommits(options)]: the command is run once, and git's failure is
    caught. *)
Definition getCommits (rt : Runtime) (git : Git) (options : Options) : list Commit :=
  match git (commandOf rt git options) with
  | Some output => parseCommitOutput rt output (formatName options)
  | None => []
  end.

(** [validateCommitHash(hash)] for a string. *)
Definition validateCommitHash (git : Git) (hash : string) : bool :=
  if JS.falsy hash then false
  else match git ("git cat-file -e " +:+ hash) with
       | Some _ => true
       | None => false
       end.

(** Notions used to state facts about the parser: the number of fields of
    a record, and whether the parser keeps a record of a format. *)
Definition fieldCount (record : string) : nat := length (JS.split "|" record).

Definition wellFormed (format : string) (record : string) : bool :=
  if String.eqb format "simple" then Nat.leb 4 (fieldCount record)
  else if isFullOrDetailed format then Nat.leb 8 (fieldCount record)
  else JS.truthy (JS.trim record).

(** What the parser makes of one record of the output. *)
Definition commitOfRecord (rt : Runtime) (format : string) (record : string)
  : option Commit :=
  if String.eqb format "oneline" then
    if JS.truthy (JS.trim record) then Some (onelineCommit record) else None
  else if String.eqb format "simple" then simpleCommit rt record
  else if isFullOrDetailed format then fullCommit rt format record
  else if JS.truthy (JS.trim record) then Some (MessageOnly (JS.trim record)) else None.

(** ** Changed files of the index and of the working tree *)

Definition HT : ascii := ascii_of_nat 9.

Definition statusMap : list (string * string) :=
  [("A", "added"); ("M", "modified"); ("D", "deleted"); ("R", "renamed");
   ("C", "copied"); ("U", "unmerged"); ("T", "type-changed")].

(** [mapDiffStatus(status)]; [status.charAt(0)] is the first character. *)
Definition mapDiffStatus (status : string) : string :=
  if JS.falsy status then "unknown" else
  (* Handle complex statuses like R100 or C85 *)
  let baseStatus := take_chars 1 status in
  match assoc baseStatus statusMap with
  | Some name => name
  | None => status
  end.

Definition typeMap : list (string * string) :=
  [(".js", "javascript"); (".ts", "typescript"); (".tsx", "typescript-react");
   (".jsx", "javascript-react"); (".py", "python"); (".java", "java"); (".c", "c");
   (".cpp", "cpp"); (".go", "go"); (".rs", "rust"); (".php", "php"); (".rb", "ruby");
   (".swift", "swift"); (".kt", "kotlin"); (".md", "documentation"); (".json", "config");
   (".yml", "config"); (".yaml", "config"); (".toml", "config"); (".ini", "config");
   (".xml", "config"); (".css", "stylesheet"); (".scss", "stylesheet");
   (".sass", "stylesheet"); (".less", "stylesheet"); (".html", "markup"); (".vue", "vue");
   (".svelte", "svelte"); (".sql", "database"); (".sh", "script"); (".bash", "script");
   (".zsh", "script"); (".ps1", "script")].

(** [getFileType(filePath)]; [extname] is [path.extname] of the runtime. *)
Definition getFileType (extname : string -> string) (filePath : string) : string :=
  if JS.falsy filePath then "unknown" else
  let ext := JS.toLowerCase (extname filePath) in
  match assoc ext typeMap with
  | Some name => name
  | None => "other"
  end.

(** [GitManager.categorizeFile(filePath)] *)
Definition categorizeFile (filePath : string) : string :=
  if JS.falsy filePath then "other" else
  let pathLower := JS.toLowerCase filePath in
  (* Source code *)
  if endsWithAny pathLower
       [".js"; ".ts"; ".tsx"; ".jsx"; ".py"; ".java"; ".c"; ".cpp"; ".go"; ".rs";
        ".php"; ".rb"; ".swift"; ".kt"]
  then if JS.includes pathLower "test" || JS.includes pathLower "spec"
       then "test" else "source"
  (* Styles *)
  else if endsWithAny pathLower [".css"; ".scss"; ".sass"; ".less"; ".styl"] then "style"
  (* Configuration *)
  else if endsWithAny pathLower [".json"; ".yaml"; ".yml"; ".toml"; ".ini"; ".xml"; ".env"] ||
          JS.includes pathLower "config" ||
          JS.includes pathLower "package.json" ||
          JS.includes pathLower "tsconfig" ||
          JS.includes pathLower "webpack" ||
          JS.includes pathLower "babel"
       then "config"
  (* Documentation *)
  else if endsWithAny pathLower [".md"; ".txt"; ".rst"; ".adoc"] ||
          JS.includes pathLower "readme"
       then "docs"
  (* Database *)
  else if endsWithAny pathLower [".sql"; ".prisma"] ||
          JS.includes pathLower "migration" || JS.includes pathLower "schema"
       then "database"
  (* Assets *)
  else if endsWithAny pathLower
            [".png"; ".jpg"; ".jpeg"; ".gif"; ".svg"; ".webp"; ".ico"; ".bmp"]
       then "asset"
  (* Scripts *)
  else if endsWithAny pathLower [".sh"; ".bash"; ".zsh"; ".ps1"; ".bat"; ".cmd"]
       then "script"
  else "other".

(** An element of the result of [parseDiffOutput]. *)
Record DiffEntry : Type := mkDiffEntry {
  de_status : string;
  de_path : string;
  de_type : string;
  de_category : string
}.

(** The function mapped over the lines by [parseDiffOutput]; [None] is
    [null]. *)
Definition diffEntryOf (extname : string -> string) (line : string) : option DiffEntry :=
  match JS.split HT line with
  | status :: (_ :: _) as pathParts =>
      (* Handle files with tabs in name *)
      let filePath := JS.join (String HT "") pathParts in
      Some {| de_status := mapDiffStatus status;
              de_path := filePath;
              de_type := getFileType extname filePath;
              de_category := categorizeFile filePath |}
  | _ => None
  end.

(** [parseDiffOutput(output)]; [None] is an output that is [null] or
    [undefined]. *)
Definition parseDiffOutput (extname : string -> string) (output : option string)
  : list DiffEntry :=
  match output with
  | None => []
  | Some text =>
      if JS.falsy (JS.trim text) then []
      else dropNull (map (diffEntryOf extname) (JS.split LF (JS.trim text)))
  end.

(** [getStagedChanges()] and [getUnstagedChanges()]: a git call that
    throws gives the empty list. *)
Definition getStagedChanges (extname : string -> string) (git : Git) : list DiffEntry :=
  match git "git diff --cached --name-status" with
  | Some output => parseDiffOutput extname (Some output)
  | None => []
  end.

Definition getUnstagedChanges (extname : string -> string) (git : Git) : list DiffEntry :=
  match git "git diff --name-status" with
  | Some output => parseDiffOutput extname (Some output)
  | None => []
  end.

(** ** Status of the working tree *)

(** The counts of [getStatus()]. *)
Record Status : Type := mkStatus {
  clean : bool;
  st_modified : Z;
  st_added : Z;
  st_deleted : Z;
  st_renamed : Z;
  st_copied : Z;
  st_untracked : Z;
  st_unmerged : Z;
  st_total : Z
}.

(** What [getStatus()] returns: the counts, or the object
    [{ clean: false, error }] when git fails. *)
Inductive StatusResult : Type :=
  | Counted (status : Status)
  | Unreadable.

(** [files.filter(f => f.startsWith(p1) || ...).length] *)
Definition countStarting (prefixes : list string) (files : list string) : Z :=
  zlength (List.filter (fun f => startsWithAny f prefixes) files).

(** [getStatus()] *)
Definition getStatus (git : Git) : StatusResult :=
  match git "git status --porcelain" with
  | None => Unreadable
  | Some output =>
      let files := List.filter JS.truthy (JS.split LF (JS.trim output)) in
      Counted
        {| clean := zlength files =? 0;
           st_modified := countStarting [" M"; "MM"] files;
           st_added := countStarting ["A "; "AM"] files;
           st_deleted := countStarting [" D"; "AD"] files;
           st_renamed := countStarting ["R "] files;
           st_copied := countStarting ["C "] files;
           st_untracked := countStarting ["??"] files;
           st_unmerged := countStarting ["UU"; "AA"] files;
           st_total := zlength files |}
  end.

End GitManager.

(* ===================================================================== *)
(** * Commit analysis ([AIChangelogGenerator])                            *)
(* ===================================================================== *)

Definition typeRegex : string :=
  "/^(feat|fix|docs|style|refactor|perf|test|build|ci|chore|revert|security|deps|config|ui|api|db|wip)(\(.+\))?!?:/i".

Definition scopeRegex : string := "/^[a-z]+\((.+)\)!?:/i".

Definition statRegex : string :=
  "/(\d+) files? changed(?:, (\d+) insertions?\(\+\))?(?:, (\d+) deletions?\(-\))?/".

(** [inferTypeFromMessage(message)] *)
Definition inferTypeFromMessage (message : string) : string :=
  if JS.falsy message then "other" else
  let lowerMessage := JS.toLowerCase message in
  if JS.includesAny lowerMessage ["add"; "new"; "implement"] then "feat"
  else if JS.includesAny lowerMessage ["fix"; "bug"; "resolve"] then "fix"
  else if JS.includesAny lowerMessage ["update"; "upgrade"; "improve"] then "refactor"
  else if JS.includesAny lowerMessage ["remove"; "delete"; "clean"] then "chore"
  else if JS.includesAny lowerMessage ["test"; "spec"] then "test"
  else if JS.includesAny lowerMessage ["doc"; "readme"] then "docs"
  else if JS.includesAny lowerMessage ["style"; "format"; "lint"] then "style"
  else if JS.includesAny lowerMessage ["performance"; "perf"; "optimize"] then "perf"
  else if JS.includesAny lowerMessage ["security"; "vulnerability"] then "security"
  else if JS.includesAny lowerMessage ["config"; "setting"] then "config"
  else if JS.includesAny lowerMessage ["build"; "deploy"; "release"] then "build"
  else if JS.includesAny lowerMessage ["ci"; "workflow"; "action"] then "ci"
  else if JS.includesAny lowerMessage ["depend"; "package"; "version"] then "deps"
  else "other".

(** [extractCommitType(subject)] *)
Definition extractCommitType (rt : Runtime) (subject : string) : string :=
  if JS.falsy subject then "other" else
  match regex_match rt typeRegex subject with
  | Some groups => JS.toLowerCase (group 1 groups)
  | None => inferTypeFromMessage subject
  end.

(** [extractCommitScope(subject)] *)
Definition extractCommitScope (rt : Runtime) (subject : string) : option string :=
  if JS.falsy subject then None else
  match regex_match rt scopeRegex subject with
  | Some groups => Some (group 1 groups)
  | None => None
  end.

Definition digit_value (c : ascii) : option Z :=
  if JS.in_range 48 57 c then Some (Z.of_nat (nat_of_ascii c) - 48) else None.

Fixpoint parseDigits (acc : Z) (s : string) : Z :=
  match s with
  | EmptyString => acc
  | String c rest =>
      match digit_value c with
      | Some d => parseDigits (10 * acc + d) rest
      | None => acc
      end
  end.

(** [parseInt(s)] for a group captured by [(\d+)]: the value of the
    digits.  (On a text without leading digit the runtime yields [NaN];
    such a text is not a capture of [(\d+)].) *)
Definition parseInt (s : string) : Z := parseDigits 0 s.

(** [parseInt(match[i] || 0)] *)
Definition parseIntOrZero (g : option string) : Z :=
  match g with
  | Some s => if JS.truthy s then parseInt s else 0
  | None => 0
  end.

(** [getCommitDiffStats(commitHash)] *)
Definition getCommitDiffStats (rt : Runtime) (git : Git) (commitHash : string)
  : DiffStats :=
  let output := execGitSafe git ("git show --stat --pretty=format: " +:+ commitHash) in
  let lines := List.filter JS.truthy (JS.split (ascii_of_nat 10) output) in
  let zero := mkDiffStats 0 0 0 in
  match List.last (map Some lines) None with
  | Some summary =>
      if JS.includes summary "changed" then
        match regex_match rt statRegex summary with
        | Some groups =>
            mkDiffStats (parseInt (group 1 groups))
                        (parseIntOrZero (nth 2 groups None))
                        (parseIntOrZero (nth 3 groups None))
        | None => zero
        end
      else zero
  | None => zero
  end.

(** The state [performSemanticAnalysis] builds over the files. *)
Record SemanticState : Type := mkSemanticState {
  st_api : bool;
  st_db : bool;
  st_ui : bool;
  st_config : bool;
  st_patterns : list string;
  st_frameworks : list string;
  st_codeElements : list string
}.

(** [xs.forEach(x => { if (!arr.includes(x)) arr.push(x) })] *)
Definition pushMissing (arr xs : list string) : list string :=
  fold_left (fun arr x => if existsb (String.eqb x) arr then arr else arr ++ [x]) xs arr.

(** The body of [files.forEach] in [performSemanticAnalysis]. *)
Definition semanticStep (st : SemanticState) (file : FileChange) : SemanticState :=
  let path := filePath file in
  let isApi := JS.includes path "/api/" in
  let isDb := JS.includes path "migration" || JS.includes path "schema" in
  let isUi := endsWithAny path [".tsx"; ".jsx"; ".css"; ".scss"] in
  let isConfig := JS.includesAny path ["config"; ".env"] in
  let frameworks :=
    st_frameworks st ++ (if isApi then ["API"] else []) ++
    (if isDb then ["Database"] else []) ++ (if isUi then ["React"] else []) in
  {| st_api := st_api st || isApi;
     st_db := st_db st || isDb;
     st_ui := st_ui st || isUi;
     st_config := st_config st || isConfig;
     st_patterns :=
       st_patterns st ++ (if isConfig then ["configuration"] else []) ++
       sc_patterns (semanticChanges file);
     st_frameworks := pushMissing frameworks (sc_frameworks (semanticChanges file));
     st_codeElements := st_codeElements st ++ sc_codeElements (semanticChanges file) |}.

(** [performSemanticAnalysis(files, subject, body)] *)
Definition performSemanticAnalysis (files : list FileChange) (subject body : string)
  : SemanticAnalysis :=
  let st := fold_left semanticStep files (mkSemanticState false false false false [] [] []) in
  let message := JS.toLowerCase (subject +:+ " " +:+ body) in
  let patterns :=
    st_patterns st ++
    (if JS.includesAny message ["feat"; "add"; "new"] then ["new_feature"] else []) ++
    (if JS.includesAny message ["fix"; "bug"; "resolve"] then ["bug_fix"] else []) ++
    (if JS.includesAny message ["perf"; "optim"; "speed"]
     then ["performance_optimization"] else []) ++
    (if JS.includesAny message ["security"; "auth"; "permission"]
     then ["security_policy"] else []) in
  {| hasApiChanges := st_api st;
     hasDbChanges := st_db st;
     hasUiChanges := st_ui st;
     hasConfigChanges := st_config st;
     affectedFeatures := [];
     sa_riskLevel :=
       if st_api st || st_db st then "high"
       else if st_ui st || st_config st then "medium"
       else "low";
     sa_patterns := uniq patterns;
     sa_frameworks := st_frameworks st;
     sa_codeElements := uniq (st_codeElements st) |}.

(** [execGit(command)]: the output, or an exception when the subprocess
    fails. *)
Definition execGit (git : Git) (command : string) : M string :=
  match git command with
  | Some out => ret out
  | None => throw ("Git command failed: " +:+ command)
  end.

(** [await Promise.all(xs.map(async x => f x))] for callbacks that run to
    completion when called: the calls happen in order. *)
Fixpoint mapM {A B} (f : A -> M B) (xs : list A) : M (list B) :=
  match xs with
  | [] => ret []
  | x :: rest => y <- f x ;; ys <- mapM f rest ;; ret (y :: ys)
  end.

Definition TAB : ascii := ascii_of_nat 9.

Definition showCommand (commitHash : string) : string :=
  "git show --pretty=format:" +:+ dquote +:+ "%H|%s|%an|%ad|%B" +:+ dquote +:+
  " --no-patch " +:+ commitHash.

Definition filesCommand (commitHash : string) : string :=
  "git show --name-status --pretty=format: " +:+ commitHash.

(** [getCommitAnalysis(commitHash)].  When the first line of the git
    output has a single field, [subject] is [undefined] and the call of
    [assessRisk], which reads [subject.toLowerCase()], throws; the handler
    then counts an error and returns [null]. *)
Definition getCommitAnalysis (rt : Runtime) (git : Git) (commitHash : string)
  : M (option CommitAnalysis) :=
  try_catch
    (if negb (GitManager.validateCommitHash git commitHash) then ret None else
     commitInfo <- execGit git (showCommand commitHash) ;;
     let lines := JS.split (ascii_of_nat 10) commitInfo in
     let fields := JS.split "|" (hd "" lines) in
     let hash := hd "" fields in
     let body := JS.trim (JS.join (String (ascii_of_nat 10) "") (tl lines)) in
     let filesOutput := execGitSafe git (filesCommand commitHash) in
     files <- mapM (fun line =>
                      match JS.split TAB line with
                      | status :: filePath :: _ =>
                          analyzeFileChange rt git commitHash status filePath
                      | _ => ret None
                      end)
                   (List.filter JS.truthy (JS.split (ascii_of_nat 10) filesOutput)) ;;
     let validFiles := GitManager.dropNull files in
     let diffStats := getCommitDiffStats rt git commitHash in
     match nth_error fields 1 with
     | None => throw "Cannot read properties of undefined (reading 'toLowerCase')"
     | Some subject =>
         let analysis :=
           {| hash := take_chars 7 hash;
              fullHash := hash;
              subject := subject;
              author := nth_error fields 2;
              date := nth_error fields 3;
              body := body;
              files := validFiles;
              diffStats := diffStats;
              type := extractCommitType rt subject;
              scope := extractCommitScope rt subject;
              breaking := isBreakingChange subject body;
              semanticAnalysis := performSemanticAnalysis validFiles subject body;
              ca_complexity := assessOverallComplexity validFiles diffStats;
              riskAssessment := assessRisk validFiles diffStats subject body |} in
         update bump_commitsProcessed ;;; ret (Some analysis)
     end)
    (fun _ => update bump_errors ;;; ret None).

(* ===================================================================== *)
(** * Batch processing                                                    *)
(* ===================================================================== *)

(** The record [Promise.allSettled] yields for one promise. *)
Inductive Settled (A : Type) : Type :=
  | Fulfilled (value : A)
  | Rejected (reason : string).
Arguments Fulfilled {A} value.
Arguments Rejected {A} reason.

(** A promise settles: a return fulfils it, a throw rejects it. *)
Definition settle {A} (p : M A) : M (Settled A) :=
  fun m => match p m with
           | (Returned a, m') => (Returned (Fulfilled a), m')
           | (Thrown e, m') => (Returned (Rejected e), m')
           end.

(** [await Promise.allSettled(promises)].  The promises settle in the
    order [completion], a list of positions; the record of the promise at
    position [i] is stored at index [i] of the result, whenever it
    settles.  A slot is [None] until its promise has settled. *)
Fixpoint settleInOrder {A} (promises : list (M A)) (completion : list nat)
  (slots : list (option (Settled A))) : M (list (option (Settled A))) :=
  match completion with
  | [] => ret slots
  | i :: later =>
      match promises !! i with
      | Some p => r <- settle p ;; settleInOrder promises later (<[i := Some r]> slots)
      | None => settleInOrder promises later slots
      end
  end.

Definition allSettled {A} (completion : list nat) (promises : list (M A))
  : M (list (option (Settled A))) :=
  settleInOrder promises completion (replicate (length promises) None).

(** [batchResults.filter(r => r.status === 'fulfilled' && r.value)
      .map(r => r.value)] *)
Definition successfulResults {A} (batchResults : list (option (Settled (option A))))
  : list A :=
  omap (fun r => match r with
                 | Some (Fulfilled (Some value)) => Some value
                 | _ => None
                 end) batchResults.

(** [commitHashes.slice(i, i + batchSize)] *)
Definition slice {A} (i j : nat) (l : list A) : list A := take (j - i) (drop i l).

Definition batchSize : nat := 10.

(** The [for] loop of [generateChangelogBatch], from index [i] on, with
    [results] collected so far.  [completion b] is the order in which the
    promises of batch number [b] settle.  The pause between batches only
    takes time. *)
Fixpoint batchLoop (rt : Runtime) (git : Git) (completion : nat -> list nat)
  (commitHashes : list string) (fuel i : nat) (results : list CommitAnalysis)
  : M (list CommitAnalysis) :=
  match fuel with
  | O => ret results
  | S fuel' =>
      if Nat.ltb i (length commitHashes) then
        let batch := slice i (i + batchSize) commitHashes in
        let batchPromises := map (getCommitAnalysis rt git) batch in
        batchResults <- allSettled (completion (i / batchSize)%nat) batchPromises ;;
        update bump_batchesProcessed ;;;
        batchLoop rt git completion commitHashes fuel' (i + batchSize)
                  (results ++ successfulResults batchResults)
      else ret results
  end.

(** [generateChangelogBatch(commitHashes)].  The closing
    [results.filter(Boolean)] keeps every element: the results are
    objects. *)
Definition generateChangelogBatch (rt : Runtime) (git : Git)
  (completion : nat -> list nat) (commitHashes : list string)
  : M (list CommitAnalysis) :=
  batchLoop rt git completion commitHashes (length commitHashes) 0 [].

(** What the analysis of one commit yields, read off a run from zeroed
    counters: the analysis, or [None] when it returns [null] or throws. *)
Definition analysisOf (rt : Runtime) (git : Git) (commitHash : string)
  : option CommitAnalysis :=
  match fst (getCommitAnalysis rt git commitHash (mkMetrics 0 0 0 0 0)) with
  | Returned (Some analysis) => Some analysis
  | _ => None
  end.

(** Whether the analysis of a commit succeeds. *)
Definition analysed (rt : Runtime) (git : Git) (commitHash : string) : bool :=
  match analysisOf rt git commitHash with
  | Some _ => true
  | None => false
  end.

(** Every promise of every batch settles: each position of batch [b]
    occurs in the completion order of that batch. *)
Definition everySettles (completion : nat -> list nat) (commitHashes : list string)
  : Prop :=
  forall b j,
    (j < length (slice (b * batchSize) (b * batchSize + batchSize) commitHashes))%nat ->
    j ∈ completion b.

(** The slots after the promises with values [vals] have settled in the
    order [completion]. *)
Definition fill {A} (vals : list A) (completion : list nat)
  (slots : list (option (Settled A))) : list (option (Settled A)) :=
  fold_left (fun slots i =>
               match vals !! i with
               | Some v => <[i := Some (Fulfilled v)]> slots
               | None => slots
               end)
            completion slots.

(** A call that returns [v] whatever the counters, and leaves the count
    of batches alone. *)
Definition yields {A} (p : M A) (v : A) : Prop :=
  forall m, exists m',
    p m = (Returned v, m') /\ batchesProcessed m' = batchesProcessed m.

(* ===================================================================== *)
(** * Summaries                                                           *)
(* ===================================================================== *)

(** The summary object, from the service or from the rules.  The fields
    read from the response of the service hold whatever value the
    response holds. *)
Record AISummary : Type := mkAISummary {
  summary : jsval;
  technicalSummary : jsval;
  sm_category : jsval;
  impact : jsval;
  sm_scope : jsval;
  userFacing : bool;
  sm_breaking : bool;
  businessImpact : jsval;
  technicalImpact : jsval;
  highlights : jsval;
  migrationNotes : jsval;
  tags : jsval;
  relatedAreas : jsval;
  riskLevel : jsval;
  confidence : jsval
}.

(** Every required field is populated; [migrationNotes] may be [null],
    and the two flags are booleans. *)
Definition complete (s : AISummary) : Prop :=
  populated (summary s) /\ populated (technicalSummary s) /\
  populated (sm_category s) /\ populated (impact s) /\ populated (sm_scope s) /\
  populated (businessImpact s) /\ populated (technicalImpact s) /\
  populated (highlights s) /\ populated (tags s) /\ populated (relatedAreas s) /\
  populated (riskLevel s) /\ populated (confidence s) /\
  migrationNotes s <> JUndefined.

Definition strings (xs : list string) : jsval := JArr (map JStr xs).

(** [xs.slice(0, n)] *)
Definition firstN {A} (n : nat) (xs : list A) : list A := take n xs.

(** [generateRuleBasedSummary(commitAnalysis)] *)
Definition generateRuleBasedSummary (commitAnalysis : CommitAnalysis) : AISummary :=
  let subject := subject commitAnalysis in
  let files := files commitAnalysis in
  let semanticAnalysis := semanticAnalysis commitAnalysis in
  let diffStats := diffStats commitAnalysis in
  let complexity := ca_complexity commitAnalysis in
  let riskAssessment := riskAssessment commitAnalysis in
  (* Determine category and impact *)
  let cat := if JS.truthy (type commitAnalysis) then type commitAnalysis else "other" in
  let '(impact, cat) :=
    if String.eqb (ra_level riskAssessment) "critical" ||
       String.eqb (ra_level riskAssessment) "high"
    then (ra_level riskAssessment, "breaking")
    else if String.eqb (cx_level complexity) "high" ||
            String.eqb (cx_level complexity) "very high"
    then ("medium", cat)
    else ("low", cat) in
  (* Analyze file changes for better categorization *)
  let hasUIChanges :=
    existsb (fun f => String.eqb (category f) "source" &&
                      endsWithAny (filePath f) [".tsx"; ".jsx"]) files in
  let hasDBChanges := someCategory "database" files in
  let hasAPIChanges := existsb (fun f => fi_apiChanges (functionalImpact f)) files in
  let hasSecurityChanges := existsb (fun f => fi_securityRelated (functionalImpact f)) files in
  let '(impact, cat, userFacing) :=
    if hasSecurityChanges then ("high", "security", false)
    else if breaking commitAnalysis then ("critical", "breaking", false)
    else if hasDBChanges || hasAPIChanges then ("medium", cat, false)
    else if hasUIChanges then ("medium", cat, true)
    else (impact, cat, false) in
  (* Generate intelligent summary *)
  let has (xs : list string) (x : string) := existsb (String.eqb x) xs in
  let insights :=
    (if has (sa_patterns semanticAnalysis) "new_feature"
     then ["introduces new functionality"] else []) ++
    (if has (sa_patterns semanticAnalysis) "bug_fix" then ["resolves issues"] else []) ++
    (if has (sa_patterns semanticAnalysis) "performance_optimization"
     then ["improves performance"] else []) ++
    (if has (sa_patterns semanticAnalysis) "security_policy"
     then ["enhances security"] else []) ++
    (if has (sa_frameworks semanticAnalysis) "React"
     then ["updates React components"] else []) ++
    (if has (sa_frameworks semanticAnalysis) "Database"
     then ["modifies database layer"] else []) in
  let highlights :=
    (if insertions diffStats >? 100 then ["Significant code additions"] else []) ++
    (if zlength files >? 10 then ["Wide-ranging changes"] else []) ++
    (if hasUIChanges then ["User interface updates"] else []) ++
    (if hasDBChanges then ["Database modifications"] else []) ++
    (if negb (String.eqb (cx_level complexity) "minimal")
     then [cx_level complexity +:+ " complexity changes"] else []) in
  let categories := uniq (map category files) in
  {| summary :=
       JStr (if zlength insights >? 0
             then subject +:+ " (" +:+ JS.join ", " (firstN 2 insights) +:+ ")"
             else subject);
     technicalSummary :=
       JStr ("Modified " +:+ JS.showZ (zlength files) +:+ " files with +" +:+
             JS.showZ (insertions diffStats) +:+ "/-" +:+
             JS.showZ (deletions diffStats) +:+ " lines. Complexity: " +:+
             cx_level complexity);
     sm_category := JStr cat;
     impact := JStr impact;
     sm_scope := JStr (if String.eqb impact "critical" then "major"
                       else if String.eqb impact "high" then "minor" else "patch");
     userFacing := userFacing;
     sm_breaking := breaking commitAnalysis;
     businessImpact :=
       JStr (if userFacing then "Affects user experience" else "Internal improvements");
     technicalImpact := JStr ("Changes in " +:+ JS.join ", " categories);
     highlights := strings (firstN 3 highlights);
     migrationNotes :=
       if breaking commitAnalysis
       then JStr "Review breaking changes before deployment" else JNull;
     tags := strings (sa_frameworks semanticAnalysis ++
                      firstN 3 (sa_patterns semanticAnalysis));
     relatedAreas := strings (firstN 3 categories);
     riskLevel := JStr (ra_level riskAssessment);
     confidence := JNum (7 # 10) |}.

(** [v.k] for a value that came out of [JSON.parse]: reading a property
    of [null] throws; a key that is absent reads as [undefined]. *)
Fixpoint lookupField (k : string) (fields : list (string * jsval)) : jsval :=
  match fields with
  | [] => JUndefined
  | (k', v) :: rest => if String.eqb k k' then v else lookupField k rest
  end.

Definition fieldsOf (parsed : jsval) : outcome (list (string * jsval)) :=
  match parsed with
  | JNull | JUndefined => Thrown "Cannot read properties of null"
  | JObj fields => Returned fields
  | _ => Returned []
  end.

Definition fence : string := "```".

(** The clean-up of [parseAIResponse]: an opening [```json] or [```] with
    the white space after it is removed, and a closing [```] at the very
    end with the white space before it. *)
Definition dropChars (n : nat) (s : string) : string :=
  string_of_list_ascii (drop n (list_ascii_of_string s)).

Definition stripClosingFence (s : string) : string :=
  if JS.endsWith s fence
  then JS.trimEnd (string_of_list_ascii
                     (take (length (list_ascii_of_string s) - 3)
                           (list_ascii_of_string s)))
  else s.

Definition cleanResponse (content : string) : string :=
  let jsonStr := JS.trim content in
  if JS.startsWith jsonStr (fence +:+ "json")
  then stripClosingFence (JS.trimStart (dropChars 7 jsonStr))
  else if JS.startsWith jsonStr fence
  then stripClosingFence (JS.trimStart (dropChars 3 jsonStr))
  else jsonStr.

(** [parseAIResponse(content, originalCommit)] *)
Definition parseAIResponse (rt : Runtime) (content : string)
  (originalCommit : CommitAnalysis) : M AISummary :=
  try_catch
    (parsed <- lift (match json_parse rt (cleanResponse content) with
                     | Some v => Returned v
                     | None => Thrown "Unexpected token in JSON"
                     end) ;;
     fields <- lift (fieldsOf parsed) ;;
     let get k := lookupField k fields in
     ret {| summary := js_or (get "summary") (JStr (subject originalCommit));
            technicalSummary := js_or (get "technicalSummary") (JStr "");
            sm_category :=
              js_or (get "category")
                    (JStr (if JS.truthy (type originalCommit)
                           then type originalCommit else "other"));
            impact := js_or (get "impact") (JStr "low");
            sm_scope := js_or (get "scope") (JStr "patch");
            userFacing := js_truthy (get "userFacing");
            sm_breaking := js_truthy (get "breaking");
            businessImpact := js_or (get "businessImpact") (JStr "");
            technicalImpact := js_or (get "technicalImpact") (JStr "");
            highlights := array_or_empty (get "highlights");
            migrationNotes := js_or (get "migrationNotes") JNull;
            tags := array_or_empty (get "tags");
            relatedAreas := array_or_empty (get "relatedAreas");
            riskLevel := js_or (get "riskLevel") (JStr "low");
            confidence := js_or (get "confidence") (JNum (8 # 10)) |})
    (fun _ => update bump_errors ;;; ret (generateRuleBasedSummary originalCommit)).

(** The options [generateAISummary] passes to the service. *)
Record Settings : Type := mkSettings {
  temperature : Q;
  max_tokens : Z;
  model : option string;
  reasoning_effort : option string
}.

(** The object [generateCompletion] resolves to: [content] is [None] when
    the service sent none, [usage] is the field [usage.total_tokens]. *)
Record Response : Type := mkResponse {
  content : option string;
  usage : option Z
}.

(** The summarization service, reached through [AIProvider].
    - [probe name]: the minimal completion by which
      [validateModelAvailability] tests an Azure deployment went through;
    - [completion commit settings]: what
      [generateCompletion(messages, settings)] does for the messages
      built from [commit]: it resolves to a response or it throws. *)
Record Service : Type := mkService {
  probe : string -> bool;
  completion : CommitAnalysis -> Settings -> outcome Response
}.

Definition supportedModels : list string :=
  ["gpt-4.1"; "gpt-4.1-mini"; "gpt-4.1-nano"; "gpt-4o"; "gpt-4o-mini";
   "gpt-4"; "gpt-3.5-turbo"].

(** The field [available] of [validateModelAvailability(modelName)] *)
Definition validateModelAvailability (svc : Service) (activeProvider : AIProvider.Provider)
  (modelName : string) : bool :=
  match activeProvider with
  | AIProvider.Azure => probe svc modelName
  | AIProvider.OpenAI => existsb (String.eqb modelName) supportedModels
  | AIProvider.NoProvider => false
  end.

(** The field [model] of [AIProvider.selectOptimalModel(commitInfo)], or
    the exception when no Azure deployment answers. *)
Definition providerSelectOptimalModel (svc : Service) (activeProvider : AIProvider.Provider)
  (modelConfig : AIProvider.ModelConfig) (commitInfo : AIProvider.CommitInfo)
  : outcome string :=
  let preferredModel := AIProvider.selectModelForCommit activeProvider modelConfig commitInfo in
  if validateModelAvailability svc activeProvider preferredModel
  then Returned preferredModel
  else
    match activeProvider with
    | AIProvider.Azure =>
        let fallbackModels :=
          [AIProvider.default modelConfig; AIProvider.simple modelConfig;
           "gpt-4o"; "gpt-4"; "gpt-35-turbo"] in
        match List.find (fun fallback =>
                           negb (String.eqb fallback preferredModel) &&
                           validateModelAvailability svc activeProvider fallback)
                        fallbackModels with
        | Some fallback => Returned fallback
        | None => Thrown "No available models found in Azure deployment"
        end
    | _ => Returned preferredModel
    end.

(** The fields of [AIChangelogGenerator] that the summaries read. *)
Record Generator : Type := mkGenerator {
  hasAI : bool;
  activeProvider : AIProvider.Provider;
  modelConfig : AIProvider.ModelConfig;
  modelOverride : option string;
  analysisMode : string
}.

(** [selectOptimalModel(commitAnalysis)] of the generator; [None] is
    [null]. *)
Definition selectOptimalModel (gen : Generator) (svc : Service)
  (commitAnalysis : CommitAnalysis) : option string :=
  if negb (hasAI gen) then None else
  match GitManager.given (modelOverride gen) with
  | Some override => Some override
  | None =>
      match providerSelectOptimalModel svc (activeProvider gen) (modelConfig gen)
              (commitInfoOf commitAnalysis) with
      | Returned model =>
          if JS.truthy model then Some model
          else Some (AIProvider.default (modelConfig gen))
      | Thrown _ => Some (AIProvider.default (modelConfig gen))
      end
  end.

(** The model whose availability [generateAISummary] checks:
    [selectedModel || this.aiProvider.modelConfig.default]. *)
Definition checkedModel (gen : Generator) (selectedModel : option string) : string :=
  match GitManager.given selectedModel with
  | Some name => name
  | None => AIProvider.default (modelConfig gen)
  end.

Definition settingsFor (gen : Generator) (selectedModel : option string) : Settings :=
  {| temperature := 3 # 10;
     max_tokens := 1000;
     model := selectedModel;
     reasoning_effort :=
       match GitManager.given selectedModel with
       | Some name =>
           if JS.includes name "o3" || JS.includes name "o4"
           then Some (if String.eqb (analysisMode gen) "enterprise" then "high" else "medium")
           else None
       | None => None
       end |}.

(** [generateAISummary(commitAnalysis)] *)
Definition generateAISummary (rt : Runtime) (svc : Service) (gen : Generator)
  (commitAnalysis : CommitAnalysis) : M AISummary :=
  if negb (hasAI gen) then ret (generateRuleBasedSummary commitAnalysis) else
  let selectedModel := selectOptimalModel gen svc commitAnalysis in
  try_catch
    (if negb (validateModelAvailability svc (activeProvider gen)
                (checkedModel gen selectedModel))
     then ret (generateRuleBasedSummary commitAnalysis)
     else
       response <- lift (completion svc commitAnalysis (settingsFor gen selectedModel)) ;;
       update bump_apiCalls ;;;
       update (match usage response with
               | Some total_tokens => add_tokens total_tokens
               | None => id
               end) ;;;
       match GitManager.given (content response) with
       | None => throw "Empty response from AI provider"
       | Some content => parseAIResponse rt content commitAnalysis
       end)
    (fun _ => update bump_errors ;;; ret (generateRuleBasedSummary commitAnalysis)).

(* ===================================================================== *)
(** * Release insights                                                    *)
(* ===================================================================== *)

(** An element of [analyzedCommits]: the analysis, spread together with
    [aiSummary] when the commits were summarized one by one, alone when
    they came out of the batches. *)
Record AnalyzedCommit : Type := mkAnalyzedCommit {
  analysis : CommitAnalysis;
  aiSummary : option AISummary
}.

(** The object built by [generateReleaseInsights]. *)
Record ReleaseInsights : Type := mkReleaseInsights {
  ri_summary : string;
  totalCommits : Z;
  commitTypes : list (string * Z);
  ri_riskLevel : string;
  affectedAreas : list string;
  ri_breaking : bool;
  ri_complexity : string;
  ri_businessImpact : string;
  deploymentRequirements : list string
}.

(** [counts[k] || 0] *)
Fixpoint countOfType (k : string) (counts : list (string * Z)) : Z :=
  match counts with
  | [] => 0
  | (k', n) :: rest => if String.eqb k k' then n else countOfType k rest
  end.

(** [counts[k] = (counts[k] || 0) + 1] *)
Fixpoint increment (k : string) (counts : list (string * Z)) : list (string * Z) :=
  match counts with
  | [] => [(k, 1)]
  | (k', n) :: rest =>
      if String.eqb k k' then (k', n + 1) :: rest else (k', n) :: increment k rest
  end.

(** The body of [analyzedCommits.forEach]. *)
Definition insightStep (insights : ReleaseInsights) (commit : AnalyzedCommit)
  : ReleaseInsights :=
  let c := analysis commit in
  {| ri_summary := ri_summary insights;
     totalCommits := totalCommits insights;
     commitTypes := increment (type c) (commitTypes insights);
     ri_riskLevel :=
       if String.eqb (sa_riskLevel (semanticAnalysis c)) "high" then "high"
       else ri_riskLevel insights;
     affectedAreas := affectedAreas insights ++ map category (files c);
     ri_breaking := if breaking c then true else ri_breaking insights;
     ri_complexity := ri_complexity insights;
     ri_businessImpact := ri_businessImpact insights;
     deploymentRequirements :=
       deploymentRequirements insights ++
       (if hasDbChanges (semanticAnalysis c) then ["Database migration required"] else []) ++
       (if breaking c then ["Breaking changes - review migration notes above."] else []) |}.

(** [generateReleaseInsights(analyzedCommits, version)] *)
Definition generateReleaseInsights (analyzedCommits : list AnalyzedCommit)
  : ReleaseInsights :=
  let insights :=
    fold_left insightStep analyzedCommits
      {| ri_summary := ""; totalCommits := zlength analyzedCommits; commitTypes := [];
         ri_riskLevel := "low"; affectedAreas := []; ri_breaking := false;
         ri_complexity := "low"; ri_businessImpact := "minor";
         deploymentRequirements := [] |} in
  (* Assess overall complexity: [totalFiles / n > k] is [totalFiles > k * n] *)
  let totalFiles :=
    fold_left (fun sum commit => sum + zlength (files (analysis commit))) analyzedCommits 0 in
  let n := zlength analyzedCommits in
  let complexity :=
    if (totalFiles >? 20 * n) || ri_breaking insights then "high"
    else if totalFiles >? 10 * n then "medium"
    else "low" in
  (* Assess business impact *)
  let hasUserFacingChanges :=
    existsb (fun commit =>
               existsb (fun file => fi_userFacing (functionalImpact file))
                       (files (analysis commit))) analyzedCommits in
  let hasRevenueImpact :=
    existsb (fun commit =>
               existsb (fun file => br_revenueImpact (businessRelevance file))
                       (files (analysis commit))) analyzedCommits in
  let businessImpact :=
    if hasRevenueImpact || ri_breaking insights then "major"
    else if hasUserFacingChanges then "moderate"
    else "minor" in
  (* Generate summary *)
  let features := countOfType "feat" (commitTypes insights) in
  let fixes := countOfType "fix" (commitTypes insights) in
  let breakingText := if ri_breaking insights then " with breaking changes" else "" in
  {| ri_summary :=
       "Release includes " +:+ JS.showZ features +:+ " new features, " +:+
       JS.showZ fixes +:+ " bug fixes" +:+ breakingText;
     totalCommits := totalCommits insights;
     commitTypes := commitTypes insights;
     ri_riskLevel := ri_riskLevel insights;
     affectedAreas := uniq (affectedAreas insights);
     ri_breaking := ri_breaking insights;
     ri_complexity := complexity;
     ri_businessImpact := businessImpact;
     deploymentRequirements := deploymentRequirements insights |}.

(** The ways the summarization of a commit by the service fails, with
    whether the failure is counted in [metrics.errors] and what it does
    to the counters:
    - the selected model is reported unavailable;
    - the call of the service throws;
    - the service answers without content;
    - the content is not parseable as JSON;
    - the content parses to [null], whose properties cannot be read. *)
Definition afterCall (response : Response) (m : Metrics) : Metrics :=
  match usage response with
  | Some total_tokens => add_tokens total_tokens (bump_apiCalls m)
  | None => bump_apiCalls m
  end.

Inductive ServiceFailure (rt : Runtime) (svc : Service) (gen : Generator)
  (commit : CommitAnalysis) : bool -> (Metrics -> Metrics) -> Prop :=
  | ModelUnavailable :
      validateModelAvailability svc (activeProvider gen)
        (checkedModel gen (selectOptimalModel gen svc commit)) = false ->
      ServiceFailure rt svc gen commit false id
  | CallThrows (reason : string) :
      validateModelAvailability svc (activeProvider gen)
        (checkedModel gen (selectOptimalModel gen svc commit)) = true ->
      completion svc commit (settingsFor gen (selectOptimalModel gen svc commit))
        = Thrown reason ->
      ServiceFailure rt svc gen commit true bump_errors
  | EmptyContent (response : Response) :
      validateModelAvailability svc (activeProvider gen)
        (checkedModel gen (selectOptimalModel gen svc commit)) = true ->
      completion svc commit (settingsFor gen (selectOptimalModel gen svc commit))
        = Returned response ->
      GitManager.given (content response) = None ->
      ServiceFailure rt svc gen commit true
        (fun m => bump_errors (afterCall response m))
  | NotParseable (response : Response) (text : string) :
      validateModelAvailability svc (activeProvider gen)
        (checkedModel gen (selectOptimalModel gen svc commit)) = true ->
      completion svc commit (settingsFor gen (selectOptimalModel gen svc commit))
        = Returned response ->
      GitManager.given (content response) = Some text ->
      json_parse rt (cleanResponse text) = None ->
      ServiceFailure rt svc gen commit true
        (fun m => bump_errors (afterCall response m))
  | ParsesToNull (response : Response) (text : string) :
      validateModelAvailability svc (activeProvider gen)
        (checkedModel gen (selectOptimalModel gen svc commit)) = true ->
      completion svc commit (settingsFor gen (selectOptimalModel gen svc commit))
        = Returned response ->
      GitManager.given (content response) = Some text ->
      json_parse rt (cleanResponse text) = Some JNull ->
      ServiceFailure rt svc gen commit true
        (fun m => bump_errors (afterCall response m)).

(** The release flag as the specification words it: some commit's summary
    is marked breaking. *)
Definition spec_release_breaking (analyzedCommits : list AnalyzedCommit) : bool :=
  existsb (fun commit =>
             match aiSummary commit with
             | Some s => sm_breaking s
             | None => false
             end) analyzedCommits.

(* ===================================================================== *)
(** * Notions used to state further facts                                 *)
(* ===================================================================== *)

(** The number [assessChangeComplexity] buckets: the lines of the diff
    that start with [+] or with [-]. *)
Definition changedLines (diff : string) : Z :=
  countLinesStarting "+" diff + countLinesStarting "-" diff.

(** The thresholds of [assessOverallComplexity], and the order of the
    levels. *)
Definition complexityLevelOf (score : Z) : string :=
  if score >=? 8 then "very high"
  else if score >=? 6 then "high"
  else if score >=? 4 then "medium"
  else if score >=? 2 then "low"
  else "minimal".

Definition complexityRank (level : string) : Z :=
  if String.eqb level "very high" then 4
  else if String.eqb level "high" then 3
  else if String.eqb level "medium" then 2
  else if String.eqb level "low" then 1
  else 0.

Definition riskRank (level : string) : Z :=
  if String.eqb level "critical" then 4
  else if String.eqb level "high" then 3
  else if String.eqb level "medium" then 2
  else if String.eqb level "low-medium" then 1
  else 0.

(** The five risk factors, in the order [assessRisk] tests them, with
    their points. *)
Definition riskFactors : list (string * Z) :=
  [("Breaking changes detected", 5);
   ("Database schema changes", 3);
   ("Configuration changes", 2);
   ("Large scale changes", 2);
   ("Security-related changes", 3)].

Definition factorPoints (name : string) : Z := countOfType name riskFactors.

Definition sumZ (xs : list Z) : Z := fold_right Z.add 0 xs.

(** Notions used to state the accounting of the batches: what the call at
    a position counts, by the value it resolves to ([None]: the position
    holds no call). *)
Definition yielded (value : option (option CommitAnalysis)) : Z :=
  match value with
  | Some (Some _) => 1
  | _ => 0
  end.

Definition failed (value : option (option CommitAnalysis)) : Z :=
  match value with
  | Some None => 1
  | _ => 0
  end.


(* ===================================================================== *)
(** * The provider: configuration, requests and completions               *)
(* ===================================================================== *)

Module AIClient.

(** [this.azureConfig]; [endpoint] and [key] are read from the
    environment and may be missing. *)
Record AzureConfig : Type := mkAzureConfig {
  endpoint : option string;
  key : option string;
  deploymentName : string;
  apiVersion : string;
  useV1API : bool
}.

(** The fields of [AIProvider] that the constructor reads from the
    environment; [provider] is [process.env.AI_PROVIDER || 'auto']. *)
Record Config : Type := mkConfig {
  provider : string;
  openaiKey : option string;
  azureConfig : AzureConfig
}.

(** The truth value of a variable of the environment. *)
Definition isSet (v : option string) : bool :=
  match v with
  | Some s => JS.truthy s
  | None => false
  end.

(** [isAzureConfigured()] *)
Definition isAzureConfigured (cfg : Config) : bool :=
  isSet (endpoint (azureConfig cfg)) && isSet (key (azureConfig cfg)).

(** [isOpenAIConfigured()] *)
Definition isOpenAIConfigured (cfg : Config) : bool := isSet (openaiKey cfg).

(** [determineActiveProvider()] *)
Definition determineActiveProvider (cfg : Config) : AIProvider.Provider :=
  (* Auto mode: try Azure first, then OpenAI *)
  if String.eqb (provider cfg) "auto" then
    if isAzureConfigured cfg then AIProvider.Azure
    else if isOpenAIConfigured cfg then AIProvider.OpenAI
    else AIProvider.NoProvider
  (* Explicit provider selection *)
  else if String.eqb (provider cfg) "azure" && isAzureConfigured cfg then AIProvider.Azure
  else if String.eqb (provider cfg) "openai" && isOpenAIConfigured cfg then AIProvider.OpenAI
  (* Fallback *)
  else if isAzureConfigured cfg then AIProvider.Azure
  else if isOpenAIConfigured cfg then AIProvider.OpenAI
  else AIProvider.NoProvider.

(** [this.isAvailable], set by the constructor. *)
Definition isAvailable (cfg : Config) : bool :=
  match determineActiveProvider cfg with
  | AIProvider.NoProvider => false
  | _ => true
  end.

(** The [options] of [generateCompletion]: a key that the caller leaves
    out is [None]; [model] may be given as [null]. *)
Record Options : Type := mkOptions {
  o_temperature : option Q;
  o_max_tokens : option Z;
  o_model : option (option string);
  o_reasoning_effort : option string
}.

(** [{ ...defaultOptions, ...options }] *)
Definition withDefaults (options : Options) : Settings :=
  {| temperature := default (3 # 10) (o_temperature options);
     max_tokens := default 1000 (o_max_tokens options);
     model := default (Some "gpt-4") (o_model options);
     reasoning_effort := o_reasoning_effort options |}.

(** The body of a request to [chat.completions.create].  A field that
    the code does not set, or deletes, is [None]; the messages are passed
    on as they are and are left out. *)
Record RequestBody : Type := mkRequestBody {
  rq_model : option string;
  rq_temperature : option Q;
  rq_max_tokens : option Z;
  rq_max_completion_tokens : option Z
}.

(** What [chat.completions.create(requestBody)] does.  It resolves to a
    completion, of which the code reads [choices[0]?.message?.content],
    [usage] (here its [total_tokens]) and [model]; or it rejects with an
    error that has a [message] and may have a [status]. *)
Inductive ApiAnswer : Type :=
  | Completed (content : option string) (usage : option Z) (model : option string)
  | Failed (status : option Z) (message : string).

(** The two clients. *)
Record Clients : Type := mkClients {
  azureCreate : RequestBody -> ApiAnswer;
  openaiCreate : RequestBody -> ApiAnswer
}.

(** The object that a call resolves to. *)
Record Reply : Type := mkReply {
  rp_content : option string;
  rp_usage : option Z;
  rp_model : option string
}.

(** A run: the requests sent, in order, each with the client that got
    it, and how the run ended. *)
Definition Run (A : Type) : Type := list (AIProvider.Provider * RequestBody) * outcome A.

(** The request body built by [callAzureOpenAI]. *)
Definition azureRequest (cfg : Config) (settings : Settings) : RequestBody :=
  let useMaxCompletionTokens :=
    useV1API (azureConfig cfg) ||
    String.leb "2024-08-01-preview" (apiVersion (azureConfig cfg)) ||
    JS.includes (apiVersion (azureConfig cfg)) "2025-" in
  let modelName := JS.toLowerCase (deploymentName (azureConfig cfg)) in
  {| rq_model := Some (deploymentName (azureConfig cfg));
     rq_temperature :=
       (* Reasoning models (o-series) don't support temperature *)
       if JS.includes modelName "o3" || JS.includes modelName "o4"
       then None else Some (temperature settings);
     rq_max_tokens :=
       if useMaxCompletionTokens then None else Some (max_tokens settings);
     rq_max_completion_tokens :=
       if useMaxCompletionTokens then Some (max_tokens settings) else None |}.

(** [callAzureOpenAI(messages, settings)].  The Azure client exists when
    Azure was configured at construction. *)
Definition callAzureOpenAI (cfg : Config) (clients : Clients) (settings : Settings)
  : Run Reply :=
  if negb (isAzureConfigured cfg)
  then ([], Thrown "Azure OpenAI client not initialized") else
  let requestBody := azureRequest cfg settings in
  ([(AIProvider.Azure, requestBody)],
   match azureCreate clients requestBody with
   | Completed content usage model =>
       Returned {| rp_content := content;
                   rp_usage := usage;
                   rp_model := if isSet model then model
                               else Some (deploymentName (azureConfig cfg)) |}
   | Failed status message =>
       Thrown (match status with
               | Some 404 =>
                   "Model " +:+ deploymentName (azureConfig cfg) +:+
                   " not found in deployment. Please check your deployment name."
               | Some 429 => "Rate limit exceeded. Please wait and try again."
               | Some 401 => "Authentication failed. Please check your API key."
               | _ => message
               end)
   end).

(** [callOpenAI(messages, settings)]; [settings.model.toLowerCase()]
    throws when the model is [null]. *)
Definition callOpenAI (cfg : Config) (clients : Clients) (settings : Settings)
  : Run Reply :=
  if negb (isOpenAIConfigured cfg)
  then ([], Thrown "OpenAI client not initialized") else
  match model settings with
  | None => ([], Thrown "Cannot read properties of null (reading 'toLowerCase')")
  | Some name =>
      let modelName := JS.toLowerCase name in
      let requestBody :=
        {| rq_model := Some name;
           rq_temperature := Some (temperature settings);
           rq_max_tokens :=
             if JS.includes modelName "gpt-4.1" then None
             else Some (max_tokens settings);
           rq_max_completion_tokens :=
             if JS.includes modelName "gpt-4.1" then Some (max_tokens settings)
             else None |} in
      ([(AIProvider.OpenAI, requestBody)],
       match openaiCreate clients requestBody with
       | Completed content usage model =>
           Returned {| rp_content := content; rp_usage := usage; rp_model := model |}
       | Failed _ message => Thrown message
       end)
  end.

(** [generateCompletion(messages, options)] *)
Definition generateCompletion (cfg : Config) (clients : Clients) (options : Options)
  : Run Reply :=
  if negb (isAvailable cfg) then ([], Thrown "No AI provider available") else
  let settings := withDefaults options in
  let activeProvider := determineActiveProvider cfg in
  let attempt :=
    match activeProvider with
    | AIProvider.Azure => callAzureOpenAI cfg clients settings
    | _ => callOpenAI cfg clients settings
    end in
  match attempt with
  | (requests, Returned reply) => (requests, Returned reply)
  | (requests, Thrown error) =>
      (* Try fallback provider if auto mode *)
      if String.eqb (provider cfg) "auto" then
        match activeProvider with
        | AIProvider.Azure =>
            if isOpenAIConfigured cfg
            then let '(more, result) := callOpenAI cfg clients settings in
                 (requests ++ more, result)
            else (requests, Thrown error)
        | _ =>
            if isAzureConfigured cfg
            then let '(more, result) := callAzureOpenAI cfg clients settings in
                 (requests ++ more, result)
            else (requests, Thrown error)
        end
      else (requests, Thrown error)
  end.

(** [getModelCapabilities(modelName)], the fields that depend on the
    name. *)
Record Capabilities : Type := mkCapabilities {
  cap_reasoning : bool;
  largeContext : bool;
  mediumContext : bool;
  standardContext : bool;
  promptCaching : bool;
  tools : bool;
  parallelToolCalling : bool;
  reasoningSummary : bool;
  latestReasoning : bool;
  ultraEfficient : bool;
  costEfficient : bool;
  codingOptimized : bool
}.

Definition getModelCapabilities (modelName : string) : Capabilities :=
  let model := JS.toLowerCase modelName in
  {| cap_reasoning := JS.includes model "o3" || JS.includes model "o4";
     largeContext := JS.includes model "gpt-4.1";
     mediumContext := JS.includes model "o3" || JS.includes model "o4";
     standardContext := JS.includes model "gpt-4o";
     promptCaching := JS.includes model "gpt-4.1";
     tools := JS.includes model "o3" || JS.includes model "o4" || JS.includes model "gpt-4";
     parallelToolCalling := JS.includes model "o3" || JS.includes model "o4";
     reasoningSummary := JS.includes model "o3" || JS.includes model "o4";
     latestReasoning := JS.includes model "o4";
     ultraEfficient := JS.includes model "nano";
     costEfficient := JS.includes model "mini";
     codingOptimized := JS.includes model "gpt-4.1" |}.

End AIClient.

(* ===================================================================== *)
(** * Working-tree analysis                                               *)
(* ===================================================================== *)

(** [extractKeyDiffLines(diff)] *)
Definition extractKeyDiffLines (diff : string) : list string :=
  if diffMissing diff then [] else
  map (fun line => JS.trim (dropChars 1 line))
      (firstN 5
         (List.filter
            (fun line =>
               (JS.startsWith line "+" || JS.startsWith line "-") &&
               negb (JS.startsWith line "+++") &&
               negb (JS.startsWith line "---") &&
               (Z.of_nat (String.length (JS.trim line)) >? 10))
            (JS.split (ascii_of_nat 10) diff))).

(* ===================================================================== *)
(** * Commit message suggestion                                           *)
(* ===================================================================== *)

(** The [path] module of the runtime, as far as the suggestion uses it. *)
Record Path : Type := mkPath {
  sep : ascii;
  dirname : string -> string;
  basename : string -> string
}.

(** The [for] loop of [findCommonPath], from index [i] on, over the parts
    that remain; [p.split(path.sep)[i]] is [undefined] past the end. *)
Fixpoint commonParts (sep : ascii) (paths : list string) (parts : list string) (i : nat)
  : list string :=
  match parts with
  | [] => []
  | part :: rest =>
      if forallb (fun p =>
                    match nth_error (JS.split sep p) i with
                    | Some part' => String.eqb part' part
                    | None => false
                    end) paths
      then part :: commonParts sep paths rest (S i)
      else []
  end.

(** [findCommonPath(paths)]; [None] is [null]. *)
Definition findCommonPath (path : Path) (paths : list string) : option string :=
  match paths with
  | [] => None
  | [only] => Some (dirname path only)
  | first :: _ =>
      let commonParts := commonParts (sep path) paths (JS.split (sep path) first) 0 in
      if Nat.ltb 1 (length commonParts)
      then Some (JS.join (String (sep path) "") commonParts)
      else None
  end.

(** [categories[change.category].push(change)], creating the key at the
    end when it is new. *)
Fixpoint pushInto (category : string) (change : GitManager.DiffEntry)
  (categories : list (string * list GitManager.DiffEntry))
  : list (string * list GitManager.DiffEntry) :=
  match categories with
  | [] => [(category, [change])]
  | (category', files) :: rest =>
      if String.eqb category category' then (category', files ++ [change]) :: rest
      else (category', files) :: pushInto category change rest
  end.

(** The object [categories] after the [forEach]. *)
Definition categoriesOf (changes : list GitManager.DiffEntry)
  : list (string * list GitManager.DiffEntry) :=
  fold_left (fun categories change =>
               pushInto (GitManager.de_category change) change categories)
            changes [].

(** [categories[c] && categories[c].length > 0] *)
Fixpoint hasFiles (c : string) (categories : list (string * list GitManager.DiffEntry))
  : bool :=
  match categories with
  | [] => false
  | (c', files) :: rest =>
      if String.eqb c c' then Nat.ltb 0 (length files) else hasFiles c rest
  end.

(** [categories[c]] *)
Fixpoint filesIn (c : string) (categories : list (string * list GitManager.DiffEntry))
  : option (list GitManager.DiffEntry) :=
  match categories with
  | [] => None
  | (c', files) :: rest => if String.eqb c c' then Some files else filesIn c rest
  end.

Definition descriptions : list (string * string) :=
  [("feat", "add new functionality"); ("fix", "resolve issues");
   ("docs", "update documentation"); ("style", "improve code formatting");
   ("refactor", "restructure code"); ("test", "add/update tests");
   ("config", "update configuration"); ("chore", "general maintenance")].

(** [generateCommitDescription(type, categories, totalFiles)]; reading
    [Object.values(categories)[0][0]] throws when there is no category. *)
Definition generateCommitDescription (path : Path) (type : string)
  (categories : list (string * list GitManager.DiffEntry)) (totalFiles : Z)
  : outcome string :=
  let base :=
    match assoc type descriptions with
    | Some text => text
    | None => "update files"
    end in
  if totalFiles =? 1 then
    match categories with
    | (_, file :: _) :: _ =>
        Returned (base +:+ " in " +:+ basename path (GitManager.de_path file))
    | _ => Thrown "Cannot read properties of undefined"
    end
  else if totalFiles >? 1
  then Returned (base +:+ " across " +:+ JS.showZ totalFiles +:+ " files")
  else Returned base.

(** The object built by [analyzeChangesForCommitMessage]. *)
Record Suggestion : Type := mkSuggestion {
  suggested_message : string;
  sg_type : string;
  sg_scope : option string;
  sg_description : string;
  files_changed : Z;
  sg_categories : list string;
  primary_category : option string;
  file_breakdown : list (string * Z * list string)
}.

(** [analyzeChangesForCommitMessage(changes, includeScope)] *)
Definition analyzeChangesForCommitMessage (path : Path)
  (changes : list GitManager.DiffEntry) (includeScope : bool) : outcome Suggestion :=
  let categories := categoriesOf changes in
  (* Determine primary type *)
  let type := "chore" in
  let type :=
    if hasFiles "source" categories then
      let hasNewFiles :=
        existsb (fun c => String.eqb (GitManager.de_status c) "added") changes in
      if hasNewFiles then "feat" else "refactor"
    else type in
  let type := if hasFiles "test" categories then "test" else type in
  let type := if hasFiles "docs" categories then "docs" else type in
  let type := if hasFiles "style" categories then "style" else type in
  let type := if hasFiles "config" categories then "config" else type in
  (* Determine scope *)
  let scope :=
    if includeScope then
      match filesIn "source" categories with
      | Some files =>
          let sourcePaths := map GitManager.de_path files in
          match GitManager.given (findCommonPath path sourcePaths) with
          | Some commonPath => Some (basename path commonPath)
          | None => None
          end
      | None => None
      end
    else None in
  (* Generate description *)
  let totalFiles := zlength changes in
  match generateCommitDescription path type categories totalFiles with
  | Thrown error => Thrown error
  | Returned description =>
      let message :=
        type +:+
        (match GitManager.given scope with
         | Some s => "(" +:+ s +:+ ")"
         | None => ""
         end) +:+ ": " +:+ description in
      Returned
        {| suggested_message := message;
           sg_type := type;
           sg_scope := scope;
           sg_description := description;
           files_changed := totalFiles;
           sg_categories := map fst categories;
           primary_category := head (map fst categories);
           file_breakdown :=
             map (fun entry =>
                    (fst entry, zlength (snd entry), map GitManager.de_path (snd entry)))
                 categories |}
  end.

(* ===================================================================== *)
(** * Example inputs                                                      *)
(* ===================================================================== *)

Module Examples.

(** A checkout in which no diff can be read: every git call fails. *)
Definition noDiffGit : Git := fun _ => None.

(** A runtime whose expressions match nothing, whose dates do not parse
    and whose [JSON.parse] rejects every text; the classifier does not
    consult it when the diff is missing. *)
Definition silentRuntime : Runtime :=
  mkRuntime (fun _ _ => false) (fun _ _ => None) (fun _ _ => []) (fun _ => false)
            (fun _ => None).

Definition zeroMetrics : Metrics := mkMetrics 0 0 0 0 0.

(** The file records [analyzeFileChange] yields for the given paths. *)
Definition classify (commitHash : string) (paths : list string) : list FileChange :=
  flat_map
    (fun path =>
       match analyzeFileChange silentRuntime noDiffGit commitHash "M" path zeroMetrics with
       | (Returned (Some f), _) => [f]
       | _ => []
       end)
    paths.

(** The first commit of the example scenario: two files, forty lines. *)
Definition subject1 : string := "feat(auth): add login".
Definition files1 : list FileChange :=
  classify "1111111" ["src/pages/login.js"; "src/pages/session.js"].
Definition stats1 : DiffStats := mkDiffStats 2 30 10.

(** The second commit: 120 files, 3000 lines, one of the files a database
    migration. *)
Definition subject2 : string := "fix!: remove deprecated endpoint".
Definition files2 : list FileChange :=
  classify "2222222"
    (List.repeat "src/routes/handler.js" 119 ++ ["db/migrations/0042_drop_endpoint.sql"]).
Definition stats2 : DiffStats := mkDiffStats 120 1200 1800.

(** A log in the [simple] format: two records with four fields around a
    line that has none. *)
Definition simpleRecords : list string :=
  ["abc1234|add login form|Al|2024-01-01";
   "broken line";
   "def5678|repair crash on start|Bo|2024-01-02"].
Definition simpleLog : string :=
  JS.join (String GitManager.LF EmptyString) simpleRecords +:+
  String GitManager.LF EmptyString.

(** A git that answers every command with the example log, and a call
    that asks for 5000 commits in the [simple] format. *)
Definition logGit : Git := fun _ => Some simpleLog.
Definition manyOptions : GitManager.Options :=
  GitManager.mkOptions (GitManager.Value 5000) None None None None
    (GitManager.Value "simple") GitManager.Missing None.

(** A call that asks for one commit in a format that is none of the
    four, and a git that answers the command of that call, and no other
    command, with the text of one commit: its hashes, its subject, its
    message (the subject, an empty line and a body of a thousand lines),
    its author and its dates. *)
Definition customOptions : GitManager.Options :=
  GitManager.mkOptions (GitManager.Value 1) None None None None
    (GitManager.Value "custom") GitManager.Missing None.

Fixpoint bodyLines (n : nat) : string :=
  match n with
  | O => ""
  | S k => "one more line of detail" +:+ String GitManager.LF (bodyLines k)
  end.

Definition oneCommitLog : string :=
  "1111111111111111111111111111111111111111|1111111|add parser|add parser" +:+
  String GitManager.LF (String GitManager.LF (bodyLines 1000)) +:+
  "|Al|al@example.org|2024-01-01 10:00:00 +0000|2024-01-01 10:00:00 +0000".

Definition oneCommitCommand : string :=
  "git log -1 --no-merges --pretty=format:" +:+ dquote +:+
  "%H|%h|%s|%B|%an|%ae|%ad|%cd" +:+ dquote +:+ " --date=iso".

Definition oneCommitGit : Git := fun command =>
  if String.eqb command oneCommitCommand then Some oneCommitLog else None.

(** Calls that pass [null] for the count, the format and the flag of the
    merges, and a call that passes nothing. *)
Definition nullOptions : GitManager.Options :=
  GitManager.mkOptions GitManager.Null None None None None
    GitManager.Null GitManager.Null None.

Definition noOptions : GitManager.Options :=
  GitManager.mkOptions GitManager.Missing None None None None
    GitManager.Missing GitManager.Missing None.

(** Twelve commits, hence two batches.  Git knows all of them; for the
    commit [bad0003] the [git show] that reads the message fails. *)
Definition batchHashes : list string :=
  ["aaa0001"; "aaa0002"; "bad0003"; "aaa0004"; "aaa0005"; "aaa0006";
   "aaa0007"; "aaa0008"; "aaa0009"; "aaa0010"; "aaa0011"; "aaa0012"].

Definition batchGit : Git := fun command =>
  if JS.startsWith command "git cat-file -e " then Some ""
  else if existsb (fun h => String.eqb command (showCommand h)) batchHashes then
    if String.eqb command (showCommand "bad0003") then None
    else Some ("0123456789abcdef|improve the parser|Al|2024-01-01|improve the parser")
  else if JS.startsWith command "git show --name-status" then
    Some ("M" +:+ String TAB "src/parser.js")
  else None.

Definition lastFirst : nat -> list nat :=
  fun _ => [9; 8; 7; 6; 5; 4; 3; 2; 1; 0]%nat.

(** A generator on the OpenAI provider, without and with a model
    override; [o3] is not among the models the OpenAI provider accepts. *)
Definition openaiGenerator : Generator :=
  mkGenerator true AIProvider.OpenAI AIProvider.defaultModelConfig None "standard".
Definition overrideGenerator : Generator :=
  mkGenerator true AIProvider.OpenAI AIProvider.defaultModelConfig (Some "o3") "standard".

(** A service that answers every request with the same text, a service
    whose calls throw, and a runtime that parses the answer to an object
    which marks the change as breaking. *)
Definition replyService : Service :=
  mkService (fun _ => true)
            (fun _ _ => Returned (mkResponse (Some "{ the reply of the service }") (Some 120))).
Definition downService : Service :=
  mkService (fun _ => true) (fun _ _ => Thrown "Rate limit exceeded").
Definition breakingReply : jsval :=
  JObj [("summary", JStr "Rewrites the parser"); ("breaking", JBool true);
        ("impact", JStr "high")].
Definition replyRuntime : Runtime :=
  mkRuntime (fun _ _ => false) (fun _ _ => None) (fun _ _ => []) (fun _ => false)
            (fun _ => Some breakingReply).

(** The analysis of the first commit of the batch example, and that
    commit summarized by the service the way [generateChangelog] does for
    a short list of commits. *)
Definition firstCommit : CommitAnalysis :=
  let files := classify "aaa0001" ["src/parser.js"] in
  let stats := mkDiffStats 0 0 0 in
  {| hash := "0123456";
     fullHash := "0123456789abcdef";
     subject := "improve the parser";
     author := Some "Al";
     date := Some "2024-01-01";
     body := "";
     files := files;
     diffStats := stats;
     type := extractCommitType silentRuntime "improve the parser";
     scope := extractCommitScope silentRuntime "improve the parser";
     breaking := isBreakingChange "improve the parser" "";
     semanticAnalysis := performSemanticAnalysis files "improve the parser" "";
     ca_complexity := assessOverallComplexity files stats;
     riskAssessment := assessRisk files stats "improve the parser" "" |}.

Definition summarized (rt : Runtime) (svc : Service) (gen : Generator)
  (commits : list CommitAnalysis) : list AnalyzedCommit :=
  flat_map (fun commit =>
              match generateAISummary rt svc gen commit zeroMetrics with
              | (Returned s, _) => [mkAnalyzedCommit commit (Some s)]
              | (Thrown _, _) => []
              end) commits.

Definition releaseCommits : list AnalyzedCommit :=
  summarized replyRuntime replyService openaiGenerator [firstCommit].

(** A provider in auto mode with both services configured, and clients of
    which Azure rejects every request as rate-limited while OpenAI
    answers. *)
Definition bothConfigured : AIClient.Config :=
  AIClient.mkConfig "auto" (Some "sk-example")
    (AIClient.mkAzureConfig (Some "https://example.openai.azure.com") (Some "secret")
       "o4-mini" "2025-04-01-preview" true).

Definition azureLimited : AIClient.Clients :=
  AIClient.mkClients
    (fun _ => AIClient.Failed (Some 429) "Too many requests")
    (fun _ => AIClient.Completed (Some "{}") (Some 12) (Some "gpt-4.1")).

Definition summaryOptions : AIClient.Options :=
  AIClient.mkOptions (Some (3 # 10)) (Some 1000) (Some (Some "gpt-4.1")) (Some "medium").

End Examples.
(* ===================================================================== *)
(** * Facts about the string primitives                                   *)
(* ===================================================================== *)

Section StringFacts.

Lemma append_cons (c : ascii) (a b : string) :
  String c a +:+ b = String c (a +:+ b).
Proof. reflexivity. Qed.

Lemma append_nil_l (b : string) : "" +:+ b = b.
Proof. reflexivity. Qed.

Lemma append_nil_r (s : string) : s +:+ "" = s.
Proof.
  induction s as [|c s IH]; [reflexivity | now rewrite append_cons, IH].
Qed.

Lemma append_assoc (a b c : string) : (a +:+ b) +:+ c = a +:+ b +:+ c.
Proof.
  induction a as [|x a IH]; [reflexivity | now rewrite !append_cons, IH].
Qed.

Lemma startsWith_spec (s p : string) :
  JS.startsWith s p = true <-> exists b, s = p +:+ b.
Proof.
  revert s. induction p as [|a p IH]; intros s; simpl.
  - split; [intros _; now exists s | reflexivity].
  - destruct s as [|b s].
    + split; [discriminate | intros [r Hr]; discriminate].
    + destruct (Ascii.eqb_spec a b) as [->|Hne].
      * rewrite IH. split; intros [r Hr]; exists r.
        -- now rewrite append_cons, Hr.
        -- rewrite append_cons in Hr. now inversion Hr.
      * split; [discriminate |].
        intros [r Hr]. rewrite append_cons in Hr. inversion Hr; congruence.
Qed.

Lemma includes_spec (s p : string) :
  JS.includes s p = true <-> Contains s p.
Proof.
  unfold Contains. induction s as [|c s IH].
  - cbn [JS.includes]. rewrite orb_false_r, startsWith_spec. split.
    + intros [b Hb]. now exists "", b.
    + intros (a & b & H). destruct a; [now exists b | discriminate H].
  - cbn [JS.includes]. rewrite orb_true_iff, startsWith_spec, IH. split.
    + intros [[b Hb] | (a & b & H)].
      * now exists "", b.
      * exists (String c a), b. now rewrite append_cons, H.
    + intros (a & b & H). destruct a as [|x a].
      * left. now exists b.
      * right. rewrite append_cons in H. inversion H. now exists a, b.
Qed.

Lemma map_chars_app (f : ascii -> ascii) (a b : string) :
  JS.map_chars f (a +:+ b) = JS.map_chars f a +:+ JS.map_chars f b.
Proof.
  induction a as [|c a IH]; [reflexivity |].
  rewrite append_cons. cbn [JS.map_chars]. now rewrite append_cons, IH.
Qed.

Lemma Contains_prefix_token (s p q : string) :
  Contains s (p +:+ q) -> Contains s p.
Proof.
  intros (a & b & ->). exists a, (q +:+ b). now rewrite append_assoc.
Qed.

Lemma Contains_upper (s p : string) :
  Contains s p -> Contains (JS.toUpperCase s) (JS.toUpperCase p).
Proof.
  intros (a & b & ->). exists (JS.toUpperCase a), (JS.toUpperCase b).
  unfold JS.toUpperCase. now rewrite !map_chars_app.
Qed.

End StringFacts.

(* ===================================================================== *)
(** * Breaking-change detection                                           *)
(* ===================================================================== *)

Section Breaking.

Lemma falsy_spec (s : string) : JS.falsy s = true <-> s = "".
Proof. destruct s; simpl; split; congruence. Qed.

Lemma upper_breaking_change_colon :
  JS.toUpperCase "BREAKING CHANGE:" = "BREAKING CHANGE" +:+ ":".
Proof. reflexivity. Qed.

(** The body test on [BREAKING CHANGE:] is subsumed by the
    case-insensitive test on [BREAKING CHANGE]. *)
Lemma colon_form_subsumed (body : string) :
  Contains body "BREAKING CHANGE:" -> ContainsCI body "BREAKING CHANGE".
Proof.
  intros H. apply Contains_upper in H.
  rewrite upper_breaking_change_colon in H.
  exact (Contains_prefix_token _ _ _ H).
Qed.

End Breaking.

(** C3, as stated, fails on the code at three kinds of input: an empty
    subject with a [BREAKING CHANGE] body is not flagged; a subject that
    only holds the word [breaking] is flagged; a body with the hyphenated
    footer [BREAKING-CHANGE:] is flagged. *)
Lemma C3_isBreakingChange_counterexample :
  (isBreakingChange "" "BREAKING CHANGE: drop v1 api" = false /\
   spec_breaking "" "BREAKING CHANGE: drop v1 api" = true) /\
  (isBreakingChange "fix breaking layout on mobile" "" = true /\
   spec_breaking "fix breaking layout on mobile" "" = false) /\
  (isBreakingChange "chore: bump" "BREAKING-CHANGE: node 18 required" = true /\
   spec_breaking "chore: bump" "BREAKING-CHANGE: node 18 required" = false).
Proof. repeat split; vm_compute; reflexivity. Qed.

(** C3 (amended): whatever the upper-casing of the runtime does,
    [isBreakingChange] is false for an empty subject; for a non-empty
    subject it is true exactly when the subject contains [!:], or the
    upper-cased subject contains [BREAKING], or the body contains
    [BREAKING CHANGE:] or [BREAKING-CHANGE:], or the upper-cased body
    contains [BREAKING CHANGE]. *)
Theorem C3_isBreakingChange_characterised
  (toUpperCase : string -> string) (subject body : string) :
  isBreakingChangeWith toUpperCase subject body = true <->
  subject <> "" /\
  (Contains subject "!:" \/ Contains (toUpperCase subject) "BREAKING" \/
   Contains body "BREAKING CHANGE:" \/ Contains body "BREAKING-CHANGE:" \/
   Contains (toUpperCase body) "BREAKING CHANGE").
Proof.
  unfold isBreakingChangeWith.
  destruct (JS.falsy subject) eqn:Hf.
  - apply falsy_spec in Hf. split; [discriminate | intros [Hne _]; contradiction].
  - assert (Hne : subject <> "") by (intros E; apply falsy_spec in E; congruence).
    rewrite !orb_true_iff, !includes_spec. split.
    + intros H. split; [exact Hne |].
      destruct H as [[[[H | H] | H] | H] | H]; auto.
    + intros [_ [H | [H | [H | [H | H]]]]]; auto 6.
Qed.

(** On messages whose letters are ASCII letters the third test is
    subsumed by the last one. *)
Lemma isBreakingChange_ascii (subject body : string) :
  isBreakingChange subject body = true <->
  subject <> "" /\
  (Contains subject "!:" \/ ContainsCI subject "BREAKING" \/
   Contains body "BREAKING-CHANGE:" \/ ContainsCI body "BREAKING CHANGE").
Proof.
  unfold isBreakingChange, isBreakingChangeWith, ContainsCI.
  destruct (JS.falsy subject) eqn:Hf.
  - apply falsy_spec in Hf. split; [discriminate | intros [Hne _]; contradiction].
  - assert (Hne : subject <> "") by (intros E; apply falsy_spec in E; congruence).
    rewrite !orb_true_iff, !includes_spec. split.
    + intros H. split; [exact Hne |].
      destruct H as [[[[H | H] | H] | H] | H]; auto.
      right; right; right. now apply colon_form_subsumed.
    + intros [_ [H | [H | [H | H]]]]; auto.
Qed.

(* ===================================================================== *)
(** * Commit aggregator and model selector                                *)
(* ===================================================================== *)

Section Aggregator.

Lemma uniq_from_length (seen xs : list string) :
  (length (uniq_from seen xs) <= length xs)%nat.
Proof.
  revert seen. induction xs as [|x xs IH]; intros seen; simpl; [lia |].
  destruct (existsb (String.eqb x) seen).
  - specialize (IH seen). lia.
  - specialize (IH (x :: seen)). simpl. lia.
Qed.

Lemma zlength_uniq_le (xs : list string) : zlength (uniq xs) <= zlength xs.
Proof. unfold zlength, uniq. pose proof (uniq_from_length [] xs). lia. Qed.

Lemma zlength_nonneg {A} (l : list A) : 0 <= zlength l.
Proof. unfold zlength. lia. Qed.

Lemma zlength_map {A B} (f : A -> B) (l : list A) : zlength (map f l) = zlength l.
Proof. unfold zlength. now rewrite length_map. Qed.

(** The risk score is the sum of the points of the factors present. *)
Lemma assessRisk_score (files : list FileChange) (ds : DiffStats) (subject body : string) :
  ra_score (assessRisk files ds subject body) =
  points (isBreakingChange subject body) 5 +
  points (someCategory "database" files) 3 +
  points (someCategory "config" files) 2 +
  points ((zlength files >? 50) || (insertions ds + deletions ds >? 2000)) 2 +
  points (securityHit subject body) 3.
Proof.
  unfold assessRisk, securityHit, risk_factor, points. cbn [ra_score].
  destruct (isBreakingChange subject body), (someCategory "database" files),
    (someCategory "config" files),
    ((zlength files >? 50) || (insertions ds + deletions ds >? 2000)),
    (existsb _ securityKeywords); reflexivity.
Qed.

Lemma assessRisk_level (files : list FileChange) (ds : DiffStats) (subject body : string) :
  ra_level (assessRisk files ds subject body) =
  riskLevelOf (ra_score (assessRisk files ds subject body)).
Proof. reflexivity. Qed.

Lemma bang_colon_breaking (subject body : string) :
  JS.includes subject "!:" = true -> isBreakingChange subject body = true.
Proof.
  intros H. unfold isBreakingChange, isBreakingChangeWith.
  destruct subject as [|c s]; [discriminate H |].
  cbn [JS.falsy]. now rewrite H.
Qed.

Lemma securityHit_subject (subject body keyword : string) :
  In keyword securityKeywords ->
  JS.includes (JS.toLowerCase subject) keyword = true ->
  securityHit subject body = true.
Proof.
  intros Hin H. unfold securityHit. apply existsb_exists.
  exists keyword. split; [exact Hin | now rewrite H].
Qed.

End Aggregator.

(** C2, as stated, fails on the code for the first example commit: with
    two files and forty changed lines the complexity level is [minimal],
    not [low], and the keyword [auth] in the subject gives the risk level
    [low-medium], not [low]. *)
Lemma C2_first_commit_counterexample :
  length Examples.files1 = 2%nat /\
  insertions Examples.stats1 + deletions Examples.stats1 = 40 /\
  cx_level (assessOverallComplexity Examples.files1 Examples.stats1) = "minimal" /\
  cx_level (assessOverallComplexity Examples.files1 Examples.stats1) <> "low" /\
  ra_level (assessRisk Examples.files1 Examples.stats1 Examples.subject1 "")
    = "low-medium" /\
  ra_level (assessRisk Examples.files1 Examples.stats1 Examples.subject1 "") <> "low".
Proof. vm_compute. repeat split; discriminate. Qed.

(** C2 (amended): the first example commit (subject
    [feat(auth): add login], 2 files, 40 changed lines) has complexity
    score 0 and level [minimal]; its risk score is at least 3 because the
    subject holds the security keyword [auth], so its risk level is never
    [low], and it is [low-medium] when no file is of category database or
    config and the body is empty; the selector returns the cheapest tier
    ([nano]) for it.  The second example commit (subject
    [fix!: remove deprecated endpoint], 120 files, 3000 changed lines, a
    database-category file) has complexity level [very high], risk level
    [critical] and a risk score of at least 10. *)
Theorem C2_example_commits_classified
  (fs1 fs2 : list FileChange) (ds1 ds2 : DiffStats) (body1 body2 : string)
  (provider : AIProvider.Provider) (cfg : AIProvider.ModelConfig) (b c : bool) :
  length fs1 = 2%nat ->
  insertions ds1 + deletions ds1 = 40 ->
  length fs2 = 120%nat ->
  insertions ds2 + deletions ds2 = 3000 ->
  someCategory "database" fs2 = true ->
  (cx_score (assessOverallComplexity fs1 ds1) = 0 /\
   cx_level (assessOverallComplexity fs1 ds1) = "minimal" /\
   3 <= ra_score (assessRisk fs1 ds1 Examples.subject1 body1) /\
   ra_level (assessRisk fs1 ds1 Examples.subject1 body1) <> "low" /\
   (someCategory "database" fs1 = false -> someCategory "config" fs1 = false ->
    ra_level (assessRisk fs1 ds1 Examples.subject1 "") = "low-medium") /\
   AIProvider.selectModelForCommit provider cfg
     (AIProvider.mkCommitInfo (Some (map filePath fs1)) (insertions ds1)
        (deletions ds1) (Some Examples.subject1) b c)
   = AIProvider.nano cfg) /\
  (cx_level (assessOverallComplexity fs2 ds2) = "very high" /\
   ra_level (assessRisk fs2 ds2 Examples.subject2 body2) = "critical" /\
   10 <= ra_score (assessRisk fs2 ds2 Examples.subject2 body2)).
Proof.
  intros Hlen1 Hsum1 Hlen2 Hsum2 Hdb.
  assert (Hz1 : zlength fs1 = 2) by (unfold zlength; now rewrite Hlen1).
  assert (Hz2 : zlength fs2 = 120) by (unfold zlength; now rewrite Hlen2).
  assert (Hsec : securityHit Examples.subject1 body1 = true).
  { apply securityHit_subject with (keyword := "auth"); [now left | reflexivity]. }
  assert (Hsec' : securityHit Examples.subject1 "" = true) by reflexivity.
  assert (Hbrk : isBreakingChange Examples.subject2 body2 = true).
  { apply bang_colon_breaking. reflexivity. }
  assert (Hscore1 : 3 <= ra_score (assessRisk fs1 ds1 Examples.subject1 body1)).
  { rewrite assessRisk_score, Hsec. unfold points.
    repeat match goal with |- context [if ?x then _ else _] => destruct x end; lia. }
  assert (Hscore2 : 10 <= ra_score (assessRisk fs2 ds2 Examples.subject2 body2)).
  { rewrite assessRisk_score, Hbrk, Hdb, Hz2. unfold points.
    replace (120 >? 50) with true by reflexivity. cbn [orb].
    repeat match goal with |- context [if ?x then _ else _] => destruct x end; lia. }
  split.
  - assert (Hcat : zlength (uniq (map category fs1)) <= 2).
    { pose proof (zlength_uniq_le (map category fs1)) as H.
      rewrite zlength_map, Hz1 in H. exact H. }
    assert (Hcx : cx_score (assessOverallComplexity fs1 ds1) = 0).
    { unfold assessOverallComplexity. cbn [cx_score]. rewrite Hz1, Hsum1.
      replace (zlength (uniq (map category fs1)) >? 4) with false by (symmetry; lia).
      replace (zlength (uniq (map category fs1)) >? 2) with false by (symmetry; lia).
      reflexivity. }
    split; [exact Hcx |]. split.
    { unfold assessOverallComplexity in *. cbn [cx_score cx_level] in *.
      rewrite Hcx. reflexivity. }
    split; [exact Hscore1 |]. split.
    { rewrite assessRisk_level. unfold riskLevelOf.
      repeat match goal with |- context [if ?x then _ else _] => destruct x eqn:? end;
        try discriminate; lia. }
    split.
    { intros Hnodb Hnocfg. rewrite assessRisk_level, assessRisk_score.
      rewrite Hnodb, Hnocfg, Hsec', Hz1, Hsum1. reflexivity. }
    unfold AIProvider.selectModelForCommit, AIProvider.messageIncludes.
    cbn [AIProvider.ci_files AIProvider.additions AIProvider.deletions AIProvider.message].
    rewrite zlength_map, Hz1, Hsum1. reflexivity.
  - split; [| split; [| exact Hscore2]].
    + unfold assessOverallComplexity. cbn [cx_level]. rewrite Hz2, Hsum2.
      replace (120 >? 50) with true by reflexivity.
      replace (3000 >? 5000) with false by reflexivity.
      replace (3000 >? 1000) with true by reflexivity.
      destruct (zlength (uniq (map category fs2)) >? 4);
        destruct (zlength (uniq (map category fs2)) >? 2); reflexivity.
    + rewrite assessRisk_level. unfold riskLevelOf.
      replace (ra_score (assessRisk fs2 ds2 Examples.subject2 body2) >=? 8) with true
        by (symmetry; lia).
      reflexivity.
Qed.

Lemma C2_example_commits_classified_witness :
  (cx_score (assessOverallComplexity Examples.files1 Examples.stats1) = 0 /\
   cx_level (assessOverallComplexity Examples.files1 Examples.stats1) = "minimal" /\
   3 <= ra_score (assessRisk Examples.files1 Examples.stats1 Examples.subject1 "") /\
   ra_level (assessRisk Examples.files1 Examples.stats1 Examples.subject1 "") <> "low" /\
   (someCategory "database" Examples.files1 = false ->
    someCategory "config" Examples.files1 = false ->
    ra_level (assessRisk Examples.files1 Examples.stats1 Examples.subject1 "")
      = "low-medium") /\
   AIProvider.selectModelForCommit AIProvider.OpenAI AIProvider.defaultModelConfig
     (AIProvider.mkCommitInfo (Some (map filePath Examples.files1))
        (insertions Examples.stats1) (deletions Examples.stats1)
        (Some Examples.subject1) false false)
   = AIProvider.nano AIProvider.defaultModelConfig) /\
  (cx_level (assessOverallComplexity Examples.files2 Examples.stats2) = "very high" /\
   ra_level (assessRisk Examples.files2 Examples.stats2 Examples.subject2 "")
     = "critical" /\
   10 <= ra_score (assessRisk Examples.files2 Examples.stats2 Examples.subject2 "")).
Proof.
  apply (C2_example_commits_classified Examples.files1 Examples.files2
           Examples.stats1 Examples.stats2 "" "" AIProvider.OpenAI
           AIProvider.defaultModelConfig false false);
    vm_compute; reflexivity.
Defined.

(** C6: with the files and the diff statistics unchanged, a message that
    [isBreakingChange] flags never has a lower risk score than a message
    that it does not flag. *)
Theorem C6_breaking_indicator_never_lowers_risk
  (files : list FileChange) (ds : DiffStats)
  (subject body subject' body' : string) :
  isBreakingChange subject body = false ->
  isBreakingChange subject' body' = true ->
  ra_score (assessRisk files ds subject body)
  <= ra_score (assessRisk files ds subject' body').
Proof.
  intros Hplain Hbreaking. rewrite !assessRisk_score, Hplain, Hbreaking.
  unfold points.
  destruct (someCategory "database" files), (someCategory "config" files),
    ((zlength files >? 50) || (insertions ds + deletions ds >? 2000)),
    (securityHit subject body), (securityHit subject' body'); lia.
Qed.

Lemma C6_breaking_indicator_never_lowers_risk_witness :
  ra_score (assessRisk Examples.files1 Examples.stats1 "feat(auth): add login" "")
  <= ra_score (assessRisk Examples.files1 Examples.stats1 "feat(auth)!: add login" "").
Proof.
  apply C6_breaking_indicator_never_lowers_risk; vm_compute; reflexivity.
Defined.

(* ===================================================================== *)
(** * Diff classifier                                                     *)
(* ===================================================================== *)

Section Classifier.

Variable rt : Runtime.

Lemma assessChangeComplexity_missing (diff : string) :
  diffMissing diff = true -> assessChangeComplexity diff = 1.
Proof. intros H. unfold assessChangeComplexity. now rewrite H. Qed.

Lemma analyzeSemanticChanges_missing (diff path : string) :
  diffMissing diff = true ->
  analyzeSemanticChanges rt diff path =
  mkSemanticChanges "modification" [] [] [] [] [] [].
Proof. intros H. unfold analyzeSemanticChanges. now rewrite H. Qed.

(** [analyzeFileChange] returns a record for every input, leaves the
    counters alone and does not throw. *)
Lemma analyzeFileChange_returns (git : Git) (commitHash st path : string) (m : Metrics) :
  exists fc,
    analyzeFileChange rt git commitHash st path m = (Returned (Some fc), m) /\
    status fc = st /\ filePath fc = path /\
    diff fc = execGitSafe git (diffCommandOf commitHash path) /\
    category fc = categorizeFile path /\
    complexity fc = assessChangeComplexity (diff fc) /\
    semanticChanges fc = analyzeSemanticChanges rt (diff fc) path.
Proof.
  eexists. unfold analyzeFileChange, try_catch, ret.
  split; [reflexivity |]. cbn. repeat split; reflexivity.
Qed.

End Classifier.

(** C5, as stated, fails on the code: for a missing diff the complexity of
    the file record is 1, the lowest bucket, not 0. *)
Lemma C5_missing_diff_counterexample :
  execGitSafe Examples.noDiffGit (diffCommandOf "1111111" "assets/logo.png") = "" /\
  assessChangeComplexity "" = 1 /\
  assessChangeComplexity "Binary file or diff unavailable" = 1 /\
  exists fc,
    analyzeFileChange Examples.silentRuntime Examples.noDiffGit
      "1111111" "A" "assets/logo.png" Examples.zeroMetrics
    = (Returned (Some fc), Examples.zeroMetrics) /\
    complexity fc = 1 /\ complexity fc <> 0.
Proof.
  split; [reflexivity |]. split; [reflexivity |]. split; [reflexivity |].
  eexists. split; [vm_compute; reflexivity |]. cbn. split; [reflexivity | discriminate].
Qed.

(** C5 (amended): for every file, whatever git answers,
    [analyzeFileChange] returns a file record without throwing and
    without touching the counters, so a file never aborts the
    classification of its siblings; the record holds the status, the
    path, the category of the path and the diff text that git gave.  When
    that diff text is empty or is the marker
    [Binary file or diff unavailable], the record has an empty pattern
    list (and empty framework, code element and API change lists) and
    complexity 1. *)
Theorem C5_missing_diff_classified
  (rt : Runtime) (git : Git) (commitHash st path : string) (m : Metrics) :
  exists fc,
    analyzeFileChange rt git commitHash st path m = (Returned (Some fc), m) /\
    status fc = st /\ filePath fc = path /\
    category fc = categorizeFile path /\
    diff fc = execGitSafe git (diffCommandOf commitHash path) /\
    (diffMissing (execGitSafe git (diffCommandOf commitHash path)) = true ->
     sc_patterns (semanticChanges fc) = [] /\
     sc_frameworks (semanticChanges fc) = [] /\
     sc_codeElements (semanticChanges fc) = [] /\
     sc_apiChanges (semanticChanges fc) = [] /\
     complexity fc = 1).
Proof.
  destruct (analyzeFileChange_returns rt git commitHash st path m)
    as (fc & Hrun & Hst & Hpath & Hdiff & Hcat & Hcx & Hsem).
  exists fc. repeat (split; [assumption |]).
  intros Hmissing. rewrite <- Hdiff in Hmissing.
  rewrite (analyzeSemanticChanges_missing rt _ path Hmissing) in Hsem.
  rewrite (assessChangeComplexity_missing _ Hmissing) in Hcx.
  rewrite Hsem. cbn. repeat split; assumption.
Qed.

Lemma C5_missing_diff_classified_witness :
  exists fc,
    analyzeFileChange Examples.silentRuntime Examples.noDiffGit
      "1111111" "A" "assets/logo.png" Examples.zeroMetrics
    = (Returned (Some fc), Examples.zeroMetrics) /\
    status fc = "A" /\ filePath fc = "assets/logo.png" /\
    category fc = categorizeFile "assets/logo.png" /\
    sc_patterns (semanticChanges fc) = [] /\
    sc_frameworks (semanticChanges fc) = [] /\
    sc_codeElements (semanticChanges fc) = [] /\
    sc_apiChanges (semanticChanges fc) = [] /\
    complexity fc = 1.
Proof.
  destruct (C5_missing_diff_classified Examples.silentRuntime Examples.noDiffGit
              "1111111" "A" "assets/logo.png" Examples.zeroMetrics)
    as (fc & Hrun & Hst & Hpath & Hcat & _ & Hmissing).
  exists fc. repeat (split; [assumption |]). apply Hmissing. reflexivity.
Defined.

(* ===================================================================== *)
(** * Commit record parser                                                *)
(* ===================================================================== *)

Section Parser.

Import GitManager.

Variable rt : Runtime.

Lemma split_no_separator (c : ascii) (x : string) :
  JS.has_char c x = false -> JS.split c x = [x].
Proof.
  induction x as [|a x IH]; [reflexivity |].
  cbn [JS.has_char JS.split]. intros H. apply orb_false_elim in H as [Ha Hx].
  rewrite Ha, (IH Hx). reflexivity.
Qed.

Lemma split_before_separator (c : ascii) (x s : string) :
  JS.has_char c x = false ->
  JS.split c (x +:+ String c s) = x :: JS.split c s.
Proof.
  induction x as [|a x IH]; intros H.
  - rewrite append_nil_l. cbn [JS.split]. now rewrite Ascii.eqb_refl.
  - cbn [JS.has_char] in H. apply orb_false_elim in H as [Ha Hx].
    rewrite append_cons. cbn [JS.split]. rewrite Ha, (IH Hx). reflexivity.
Qed.

(** Splitting the join of records that do not hold the separator gives
    the records back. *)
Lemma split_join (c : ascii) (rs : list string) :
  rs <> [] ->
  Forall (fun r => JS.has_char c r = false) rs ->
  JS.split c (JS.join (String c "") rs) = rs.
Proof.
  induction rs as [|x rs IH]; [congruence |]. intros _ Hall.
  inversion Hall as [|? ? Hx Hrest]; subst.
  destruct rs as [|y rs].
  - cbn [JS.join]. now apply split_no_separator.
  - change (JS.join (String c "") (x :: y :: rs))
      with (x +:+ String c "" +:+ JS.join (String c "") (y :: rs)).
    rewrite append_cons, append_nil_l, split_before_separator by exact Hx.
    rewrite IH; [reflexivity | discriminate | exact Hrest].
Qed.

Lemma trimEnd_empty (s : string) : JS.trimEnd s = "" -> JS.all_space s = true.
Proof.
  induction s as [|c s IH]; [reflexivity |]. cbn [JS.trimEnd JS.all_space].
  destruct (JS.trimEnd s) eqn:Ht; [| discriminate].
  destruct (JS.is_space c); [intros _; now apply IH | discriminate].
Qed.

Lemma trimStart_all_space (s : string) :
  JS.all_space (JS.trimStart s) = true -> JS.all_space s = true.
Proof.
  induction s as [|c s IH]; [reflexivity |]. cbn [JS.trimStart JS.all_space].
  destruct (JS.is_space c) eqn:Hc; [exact IH |].
  cbn [JS.all_space]. now rewrite Hc.
Qed.

Lemma trim_empty (s : string) : JS.trim s = "" -> JS.all_space s = true.
Proof. intros H. apply trimStart_all_space, trimEnd_empty, H. Qed.

Lemma all_space_no_bar (s : string) :
  JS.all_space s = true -> JS.has_char "|" s = false.
Proof.
  induction s as [|c s IH]; [reflexivity |]. cbn [JS.all_space JS.has_char].
  intros H. apply andb_prop in H as [Hc Hs]. rewrite (IH Hs), orb_false_r.
  destruct (Ascii.eqb_spec c "|") as [-> |]; [discriminate Hc | reflexivity].
Qed.

Lemma truthy_false (s : string) : JS.truthy s = false -> s = "".
Proof. destruct s; [reflexivity | discriminate]. Qed.

(** A blank record has a single field. *)
Lemma blank_single_field (r : string) :
  JS.truthy (JS.trim r) = false -> JS.split "|" r = [r].
Proof.
  intros H. apply split_no_separator, all_space_no_bar, trim_empty.
  now apply truthy_false.
Qed.

Lemma dropNull_map_filter {A} (keep : string -> bool) (f : string -> option A)
  (rs : list string) :
  (forall r, keep r = false -> f r = None) ->
  dropNull (map f (List.filter keep rs)) = omap f rs.
Proof.
  intros Hdrop. unfold dropNull. induction rs as [|r rs IH]; [reflexivity |].
  cbn [List.filter]. destruct (keep r) eqn:Hk.
  - cbn. destruct (f r); cbn; now rewrite IH.
  - cbn. rewrite (Hdrop r Hk). exact IH.
Qed.

Lemma map_filter_omap {A} (keep : string -> bool) (f : string -> A)
  (rs : list string) :
  map f (List.filter keep rs) = omap (fun r => if keep r then Some (f r) else None) rs.
Proof.
  induction rs as [|r rs IH]; [reflexivity |].
  cbn [List.filter]. cbn. destruct (keep r); cbn; now rewrite IH.
Qed.

Lemma simpleCommit_blank (r : string) :
  JS.truthy (JS.trim r) = false -> simpleCommit rt r = None.
Proof. intros H. unfold simpleCommit. now rewrite (blank_single_field r H). Qed.

Lemma fullCommit_empty (format r : string) :
  JS.truthy r = false -> fullCommit rt format r = None.
Proof. intros H. apply truthy_false in H. now subst r. Qed.

(** The parser keeps exactly the records with enough fields. *)
Lemma simpleCommit_wellFormed (r : string) :
  is_Some (simpleCommit rt r) <-> Nat.leb 4 (fieldCount r) = true.
Proof.
  unfold simpleCommit, fieldCount.
  destruct (JS.split "|" r) as [|a [|b [|c [|d l]]]]; cbn;
    split; intros H; try discriminate H; try (now destruct H); eauto.
Qed.

Lemma fullCommit_wellFormed (format r : string) :
  is_Some (fullCommit rt format r) <-> Nat.leb 8 (fieldCount r) = true.
Proof.
  unfold fullCommit, fieldCount.
  destruct (JS.split "|" r) as [|a [|b [|c [|d [|e [|f [|g [|h l]]]]]]]]; cbn;
    split; intros H; try discriminate H; try (now destruct H); eauto.
Qed.

Lemma commitOfRecord_wellFormed (format r : string) :
  is_Some (commitOfRecord rt format r) <-> wellFormed format r = true.
Proof.
  unfold commitOfRecord, wellFormed.
  destruct (String.eqb format "oneline") eqn:Ho.
  - apply String.eqb_eq in Ho. subst format. cbn.
    destruct (JS.truthy (JS.trim r)); split; intros H;
      try discriminate; try (now destruct H); eauto.
  - destruct (String.eqb format "simple"); [apply simpleCommit_wellFormed |].
    destruct (isFullOrDetailed format); [apply fullCommit_wellFormed |].
    destruct (JS.truthy (JS.trim r)); split; intros H;
      try discriminate; try (now destruct H); eauto.
Qed.

Lemma commitOfRecord_empty (format : string) : commitOfRecord rt format "" = None.
Proof.
  unfold commitOfRecord.
  destruct (String.eqb format "oneline"); [reflexivity |].
  destruct (String.eqb format "simple"); [reflexivity |].
  destruct (isFullOrDetailed format); reflexivity.
Qed.

(** The parse of an output, from the records the output is made of. *)
Lemma parseCommitOutput_of_records (output format : string) (rs : list string) :
  JS.trim output = JS.join (String (separatorOf format) "") rs ->
  Forall (fun r => JS.has_char (separatorOf format) r = false) rs ->
  parseCommitOutput rt output format = omap (commitOfRecord rt format) rs.
Proof.
  intros Hout Hsep.
  destruct rs as [|r0 rs0] eqn:Hrs.
  { unfold parseCommitOutput. rewrite Hout. reflexivity. }
  rewrite <- Hrs in *.
  assert (Hsplit : JS.split (separatorOf format) (JS.trim output) = rs).
  { rewrite Hout. apply split_join; [subst rs; discriminate | exact Hsep]. }
  unfold parseCommitOutput.
  destruct (JS.falsy (JS.trim output)) eqn:Hfalsy.
  { apply falsy_spec in Hfalsy. rewrite Hfalsy in Hsplit. cbn in Hsplit.
    rewrite <- Hsplit. cbn. now rewrite commitOfRecord_empty. }
  unfold linesOf, commitOfRecord. unfold separatorOf in Hsplit.
  destruct (String.eqb format "oneline") eqn:Ho.
  { apply String.eqb_eq in Ho. subst format. cbn in Hsplit |- *.
    rewrite Hsplit. apply map_filter_omap. }
  destruct (String.eqb format "simple") eqn:Hs.
  { apply String.eqb_eq in Hs. subst format. cbn in Hsplit |- *.
    rewrite Hsplit. apply dropNull_map_filter, simpleCommit_blank. }
  destruct (isFullOrDetailed format) eqn:Hf.
  { rewrite Hsplit. apply dropNull_map_filter. intros r. apply fullCommit_empty. }
  rewrite Hsplit.
  apply (map_filter_omap (fun line => JS.truthy (JS.trim line))
           (fun line => MessageOnly (JS.trim line))).
Qed.

Lemma omap_length_filter {A} (f : string -> option A) (keep : string -> bool)
  (rs : list string) :
  (forall r, is_Some (f r) <-> keep r = true) ->
  length (omap f rs) = length (List.filter keep rs).
Proof.
  intros H. induction rs as [|r rs IH]; [reflexivity |].
  cbn. destruct (f r) eqn:Hf, (keep r) eqn:Hk; cbn; try (now rewrite IH).
  - assert (is_Some (f r)) as Hs by (rewrite Hf; eauto).
    apply H in Hs. congruence.
  - apply H in Hk. rewrite Hf in Hk. now destruct Hk.
Qed.

End Parser.

(** C4: when the trimmed output is the records [rs] joined by the
    separator of the format, none of them holding the separator, the
    parser returns, in the order of [rs], the commit of every record that
    has at least the expected number of [|]-separated fields (4 for
    [simple], 8 for [full] and [detailed]) and drops the others; so K
    well-formed records give exactly K commits.  The parser is a total
    function: no input makes it fail. *)
Theorem C4_parseCommitOutput_keeps_wellformed_records
  (rt : Runtime) (output format : string) (rs : list string) :
  JS.trim output = JS.join (String (GitManager.separatorOf format) "") rs ->
  Forall (fun r => JS.has_char (GitManager.separatorOf format) r = false) rs ->
  GitManager.parseCommitOutput rt output format
    = omap (GitManager.commitOfRecord rt format) rs /\
  (forall r, is_Some (GitManager.commitOfRecord rt format r) <->
             GitManager.wellFormed format r = true) /\
  length (GitManager.parseCommitOutput rt output format)
    = length (List.filter (GitManager.wellFormed format) rs) /\
  (Forall (fun r => GitManager.wellFormed format r = true) rs ->
   length (GitManager.parseCommitOutput rt output format) = length rs).
Proof.
  intros Hout Hsep.
  pose proof (parseCommitOutput_of_records rt output format rs Hout Hsep) as Hparse.
  pose proof (commitOfRecord_wellFormed rt format) as Hwf.
  assert (Hlen : length (GitManager.parseCommitOutput rt output format)
                 = length (List.filter (GitManager.wellFormed format) rs)).
  { rewrite Hparse. now apply omap_length_filter. }
  repeat split; try assumption; try apply Hwf.
  intros Hall. rewrite Hlen. f_equal.
  clear -Hall. induction Hall as [|r rs Hr _ IH]; [reflexivity |].
  cbn [List.filter]. now rewrite Hr, IH.
Qed.

Lemma C4_parseCommitOutput_keeps_wellformed_records_witness :
  GitManager.parseCommitOutput Examples.silentRuntime Examples.simpleLog "simple"
    = omap (GitManager.commitOfRecord Examples.silentRuntime "simple")
           Examples.simpleRecords /\
  (forall r, is_Some (GitManager.commitOfRecord Examples.silentRuntime "simple" r) <->
             GitManager.wellFormed "simple" r = true) /\
  length (GitManager.parseCommitOutput Examples.silentRuntime Examples.simpleLog "simple")
    = length (List.filter (GitManager.wellFormed "simple") Examples.simpleRecords) /\
  (Forall (fun r => GitManager.wellFormed "simple" r = true) Examples.simpleRecords ->
   length (GitManager.parseCommitOutput Examples.silentRuntime Examples.simpleLog "simple")
   = length Examples.simpleRecords).
Proof.
  apply (C4_parseCommitOutput_keeps_wellformed_records Examples.silentRuntime
           Examples.simpleLog "simple" Examples.simpleRecords).
  - vm_compute. reflexivity.
  - repeat constructor.
Defined.

(** The example log parses to its two well-formed records, in order. *)
Example parse_simpleLog :
  GitManager.parseCommitOutput Examples.silentRuntime Examples.simpleLog "simple" =
  [GitManager.Simple "abc1234" "add login form" "Al" "2024-01-01" "feat" None;
   GitManager.Simple "def5678" "repair crash on start" "Bo" "2024-01-02" "other" None].
Proof. vm_compute. reflexivity. Qed.

(* ===================================================================== *)
(** * Log retrieval                                                       *)
(* ===================================================================== *)

Section Retrieval.

Import GitManager.

Lemma omap_length_le {A B} (f : A -> option B) (l : list A) :
  (length (omap f l) <= length l)%nat.
Proof.
  induction l as [|x l IH]; [cbn; lia |]. cbn. destruct (f x); cbn; lia.
Qed.

(** The limit that [getCommits] puts into the command: [-min(n, 1000)]
    for a positive count, nothing for a count that is [null], zero or
    negative, and [-20] for a count that is not passed. *)
Lemma countArg_cases (options : Options) :
  countArg options
  = match count options with
    | Value n => if 0 <? n then " -" +:+ JS.showZ (Z.min n 1000) else ""
    | Null => ""
    | Missing => " -20"
    end.
Proof.
  unfold countArg, countOf. destruct (count options) as [| |n]; try reflexivity.
  destruct (0 <? n) eqn:Hpos.
  - replace (n =? 0) with false by (symmetry; lia).
    replace (n >? 0) with true by (symmetry; lia). reflexivity.
  - destruct (n =? 0); [reflexivity |].
    replace (n >? 0) with false by (symmetry; lia). reflexivity.
Qed.

(** The parser returns at most one entry for each piece that the
    separator of the format cuts the trimmed output into. *)
Lemma parseCommitOutput_length (rt : Runtime) (output format : string) :
  (length (parseCommitOutput rt output format)
   <= length (JS.split (separatorOf format) (JS.trim output)))%nat.
Proof.
  assert (Hfilter : forall (keep : string -> bool) l,
            (length (List.filter keep l) <= length l)%nat).
  { intros keep l. induction l as [|x l IH]; [cbn; lia |].
    cbn. destruct (keep x); cbn; lia. }
  assert (Hlines : (length (linesOf output format)
                    <= length (JS.split (separatorOf format) (JS.trim output)))%nat).
  { unfold linesOf, separatorOf. destruct (isFullOrDetailed format); apply Hfilter. }
  unfold parseCommitOutput.
  destruct (JS.falsy (JS.trim output)); [cbn; lia |].
  unfold dropNull.
  destruct (String.eqb format "oneline"); [rewrite length_map; exact Hlines |].
  destruct (String.eqb format "simple").
  { etransitivity; [apply omap_length_le |]. rewrite length_map. exact Hlines. }
  destruct (isFullOrDetailed format).
  { etransitivity; [apply omap_length_le |]. rewrite length_map. exact Hlines. }
  rewrite length_map. exact Hlines.
Qed.

(** For a format that is none of the four, the parser returns one entry
    for each line of the output that is not blank. *)
Lemma parseCommitOutput_other (rt : Runtime) (output format : string) :
  ~ In format ["simple"; "full"; "oneline"; "detailed"] ->
  parseCommitOutput rt output format
  = map (fun line => MessageOnly (JS.trim line))
        (List.filter (fun line => JS.truthy (JS.trim line))
                     (JS.split LF (JS.trim output))).
Proof.
  intros Hformat. unfold parseCommitOutput, linesOf, isFullOrDetailed.
  destruct (String.eqb_spec format "oneline") as [-> | _];
    [exfalso; apply Hformat; cbn; tauto |].
  destruct (String.eqb_spec format "simple") as [-> | _];
    [exfalso; apply Hformat; cbn; tauto |].
  destruct (String.eqb_spec format "full") as [-> | _];
    [exfalso; apply Hformat; cbn; tauto |].
  destruct (String.eqb_spec format "detailed") as [-> | _];
    [exfalso; apply Hformat; cbn; tauto |].
  cbn [orb].
  destruct (JS.trim output) as [|c rest] eqn:Htrim; [reflexivity |].
  reflexivity.
Qed.

(** [getCommits] asks git for the branch named in the options and for
    the log, and for nothing else. *)
Lemma getCommits_reads (rt : Runtime) (git git' : Git) (options : Options) :
  (forall b, git' ("git rev-parse --verify " +:+ b)
             = git ("git rev-parse --verify " +:+ b)) ->
  git' (commandOf rt git options) = git (commandOf rt git options) ->
  getCommits rt git' options = getCommits rt git options.
Proof.
  intros Hverify Hlog.
  assert (Hcommand : commandOf rt git' options = commandOf rt git options).
  { unfold commandOf, branchArg. destruct (given (branch options)); [| reflexivity].
    now rewrite Hverify. }
  unfold getCommits. now rewrite Hcommand, Hlog.
Qed.

End Retrieval.

(** C10, as stated, fails on the code: a call that asks for one commit in
    a format that is none of the four runs a command with the limit [-1],
    and from a git that prints that one commit, whose message has a body
    of a thousand lines, it returns 1002 entries, one for each line of the
    output that is not blank. *)
Lemma C10_getCommits_caps_count_counterexample :
  GitManager.count Examples.customOptions = GitManager.Value 1 /\
  GitManager.commandOf Examples.silentRuntime Examples.oneCommitGit
    Examples.customOptions = Examples.oneCommitCommand /\
  Examples.oneCommitGit Examples.oneCommitCommand = Some Examples.oneCommitLog /\
  length (GitManager.getCommits Examples.silentRuntime Examples.oneCommitGit
            Examples.customOptions) = 1002%nat /\
  (1000 < length (GitManager.getCommits Examples.silentRuntime Examples.oneCommitGit
                    Examples.customOptions))%nat.
Proof.
  assert (Hlen : length (GitManager.getCommits Examples.silentRuntime
                           Examples.oneCommitGit Examples.customOptions) = 1002%nat)
    by (vm_compute; reflexivity).
  repeat split; try (vm_compute; reflexivity). rewrite Hlen. lia.
Qed.

(** C10 (amended): the one log command that a call of [getCommits] runs
    is [git log], the verified branch if any, then the limit, then the
    filters and the format, where the limit is [-min(n, 1000)] for an
    integer count [n > 0], [-20] for a count that is not passed, and
    nothing for a count that is [null], zero or negative; the call reads
    nothing else of git but the answer to the verification of the branch.
    The returned list is empty when git fails, and otherwise has at most
    one entry for each record of the trimmed output (the records are
    separated by NUL for the formats [full] and [detailed], and are the
    lines for any other format); so for a count [n > 0], when git prints
    at most [min(n, 1000)] records the list has at most [min(n, 1000)],
    hence at most 1000, entries.  For a format that is none of [simple],
    [full], [oneline] and [detailed] the list has one entry for each line
    of the output that is not blank. *)
Theorem C10_getCommits_limit
  (rt : Runtime) (git : Git) (options : GitManager.Options) :
  exists limit command,
    limit
      = match GitManager.count options with
        | GitManager.Value n =>
            if 0 <? n then " -" +:+ JS.showZ (Z.min n 1000) else ""
        | GitManager.Null => ""
        | GitManager.Missing => " -20"
        end /\
    command
      = "git log" +:+ GitManager.branchArg git options +:+ limit +:+
        GitManager.dateArg rt "since" (GitManager.since options) +:+
        GitManager.dateArg rt "until" (GitManager.until options) +:+
        GitManager.filterArg "author" (GitManager.author options) +:+
        GitManager.filterArg "grep" (GitManager.grep options) +:+
        GitManager.mergesArg options +:+ GitManager.formatArg options /\
    GitManager.getCommits rt git options
      = match git command with
        | Some output =>
            GitManager.parseCommitOutput rt output (GitManager.formatName options)
        | None => []
        end /\
    (forall git' : Git,
       (forall b, git' ("git rev-parse --verify " +:+ b)
                  = git ("git rev-parse --verify " +:+ b)) ->
       git' command = git command ->
       GitManager.getCommits rt git' options = GitManager.getCommits rt git options) /\
    (git command = None -> GitManager.getCommits rt git options = []) /\
    (forall output,
       git command = Some output ->
       (length (GitManager.getCommits rt git options)
        <= length (JS.split (GitManager.separatorOf (GitManager.formatName options))
                            (JS.trim output)))%nat /\
       (forall n,
          GitManager.count options = GitManager.Value n ->
          0 < n ->
          Z.of_nat (length (JS.split
                              (GitManager.separatorOf (GitManager.formatName options))
                              (JS.trim output)))
          <= Z.min n 1000 ->
          Z.of_nat (length (GitManager.getCommits rt git options)) <= Z.min n 1000 /\
          (length (GitManager.getCommits rt git options) <= 1000)%nat) /\
       (~ In (GitManager.formatName options) ["simple"; "full"; "oneline"; "detailed"] ->
        GitManager.getCommits rt git options
        = map (fun line => GitManager.MessageOnly (JS.trim line))
              (List.filter (fun line => JS.truthy (JS.trim line))
                           (JS.split GitManager.LF (JS.trim output))))).
Proof.
  pose proof (countArg_cases options) as Harg.
  assert (Hcommand :
    GitManager.commandOf rt git options
    = "git log" +:+ GitManager.branchArg git options +:+
      match GitManager.count options with
      | GitManager.Value n =>
          if 0 <? n then " -" +:+ JS.showZ (Z.min n 1000) else ""
      | GitManager.Null => ""
      | GitManager.Missing => " -20"
      end +:+
      GitManager.dateArg rt "since" (GitManager.since options) +:+
      GitManager.dateArg rt "until" (GitManager.until options) +:+
      GitManager.filterArg "author" (GitManager.author options) +:+
      GitManager.filterArg "grep" (GitManager.grep options) +:+
      GitManager.mergesArg options +:+ GitManager.formatArg options).
  { unfold GitManager.commandOf. now rewrite Harg. }
  eexists _, _. split; [reflexivity |]. split; [reflexivity |].
  rewrite <- Hcommand.
  assert (Hrun : GitManager.getCommits rt git options
                 = match git (GitManager.commandOf rt git options) with
                   | Some output =>
                       GitManager.parseCommitOutput rt output
                         (GitManager.formatName options)
                   | None => []
                   end) by reflexivity.
  split; [exact Hrun |]. split; [intros git'; apply getCommits_reads |].
  split; [intros Hnone; rewrite Hrun, Hnone; reflexivity |].
  intros output Hout. rewrite Hrun, Hout.
  pose proof (parseCommitOutput_length rt output (GitManager.formatName options)) as Hlen.
  split; [exact Hlen |]. split; [intros n _ _ Hrecords; lia |].
  intros Hformat. apply parseCommitOutput_other. exact Hformat.
Qed.

(** A call that asks for 5000 commits runs a command with the limit
    [-1000], and from a git that prints three lines it returns at most
    three entries. *)
Lemma C10_getCommits_limit_witness :
  exists command,
    command = "git log -1000 --no-merges --pretty=format:" +:+ dquote +:+
              "%h|%s|%an|%ad" +:+ dquote +:+ " --date=iso" /\
    GitManager.getCommits Examples.silentRuntime Examples.logGit Examples.manyOptions
      = match Examples.logGit command with
        | Some output =>
            GitManager.parseCommitOutput Examples.silentRuntime output "simple"
        | None => []
        end /\
    Z.of_nat (length (GitManager.getCommits Examples.silentRuntime Examples.logGit
                        Examples.manyOptions)) <= Z.min 5000 1000 /\
    (length (GitManager.getCommits Examples.silentRuntime Examples.logGit
               Examples.manyOptions) <= 1000)%nat.
Proof.
  destruct (C10_getCommits_limit Examples.silentRuntime Examples.logGit
              Examples.manyOptions)
    as (limit & command & Hlimit & Hcommand & Hrun & _ & _ & Hbound).
  exists command. split; [rewrite Hcommand, Hlimit; vm_compute; reflexivity |].
  split; [exact Hrun |].
  destruct (Hbound Examples.simpleLog eq_refl) as (_ & Hcap & _).
  apply (Hcap 5000); [reflexivity | lia | vm_compute; discriminate].
Defined.

(** The commands of three calls: 5000 commits asked for in the [simple]
    format; no option passed; and [null] passed for the count, the format
    and the flag of the merges. *)
Example getCommits_commands :
  GitManager.commandOf Examples.silentRuntime Examples.logGit Examples.manyOptions
    = "git log -1000 --no-merges --pretty=format:" +:+ dquote +:+ "%h|%s|%an|%ad" +:+
      dquote +:+ " --date=iso" /\
  GitManager.commandOf Examples.silentRuntime Examples.logGit Examples.noOptions
    = "git log -20 --no-merges --pretty=format:" +:+ dquote +:+
      "%H|%h|%s|%B|%an|%ae|%ad|%cd" +:+ dquote +:+ " --date=iso -z" /\
  GitManager.commandOf Examples.silentRuntime Examples.logGit Examples.nullOptions
    = "git log --pretty=format:" +:+ dquote +:+ "%H|%h|%s|%B|%an|%ae|%ad|%cd" +:+
      dquote +:+ " --date=iso".
Proof. repeat split; vm_compute; reflexivity. Qed.

(** A format that names a member of [Object.prototype] puts the text of
    that member into the command. *)
Example getCommits_inherited_format :
  GitManager.formatArg
    (GitManager.mkOptions GitManager.Missing None None None None
       (GitManager.Value "constructor") GitManager.Missing None)
  = " --pretty=format:" +:+ dquote +:+ "function Object() { [native code] }" +:+
    dquote +:+ " --date=iso".
Proof. vm_compute. reflexivity. Qed.

(* ===================================================================== *)
(** * Commit analysis and batches                                         *)
(* ===================================================================== *)

Section Batches.

Variable rt : Runtime.
Variable git : Git.

Lemma mapM_unchanged {A B} (f : A -> M B) (xs : list A) :
  (forall x, exists v, forall m, f x m = (Returned v, m)) ->
  exists vs, forall m, mapM f xs m = (Returned vs, m).
Proof.
  intros Hf. induction xs as [|x xs [vs IH]]; [now exists [] |].
  destruct (Hf x) as [v Hv]. exists (v :: vs). intros m.
  cbn [mapM]. unfold bind. rewrite Hv, IH. reflexivity.
Qed.

Lemma analyzeFileChange_run (commitHash st path : string) :
  exists v, forall m, analyzeFileChange rt git commitHash st path m = (Returned v, m).
Proof. eexists. intros m. unfold analyzeFileChange, try_catch, ret. reflexivity. Qed.

(** The three ways [getCommitAnalysis] ends: [null] for a hash that does
    not validate, [null] and one more error when the body throws, the
    analysis and one more processed commit otherwise.  It never throws. *)
Lemma getCommitAnalysis_cases (commitHash : string) :
  (forall m, getCommitAnalysis rt git commitHash m = (Returned None, m)) \/
  (forall m, getCommitAnalysis rt git commitHash m = (Returned None, bump_errors m)) \/
  (exists analysis,
     forall m, getCommitAnalysis rt git commitHash m
               = (Returned (Some analysis), bump_commitsProcessed m)).
Proof.
  unfold getCommitAnalysis.
  destruct (GitManager.validateCommitHash git commitHash); cbn [negb];
    [| left; reflexivity].
  unfold execGit. destruct (git (showCommand commitHash)) as [commitInfo|];
    [| right; left; reflexivity].
  match goal with
  | |- context [mapM ?f ?xs] =>
      assert (Hfiles : exists vs, forall m, mapM f xs m = (Returned vs, m))
  end.
  { apply mapM_unchanged. intros line.
    destruct (JS.split TAB line) as [|st [|path rest]];
      try (exists None; reflexivity).
    apply analyzeFileChange_run. }
  destruct Hfiles as [vs Hvs].
  destruct (nth_error (JS.split "|" (hd "" (JS.split (ascii_of_nat 10) commitInfo)))
              1%nat) as [subject|] eqn:Hsubject.
  - right; right. eexists. intros m.
    unfold try_catch, bind, ret. rewrite Hvs, Hsubject. reflexivity.
  - right; left. intros m.
    unfold try_catch, bind, ret. rewrite Hvs, Hsubject. reflexivity.
Qed.

Lemma getCommitAnalysis_yields (commitHash : string) :
  yields (getCommitAnalysis rt git commitHash) (analysisOf rt git commitHash).
Proof.
  unfold yields, analysisOf.
  destruct (getCommitAnalysis_cases commitHash) as [H | [H | [a H]]];
    intros m; rewrite !H; cbn; eexists; (split; [reflexivity |]); reflexivity.
Qed.

Lemma fill_cons {A} (vals : list A) (c : nat) (later : list nat)
  (slots : list (option (Settled A))) :
  fill vals (c :: later) slots =
  fill vals later (match vals !! c with
                   | Some v => <[c := Some (Fulfilled v)]> slots
                   | None => slots
                   end).
Proof. reflexivity. Qed.

(** [Promise.allSettled]: whatever the order of completion, the record of
    each promise ends at the index of the promise. *)
Lemma settleInOrder_fill {A} (promises : list (M A)) (vals : list A) :
  Forall2 yields promises vals ->
  forall completion slots m,
  exists m',
    settleInOrder promises completion slots m
      = (Returned (fill vals completion slots), m') /\
    batchesProcessed m' = batchesProcessed m.
Proof.
  intros Hvals completion.
  induction completion as [|i later IH]; intros slots m.
  - exists m. split; reflexivity.
  - cbn [settleInOrder]. rewrite fill_cons.
    destruct (promises !! i) as [p|] eqn:Hp.
    + destruct (Forall2_lookup_l _ _ _ _ _ Hvals Hp) as (v & Hv & Hyield).
      rewrite Hv. unfold bind, settle.
      destruct (Hyield m) as (m1 & Hrun & Hm1). rewrite Hrun.
      destruct (IH (<[i := Some (Fulfilled v)]> slots) m1) as (m' & Hrest & Hm').
      exists m'. split; [exact Hrest | congruence].
    + assert (vals !! i = None) as ->.
      { apply lookup_ge_None. rewrite <- (Forall2_length _ _ _ Hvals).
        now apply lookup_ge_None. }
      apply IH.
Qed.

Lemma fill_lookup {A} (vals : list A) (completion : list nat) :
  forall slots i,
    length slots = length vals ->
    fill vals completion slots !! i =
    match vals !! i with
    | Some v => if decide (i ∈ completion) then Some (Some (Fulfilled v))
                else slots !! i
    | None => slots !! i
    end.
Proof.
  induction completion as [|c later IH]; intros slots i Hlen.
  - cbn. destruct (vals !! i); [| reflexivity].
    destruct (decide (i ∈ [])) as [Hin|]; [| reflexivity].
    now apply elem_of_nil in Hin.
  - rewrite fill_cons.
    destruct (vals !! c) as [vc|] eqn:Hc.
    + rewrite IH by (now rewrite length_insert).
      destruct (vals !! i) as [v|] eqn:Hi.
      * destruct (decide (i ∈ later)) as [Hin|Hnin].
        -- rewrite decide_True by (now right). reflexivity.
        -- destruct (decide (c = i)) as [->|Hne].
           ++ rewrite decide_True by (now left).
              rewrite list_lookup_insert_eq
                by (rewrite Hlen; now apply lookup_lt_Some in Hi).
              congruence.
           ++ rewrite list_lookup_insert_ne by exact Hne.
              rewrite decide_False; [reflexivity |].
              intros Hin. apply elem_of_cons in Hin as [-> | Hin]; congruence.
      * destruct (decide (c = i)) as [->|Hne]; [congruence |].
        now rewrite list_lookup_insert_ne.
    + rewrite IH by exact Hlen.
      destruct (vals !! i) as [v|] eqn:Hi; [| reflexivity].
      destruct (decide (i ∈ later)) as [Hin|Hnin].
      * rewrite decide_True by (now right). reflexivity.
      * rewrite decide_False; [reflexivity |].
        intros Hin. apply elem_of_cons in Hin as [-> | Hin]; congruence.
Qed.

Lemma fill_all {A} (vals : list A) (completion : list nat) :
  (forall i, (i < length vals)%nat -> i ∈ completion) ->
  fill vals completion (replicate (length vals) None)
  = map (fun v => Some (Fulfilled v)) vals.
Proof.
  intros Hall. apply list_eq. intros i.
  rewrite fill_lookup by apply length_replicate.
  change (map (fun v => Some (Fulfilled v)) vals)
    with ((fun v => Some (Fulfilled v)) <$> vals).
  rewrite list_lookup_fmap.
  destruct (vals !! i) as [v|] eqn:Hi; cbn.
  - rewrite decide_True; [reflexivity |].
    apply Hall. now apply lookup_lt_Some in Hi.
  - apply lookup_replicate_None. now apply lookup_ge_None in Hi.
Qed.

Lemma successfulResults_settled {A} (vals : list (option A)) :
  successfulResults (map (fun v => Some (Fulfilled v)) vals) = omap id vals.
Proof.
  unfold successfulResults. induction vals as [|[a|] vals IH]; cbn;
    [reflexivity | now rewrite IH | exact IH].
Qed.

Lemma omap_id_map {A B} (f : A -> option B) (l : list A) :
  omap id (map f l) = omap f l.
Proof.
  induction l as [|x l IH]; [reflexivity |]. cbn. destruct (f x); cbn; now rewrite IH.
Qed.

(** One batch: the successful results are the analyses of the hashes of
    the batch that have one, in the order of the batch. *)
Lemma batch_settled (completion : list nat) (batch : list string) (m : Metrics) :
  (forall j, (j < length batch)%nat -> j ∈ completion) ->
  exists batchResults m',
    allSettled completion (map (getCommitAnalysis rt git) batch) m
      = (Returned batchResults, m') /\
    successfulResults batchResults = omap (analysisOf rt git) batch /\
    batchesProcessed m' = batchesProcessed m.
Proof.
  intros Hall.
  assert (Hvals : Forall2 yields (map (getCommitAnalysis rt git) batch)
                          (map (analysisOf rt git) batch)).
  { clear Hall. induction batch as [|h batch IH]; cbn; constructor;
      [apply getCommitAnalysis_yields | exact IH]. }
  unfold allSettled.
  destruct (settleInOrder_fill _ _ Hvals completion
              (replicate (length (map (getCommitAnalysis rt git) batch)) None) m)
    as (m' & Hrun & Hm').
  eexists _, m'. split; [exact Hrun |]. split; [| exact Hm'].
  replace (length (map (getCommitAnalysis rt git) batch))
    with (length (map (analysisOf rt git) batch)) by (now rewrite !length_map).
  rewrite fill_all by (rewrite length_map; exact Hall).
  now rewrite successfulResults_settled, omap_id_map.
Qed.

(** The loop, from batch number [b] on. *)
Lemma batchLoop_result (completion : nat -> list nat) (commitHashes : list string) :
  everySettles completion commitHashes ->
  forall fuel b results m,
    (length commitHashes <= b * batchSize + fuel * batchSize)%nat ->
    exists m',
      batchLoop rt git completion commitHashes fuel (b * batchSize) results m
        = (Returned (results ++ omap (analysisOf rt git)
                                     (drop (b * batchSize) commitHashes)), m') /\
      batchesProcessed m' =
      batchesProcessed m +
      Z.of_nat ((length commitHashes - b * batchSize + (batchSize - 1)) / batchSize).
Proof.
  intros Hall. unfold batchSize in *.
  induction fuel as [|fuel IH]; intros b results m Hfuel.
  - exists m. cbn [batchLoop ret].
    rewrite drop_ge by lia. cbn. rewrite app_nil_r.
    split; [reflexivity |].
    replace (length commitHashes - b * 10)%nat with 0%nat by lia.
    cbn. lia.
  - cbn [batchLoop]. unfold batchSize.
    destruct (Nat.ltb_spec (b * 10) (length commitHashes)) as [Hlt|Hge].
    + unfold bind.
      rewrite Nat.div_mul by discriminate.
      destruct (batch_settled (completion b)
                  (slice (b * 10) (b * 10 + 10) commitHashes) m)
        as (batchResults & m1 & Hrun & Hsucc & Hm1).
      { apply Hall. }
      rewrite Hrun. unfold update.
      destruct (IH (S b) (results ++ successfulResults batchResults)
                   (bump_batchesProcessed m1)) as (m' & Hrest & Hm').
      { cbn [Nat.mul] in *. lia. }
      replace (S b * 10)%nat with (b * 10 + 10)%nat in Hrest, Hm' by lia.
      exists m'. split.
      * rewrite Hrest, Hsucc. unfold slice.
        replace (b * 10 + 10 - b * 10)%nat with 10%nat by lia.
        rewrite <- app_assoc, <- omap_app.
        rewrite <- (drop_drop commitHashes 10 (b * 10)), take_drop. reflexivity.
      * rewrite Hm'. cbn [bump_batchesProcessed batchesProcessed]. rewrite Hm1.
        destruct (le_lt_dec (b * 10 + 10) (length commitHashes)) as [Hfull|Hshort].
        -- replace (length commitHashes - b * 10 + (10 - 1))%nat
             with (length commitHashes - (b * 10 + 10) + (10 - 1) + 1 * 10)%nat by lia.
           rewrite Nat.div_add by discriminate. lia.
        -- replace (length commitHashes - (b * 10 + 10))%nat with 0%nat by lia.
           replace (length commitHashes - b * 10 + (10 - 1))%nat
             with (length commitHashes - b * 10 - 1 + 1 * 10)%nat by lia.
           rewrite Nat.div_add by discriminate.
           rewrite !Nat.div_small by lia. cbn. lia.
    + exists m. cbn [ret]. rewrite drop_ge by lia. cbn. rewrite app_nil_r.
      split; [reflexivity |].
      replace (length commitHashes - b * 10)%nat with 0%nat by lia.
      cbn. lia.
Qed.

(** The batches return, in the order of the hashes, the analysis of every
    hash that has one, whatever the order in which the promises of a
    batch settle; one batch is counted for every ten hashes. *)
Lemma generateChangelogBatch_result
  (completion : nat -> list nat) (commitHashes : list string) (m : Metrics) :
  everySettles completion commitHashes ->
  exists m',
    generateChangelogBatch rt git completion commitHashes m
      = (Returned (omap (analysisOf rt git) commitHashes), m') /\
    batchesProcessed m' =
    batchesProcessed m + Z.of_nat ((length commitHashes + 9) / 10).
Proof.
  intros Hall. unfold generateChangelogBatch.
  destruct (batchLoop_result completion commitHashes Hall
              (length commitHashes) 0 [] m) as (m' & Hrun & Hm').
  { unfold batchSize. lia. }
  exists m'. split; [exact Hrun |].
  rewrite Hm'. unfold batchSize. cbn [Nat.mul]. rewrite Nat.sub_0_r.
  reflexivity.
Qed.

Lemma everySettles_of_all (completion : nat -> list nat) (commitHashes : list string) :
  (forall b j, (j < batchSize)%nat -> j ∈ completion b) ->
  everySettles completion commitHashes.
Proof.
  intros Hall b j Hj. apply Hall. unfold slice in Hj.
  rewrite length_take in Hj. lia.
Qed.

(** The analyses kept by [omap] are those of a subsequence of the
    hashes, in the same order. *)
Lemma omap_subsequence {A B} (f : A -> option B) (l : list A) :
  exists kept,
    kept `sublist_of` l /\ Forall2 (fun h a => f h = Some a) kept (omap f l).
Proof.
  induction l as [|h l (kept & Hsub & Hall)].
  - exists []. split; constructor.
  - cbn. destruct (f h) as [a|] eqn:Hf.
    + exists (h :: kept). split; [now constructor | now constructor].
    + exists kept. split; [now constructor | exact Hall].
Qed.

Lemma omap_filter_Forall2 {A B} (f : A -> option B) (keep : A -> bool) (l : list A) :
  (forall h, h ∈ l -> keep h = true -> is_Some (f h)) ->
  (forall h, h ∈ l -> keep h = false -> f h = None) ->
  Forall2 (fun h a => f h = Some a) (List.filter keep l) (omap f l).
Proof.
  induction l as [|h l IH]; intros Hkeep Hdrop; [constructor |].
  assert (IH' : Forall2 (fun h a => f h = Some a) (List.filter keep l) (omap f l)).
  { apply IH; intros h' Hin; [apply Hkeep | apply Hdrop]; now right. }
  cbn. destruct (keep h) eqn:Hk.
  - destruct (Hkeep h (ltac:(now left)) Hk) as [a Ha]. rewrite Ha.
    now constructor.
  - rewrite (Hdrop h (ltac:(now left)) Hk). exact IH'.
Qed.

End Batches.

(** C7: [generateChangelogBatch] works through the hashes ten at a time
    (one batch counted per ten hashes) and captures the outcome of every
    commit on its own: the result holds the analysis of every hash whose
    own analysis succeeds, whatever happens to the other commits.  When a
    single hash [bad] fails, the result is the analyses of all the other
    hashes. *)
Theorem C7_batch_isolates_failures
  (rt : Runtime) (git : Git) (completion : nat -> list nat)
  (commitHashes : list string) (m : Metrics) :
  everySettles completion commitHashes ->
  exists results m',
    generateChangelogBatch rt git completion commitHashes m = (Returned results, m') /\
    batchesProcessed m' =
      batchesProcessed m + Z.of_nat ((length commitHashes + 9) / 10) /\
    (forall h a, h ∈ commitHashes -> analysisOf rt git h = Some a -> a ∈ results) /\
    (forall bad,
       analysisOf rt git bad = None ->
       (forall h, h ∈ commitHashes -> h <> bad -> is_Some (analysisOf rt git h)) ->
       Forall2 (fun h a => analysisOf rt git h = Some a)
               (List.filter (fun h => negb (String.eqb h bad)) commitHashes)
               results).
Proof.
  intros Hall.
  destruct (generateChangelogBatch_result rt git completion commitHashes m Hall)
    as (m' & Hrun & Hm').
  exists (omap (analysisOf rt git) commitHashes), m'.
  split; [exact Hrun |]. split; [exact Hm' |]. split.
  - intros h a Hin Ha. apply list_elem_of_omap. now exists h.
  - intros bad Hbad Hothers. apply omap_filter_Forall2.
    + intros h Hin Hk. apply Hothers; [exact Hin |].
      intros ->. now rewrite String.eqb_refl in Hk.
    + intros h Hin Hk. apply negb_false_iff, String.eqb_eq in Hk. now subst h.
Qed.

Lemma C7_batch_isolates_failures_witness :
  exists results m',
    generateChangelogBatch Examples.silentRuntime Examples.batchGit Examples.lastFirst
      Examples.batchHashes Examples.zeroMetrics = (Returned results, m') /\
    batchesProcessed m' =
      batchesProcessed Examples.zeroMetrics +
      Z.of_nat ((length Examples.batchHashes + 9) / 10) /\
    (forall h a, h ∈ Examples.batchHashes ->
       analysisOf Examples.silentRuntime Examples.batchGit h = Some a -> a ∈ results) /\
    (forall bad,
       analysisOf Examples.silentRuntime Examples.batchGit bad = None ->
       (forall h, h ∈ Examples.batchHashes -> h <> bad ->
          is_Some (analysisOf Examples.silentRuntime Examples.batchGit h)) ->
       Forall2 (fun h a => analysisOf Examples.silentRuntime Examples.batchGit h = Some a)
               (List.filter (fun h => negb (String.eqb h bad)) Examples.batchHashes)
               results).
Proof.
  apply (C7_batch_isolates_failures Examples.silentRuntime Examples.batchGit
           Examples.lastFirst Examples.batchHashes Examples.zeroMetrics).
  apply everySettles_of_all. intros b j Hj. unfold batchSize in Hj.
  do 10 (destruct j as [|j]; [apply list_elem_of_In; cbn; tauto |]). lia.
Defined.

(** In the example the third commit fails; the eleven others are
    returned, in two batches, with one error counted. *)
Example batch_of_twelve :
  exists results m',
    generateChangelogBatch Examples.silentRuntime Examples.batchGit Examples.lastFirst
      Examples.batchHashes Examples.zeroMetrics = (Returned results, m') /\
    length results = 11%nat /\ batchesProcessed m' = 2 /\
    commitsProcessed m' = 11 /\ errors m' = 1.
Proof. eexists _, _. split; [vm_compute; reflexivity |]. repeat split. Qed.



(** In the example the hashes whose analysis succeeds are all but the
    third. *)
Example batch_of_twelve_kept :
  List.filter (analysed Examples.silentRuntime Examples.batchGit) Examples.batchHashes
  = ["aaa0001"; "aaa0002"; "aaa0004"; "aaa0005"; "aaa0006"; "aaa0007"; "aaa0008";
     "aaa0009"; "aaa0010"; "aaa0011"; "aaa0012"].
Proof. vm_compute. reflexivity. Qed.

(* ===================================================================== *)
(** * Summaries and release insights                                      *)
(* ===================================================================== *)

Section Summaries.

Lemma populated_JStr (s : string) : populated (JStr s).
Proof. split; discriminate. Qed.

Lemma populated_strings (xs : list string) : populated (strings xs).
Proof. split; discriminate. Qed.

(** The rule-based summary is total and fills every field. *)
Lemma generateRuleBasedSummary_complete (commit : CommitAnalysis) :
  complete (generateRuleBasedSummary commit).
Proof.
  unfold complete, generateRuleBasedSummary.
  repeat match goal with
         | |- context [let '(_, _) := ?x in _] => destruct x
         end.
  cbn.
  repeat split; try discriminate.
  all: destruct (breaking commit); discriminate.
Qed.

Lemma generateRuleBasedSummary_breaking (commit : CommitAnalysis) :
  sm_breaking (generateRuleBasedSummary commit) = breaking commit.
Proof.
  unfold generateRuleBasedSummary.
  repeat match goal with
         | |- context [let '(_, _) := ?x in _] => destruct x
         end.
  reflexivity.
Qed.

(** The flag of the release follows the flags of the commits. *)
Lemma insightStep_breaking (commits : list AnalyzedCommit) (insights : ReleaseInsights) :
  ri_breaking (fold_left insightStep commits insights) =
  ri_breaking insights || existsb (fun commit => breaking (analysis commit)) commits.
Proof.
  revert insights. induction commits as [|c commits IH]; intros insights.
  - cbn. now rewrite orb_false_r.
  - cbn [fold_left existsb]. rewrite IH. cbn [insightStep ri_breaking].
    destruct (breaking (analysis c)), (ri_breaking insights); reflexivity.
Qed.

End Summaries.

(** C9, as stated, fails on the code: a commit that the summary of the
    service marks as breaking, while its own subject and body do not,
    leaves the flag of the release false. *)
Lemma C9_release_breaking_counterexample :
  map (fun commit => option_map sm_breaking (aiSummary commit)) Examples.releaseCommits
    = [Some true] /\
  map (fun commit => breaking (analysis commit)) Examples.releaseCommits = [false] /\
  spec_release_breaking Examples.releaseCommits = true /\
  ri_breaking (generateReleaseInsights Examples.releaseCommits) = false.
Proof. vm_compute. repeat split. Qed.

(** C9 (amended): the breaking flag of the release is true exactly when
    some analyzed commit's own [breaking] flag, the one computed from its
    subject and body, is true; the summaries are not read. *)
Theorem C9_release_breaking_follows_commit_flags (analyzedCommits : list AnalyzedCommit) :
  ri_breaking (generateReleaseInsights analyzedCommits) =
  existsb (fun commit => breaking (analysis commit)) analyzedCommits.
Proof.
  unfold generateReleaseInsights. cbn [ri_breaking].
  now rewrite insightStep_breaking.
Qed.

(** With rule-based summaries the two readings agree. *)
Lemma release_breaking_rule_based (analyzedCommits : list AnalyzedCommit) :
  Forall (fun commit =>
            aiSummary commit = Some (generateRuleBasedSummary (analysis commit)))
         analyzedCommits ->
  ri_breaking (generateReleaseInsights analyzedCommits)
  = spec_release_breaking analyzedCommits.
Proof.
  intros Hall. unfold generateReleaseInsights. cbn [ri_breaking].
  rewrite insightStep_breaking. cbn [ri_breaking orb].
  unfold spec_release_breaking.
  induction Hall as [|c cs Hc _ IH]; [reflexivity |].
  cbn [existsb]. rewrite IH, Hc, generateRuleBasedSummary_breaking. reflexivity.
Qed.

(** C1, as stated, fails on the code: when the selected model is reported
    unavailable, the rule-based summary is returned but no error is
    counted. *)
Lemma C1_unavailable_model_counterexample :
  validateModelAvailability Examples.replyService
    (activeProvider Examples.overrideGenerator)
    (checkedModel Examples.overrideGenerator
       (selectOptimalModel Examples.overrideGenerator Examples.replyService
          Examples.firstCommit)) = false /\
  generateAISummary Examples.silentRuntime Examples.replyService
    Examples.overrideGenerator Examples.firstCommit Examples.zeroMetrics
  = (Returned (generateRuleBasedSummary Examples.firstCommit), Examples.zeroMetrics) /\
  errors (snd (generateAISummary Examples.silentRuntime Examples.replyService
                 Examples.overrideGenerator Examples.firstCommit Examples.zeroMetrics))
  = 0.
Proof. vm_compute. repeat split. Qed.

(** C1 (amended): with a provider configured, whenever the summarization
    by the service fails (the selected model is unavailable, the call
    throws, the answer has no content, the content is not parseable JSON
    or parses to [null]), [generateAISummary] does not throw and returns
    the rule-based summary, every required field of which is populated
    ([migrationNotes] may be [null]); the failure adds one to
    [metrics.errors], except that an unavailable model is not counted. *)
Theorem C1_fallback_on_service_failure
  (rt : Runtime) (svc : Service) (gen : Generator) (commit : CommitAnalysis)
  (counted : bool) (effect : Metrics -> Metrics) (m : Metrics) :
  hasAI gen = true ->
  ServiceFailure rt svc gen commit counted effect ->
  generateAISummary rt svc gen commit m
    = (Returned (generateRuleBasedSummary commit), effect m) /\
  complete (generateRuleBasedSummary commit) /\
  errors (effect m) = errors m + (if counted then 1 else 0).
Proof.
  intros Hai Hfail.
  split; [| split; [apply generateRuleBasedSummary_complete |]].
  - unfold generateAISummary. rewrite Hai. cbn [negb].
    destruct Hfail as [Hun | reason Hav Hcall | response Hav Hcall Hempty
                       | response text Hav Hcall Htext Hparse
                       | response text Hav Hcall Htext Hparse];
      unfold try_catch, bind, lift, update, ret, throw;
      rewrite ?Hun, ?Hav; cbn [negb]; try reflexivity;
      rewrite Hcall; try reflexivity.
    + rewrite Hempty. unfold afterCall.
      destruct (usage response); reflexivity.
    + rewrite Htext. unfold parseAIResponse, try_catch, bind, lift, update, ret.
      rewrite Hparse. unfold afterCall. destruct (usage response); reflexivity.
    + rewrite Htext. unfold parseAIResponse, try_catch, bind, lift, update, ret.
      rewrite Hparse. unfold afterCall. destruct (usage response); reflexivity.
  - destruct Hfail; unfold afterCall; cbn;
      try (destruct (usage response)); cbn; lia.
Qed.

Lemma C1_fallback_on_service_failure_witness :
  generateAISummary Examples.silentRuntime Examples.downService
    Examples.openaiGenerator Examples.firstCommit Examples.zeroMetrics
    = (Returned (generateRuleBasedSummary Examples.firstCommit),
       bump_errors Examples.zeroMetrics) /\
  complete (generateRuleBasedSummary Examples.firstCommit) /\
  errors (bump_errors Examples.zeroMetrics) = errors Examples.zeroMetrics + 1.
Proof.
  apply (C1_fallback_on_service_failure Examples.silentRuntime Examples.downService
           Examples.openaiGenerator Examples.firstCommit true bump_errors
           Examples.zeroMetrics).
  - reflexivity.
  - apply CallThrows with (reason := "Rate limit exceeded"); vm_compute; reflexivity.
Defined.

(** The example commit is the analysis [getCommitAnalysis] builds for the
    first hash of the batch example. *)
Example firstCommit_analysed :
  analysisOf Examples.silentRuntime Examples.batchGit "aaa0001"
  = Some Examples.firstCommit.
Proof. vm_compute. reflexivity. Qed.

(* ===================================================================== *)
(** * Further facts: scores and levels                                    *)
(* ===================================================================== *)

Section Scores.

Lemma complexityLevelOf_monotone (a b : Z) :
  a <= b ->
  complexityRank (complexityLevelOf a) <= complexityRank (complexityLevelOf b).
Proof.
  intros Hab. unfold complexityLevelOf.
  destruct (a >=? 8) eqn:Ha8, (a >=? 6) eqn:Ha6, (a >=? 4) eqn:Ha4, (a >=? 2) eqn:Ha2,
    (b >=? 8) eqn:Hb8, (b >=? 6) eqn:Hb6, (b >=? 4) eqn:Hb4, (b >=? 2) eqn:Hb2;
    cbn; lia.
Qed.

Lemma riskLevelOf_monotone (a b : Z) :
  a <= b -> riskRank (riskLevelOf a) <= riskRank (riskLevelOf b).
Proof.
  intros Hab. unfold riskLevelOf.
  destruct (a >=? 8) eqn:Ha8, (a >=? 6) eqn:Ha6, (a >=? 4) eqn:Ha4, (a >=? 2) eqn:Ha2,
    (b >=? 8) eqn:Hb8, (b >=? 6) eqn:Hb6, (b >=? 4) eqn:Hb4, (b >=? 2) eqn:Hb2;
    cbn; lia.
Qed.

Lemma assessOverallComplexity_level (files : list FileChange) (ds : DiffStats) :
  cx_level (assessOverallComplexity files ds)
  = complexityLevelOf (cx_score (assessOverallComplexity files ds)).
Proof. reflexivity. Qed.

Lemma assessOverallComplexity_bounds (files : list FileChange) (ds : DiffStats) :
  0 <= cx_score (assessOverallComplexity files ds) <= 12.
Proof.
  unfold assessOverallComplexity. cbn [cx_score].
  repeat match goal with
         | |- context [if ?c then _ else _] => destruct c
         end; lia.
Qed.

End Scores.

(** X1: for the same files, a commit with at least as many changed lines
    never gets a lower complexity score or a lower complexity level; the
    score always lies between 0 and 12. *)
Theorem X1_complexity_grows_with_lines
  (files : list FileChange) (ds ds' : DiffStats) :
  insertions ds + deletions ds <= insertions ds' + deletions ds' ->
  cx_score (assessOverallComplexity files ds)
    <= cx_score (assessOverallComplexity files ds') /\
  complexityRank (cx_level (assessOverallComplexity files ds))
    <= complexityRank (cx_level (assessOverallComplexity files ds')) /\
  0 <= cx_score (assessOverallComplexity files ds) <= 12.
Proof.
  intros Hlines.
  assert (Hscore : cx_score (assessOverallComplexity files ds)
                   <= cx_score (assessOverallComplexity files ds')).
  { unfold assessOverallComplexity. cbn [cx_score].
    set (n := insertions ds + deletions ds) in *.
    set (n' := insertions ds' + deletions ds') in *.
    match goal with
    | |- context [if n >? 5000 then ?x + 5 else _] => generalize x; intros fileScore
    end.
    assert (Hbucket :
              (if n >? 5000 then fileScore + 5
               else if n >? 1000 then fileScore + 3
               else if n >? 500 then fileScore + 2
               else if n >? 100 then fileScore + 1 else fileScore)
              <= (if n' >? 5000 then fileScore + 5
                  else if n' >? 1000 then fileScore + 3
                  else if n' >? 500 then fileScore + 2
                  else if n' >? 100 then fileScore + 1 else fileScore)).
    { destruct (n >? 5000) eqn:H1, (n >? 1000) eqn:H2, (n >? 500) eqn:H3,
        (n >? 100) eqn:H4, (n' >? 5000) eqn:H1', (n' >? 1000) eqn:H2',
        (n' >? 500) eqn:H3', (n' >? 100) eqn:H4'; lia. }
    destruct (zlength (uniq (map category files)) >? 4),
      (zlength (uniq (map category files)) >? 2); lia. }
  split; [exact Hscore |]. split.
  - rewrite !assessOverallComplexity_level. now apply complexityLevelOf_monotone.
  - apply assessOverallComplexity_bounds.
Qed.

Lemma X1_complexity_grows_with_lines_witness :
  cx_score (assessOverallComplexity Examples.files2 Examples.stats1)
    <= cx_score (assessOverallComplexity Examples.files2 Examples.stats2) /\
  complexityRank (cx_level (assessOverallComplexity Examples.files2 Examples.stats1))
    <= complexityRank (cx_level (assessOverallComplexity Examples.files2 Examples.stats2)) /\
  0 <= cx_score (assessOverallComplexity Examples.files2 Examples.stats1) <= 12.
Proof.
  apply (X1_complexity_grows_with_lines Examples.files2 Examples.stats1 Examples.stats2).
  vm_compute. discriminate.
Defined.

(** X2: the factors [assessRisk] reports are a subsequence of its five
    factor names in their fixed order, the score is the sum of the points
    of the reported factors and lies between 0 and 15, and the level is
    read off the score by the thresholds 2, 4, 6, 8. *)
Theorem X2_risk_score_matches_factors
  (files : list FileChange) (ds : DiffStats) (subject body : string) :
  ra_factors (assessRisk files ds subject body) `sublist_of` map fst riskFactors /\
  ra_score (assessRisk files ds subject body)
    = sumZ (map factorPoints (ra_factors (assessRisk files ds subject body))) /\
  0 <= ra_score (assessRisk files ds subject body) <= 15 /\
  ra_level (assessRisk files ds subject body)
    = riskLevelOf (ra_score (assessRisk files ds subject body)).
Proof.
  unfold assessRisk, risk_factor. cbn [ra_factors ra_score ra_level].
  destruct (isBreakingChange subject body), (someCategory "database" files),
    (someCategory "config" files),
    ((zlength files >? 50) || (insertions ds + deletions ds >? 2000)),
    (existsb _ securityKeywords);
    cbn; (split; [repeat constructor | split; [reflexivity | split; [lia | reflexivity]]]).
Qed.

(** X3: a higher score never gives a lower level.  For any two commits,
    a complexity score that is at least as high gives a complexity level
    that is at least as high; and, on its own, a risk score that is at
    least as high gives a risk level that is at least as high. *)
Theorem X3_levels_follow_scores
  (files1 files2 : list FileChange) (ds1 ds2 : DiffStats)
  (subject1 body1 subject2 body2 : string) :
  (cx_score (assessOverallComplexity files1 ds1)
     <= cx_score (assessOverallComplexity files2 ds2) ->
   complexityRank (cx_level (assessOverallComplexity files1 ds1))
     <= complexityRank (cx_level (assessOverallComplexity files2 ds2))) /\
  (ra_score (assessRisk files1 ds1 subject1 body1)
     <= ra_score (assessRisk files2 ds2 subject2 body2) ->
   riskRank (ra_level (assessRisk files1 ds1 subject1 body1))
     <= riskRank (ra_level (assessRisk files2 ds2 subject2 body2))).
Proof.
  split.
  - intros Hcx. rewrite !assessOverallComplexity_level.
    now apply complexityLevelOf_monotone.
  - intros Hrisk. rewrite !assessRisk_level. now apply riskLevelOf_monotone.
Qed.

Lemma X3_levels_follow_scores_witness :
  complexityRank (cx_level (assessOverallComplexity Examples.files1 Examples.stats1))
    <= complexityRank (cx_level (assessOverallComplexity Examples.files2 Examples.stats2)) /\
  riskRank (ra_level (assessRisk Examples.files1 Examples.stats1 Examples.subject1 ""))
    <= riskRank (ra_level (assessRisk Examples.files2 Examples.stats2
                             Examples.subject2 "")).
Proof.
  destruct (X3_levels_follow_scores Examples.files1 Examples.files2 Examples.stats1
              Examples.stats2 Examples.subject1 "" Examples.subject2 "")
    as [Hcx Hrisk].
  split; [apply Hcx | apply Hrisk]; vm_compute; discriminate.
Defined.

Section FileScores.

Lemma diffMissing_cases (diff : string) :
  diffMissing diff = true -> diff = "" \/ diff = unavailable.
Proof.
  unfold diffMissing. intros H. apply orb_true_iff in H as [H | H].
  - left. now apply falsy_spec.
  - right. now apply String.eqb_eq.
Qed.

Lemma changedLines_missing (diff : string) :
  diffMissing diff = true -> changedLines diff = 0.
Proof. intros H. destruct (diffMissing_cases diff H) as [-> | ->]; reflexivity. Qed.

Lemma changedLines_nonneg (diff : string) : 0 <= changedLines diff.
Proof. unfold changedLines, countLinesStarting, zlength. lia. Qed.

Lemma assessChangeComplexity_bucket (diff : string) :
  diffMissing diff = false ->
  assessChangeComplexity diff =
  (if changedLines diff <? 10 then 1
   else if changedLines diff <? 50 then 2
   else if changedLines diff <? 100 then 3
   else if changedLines diff <? 200 then 4 else 5).
Proof. intros H. unfold assessChangeComplexity. now rewrite H. Qed.

End FileScores.

(** X4: the complexity of a file change lies between 1 and 5, and a diff
    with at least as many lines starting with [+] or [-] never gets a
    lower complexity; a missing diff counts as no line. *)
Theorem X4_change_complexity_grows_with_lines (diff diff' : string) :
  changedLines diff <= changedLines diff' ->
  assessChangeComplexity diff <= assessChangeComplexity diff' /\
  1 <= assessChangeComplexity diff <= 5.
Proof.
  intros Hle.
  pose proof (changedLines_nonneg diff) as Hnn.
  destruct (diffMissing diff) eqn:Hm, (diffMissing diff') eqn:Hm'.
  - rewrite !assessChangeComplexity_missing by assumption. lia.
  - rewrite (assessChangeComplexity_missing diff Hm),
      (assessChangeComplexity_bucket diff' Hm').
    repeat match goal with |- context [if ?c then _ else _] => destruct c end; lia.
  - rewrite (changedLines_missing diff' Hm') in Hle.
    rewrite (assessChangeComplexity_missing diff' Hm'),
      (assessChangeComplexity_bucket diff Hm).
    replace (changedLines diff <? 10) with true by (symmetry; lia). lia.
  - rewrite (assessChangeComplexity_bucket diff Hm),
      (assessChangeComplexity_bucket diff' Hm').
    destruct (changedLines diff <? 10) eqn:H1, (changedLines diff <? 50) eqn:H2,
      (changedLines diff <? 100) eqn:H3, (changedLines diff <? 200) eqn:H4,
      (changedLines diff' <? 10) eqn:H1', (changedLines diff' <? 50) eqn:H2',
      (changedLines diff' <? 100) eqn:H3', (changedLines diff' <? 200) eqn:H4'; lia.
Qed.

Lemma X4_change_complexity_grows_with_lines_witness :
  assessChangeComplexity "" <= assessChangeComplexity
    ("+++ b/readme.md" +:+ String (ascii_of_nat 10) "+one more line") /\
  1 <= assessChangeComplexity "" <= 5.
Proof.
  apply (X4_change_complexity_grows_with_lines ""
           ("+++ b/readme.md" +:+ String (ascii_of_nat 10) "+one more line")).
  vm_compute. discriminate.
Defined.

(** X5: the importance of a file lies between 0 and 5 (the sum of the
    path and status points is capped at 5); an empty path scores 1, and a
    file that was added under a non-empty path scores at least 2. *)
Theorem X5_file_importance_bounds (path st : string) :
  0 <= assessFileImportance path st <= 5 /\
  assessFileImportance "" st = 1 /\
  (path <> "" -> 2 <= assessFileImportance path "A").
Proof.
  split; [| split; [reflexivity |]].
  - unfold assessFileImportance.
    repeat match goal with |- context [if ?c then _ else _] => destruct c end; lia.
  - intros Hne. unfold assessFileImportance.
    destruct path as [|c p]; [congruence |]. cbn [JS.falsy].
    replace (String.eqb "A" "A") with true by reflexivity.
    replace (String.eqb "A" "D") with false by reflexivity.
    repeat match goal with |- context [if ?c then _ else _] => destruct c end; lia.
Qed.

Lemma X5_file_importance_bounds_witness :
  0 <= assessFileImportance "src/app/main.ts" "A" <= 5 /\
  assessFileImportance "" "A" = 1 /\
  ("src/app/main.ts" <> "" -> 2 <= assessFileImportance "src/app/main.ts" "A").
Proof. apply (X5_file_importance_bounds "src/app/main.ts" "A"). Defined.

(* ===================================================================== *)
(** * Further facts: file categories and languages                        *)
(* ===================================================================== *)

Section Suffixes.

Lemma list_of_append (a b : string) :
  list_ascii_of_string (a +:+ b) = list_ascii_of_string a ++ list_ascii_of_string b.
Proof.
  induction a as [|c a IH]; [reflexivity |].
  rewrite append_cons. cbn. now rewrite IH.
Qed.

Lemma string_of_app (l1 l2 : list ascii) :
  string_of_list_ascii (l1 ++ l2) = string_of_list_ascii l1 +:+ string_of_list_ascii l2.
Proof.
  induction l1 as [|c l1 IH]; [reflexivity |].
  cbn. now rewrite IH, append_cons.
Qed.

Lemma rev_append (a b : string) : JS.rev (a +:+ b) = JS.rev b +:+ JS.rev a.
Proof. unfold JS.rev. now rewrite list_of_append, rev_app_distr, string_of_app. Qed.

Lemma startsWith_shorter (s p q : string) :
  JS.startsWith s (p +:+ q) = true -> JS.startsWith s p = true.
Proof.
  rewrite !startsWith_spec. intros [b ->]. exists (q +:+ b). apply append_assoc.
Qed.

(** A string that ends with [a ++ b] ends with [b]. *)
Lemma endsWith_shorter (s a b : string) :
  JS.endsWith s (a +:+ b) = true -> JS.endsWith s b = true.
Proof.
  unfold JS.endsWith. rewrite rev_append. apply startsWith_shorter.
Qed.

Lemma test_suffix_is_source_suffix (s : string) :
  endsWithAny s [".test.ts"; ".test.tsx"; ".test.js"; ".test.jsx";
                 ".spec.ts"; ".spec.tsx"; ".spec.js"; ".spec.jsx"] = true ->
  endsWithAny s [".ts"; ".tsx"; ".js"; ".jsx"] = true.
Proof.
  unfold endsWithAny. cbn [existsb]. rewrite !orb_false_r, !orb_true_iff.
  intros [H | [H | [H | [H | [H | [H | [H | H]]]]]]].
  - left. exact (endsWith_shorter s ".test" ".ts" H).
  - right; left. exact (endsWith_shorter s ".test" ".tsx" H).
  - right; right; left. exact (endsWith_shorter s ".test" ".js" H).
  - right; right; right. exact (endsWith_shorter s ".test" ".jsx" H).
  - left. exact (endsWith_shorter s ".spec" ".ts" H).
  - right; left. exact (endsWith_shorter s ".spec" ".tsx" H).
  - right; right; left. exact (endsWith_shorter s ".spec" ".js" H).
  - right; right; right. exact (endsWith_shorter s ".spec" ".jsx" H).
Qed.

End Suffixes.

(** X6: the generator's [categorizeFile] never answers [test]: a path
    with a test suffix such as [.test.js] also has the source suffix
    [.js], which is tested first.  Its answer is always one of the eight
    other categories. *)
Theorem X6_categorizeFile_never_test (path : string) :
  categorizeFile path <> "test" /\
  In (categorizeFile path)
     ["source"; "style"; "config"; "docs"; "database"; "asset"; "script"; "other"].
Proof.
  unfold categorizeFile.
  destruct (JS.falsy path); [split; [discriminate | cbn; tauto] |].
  destruct (endsWithAny (JS.toLowerCase path) [".ts"; ".tsx"; ".js"; ".jsx"]) eqn:Hsrc;
    [split; [discriminate | cbn; tauto] |].
  destruct (endsWithAny _ [".css"; ".scss"; ".sass"; ".less"; ".styl"]);
    [split; [discriminate | cbn; tauto] |].
  destruct (endsWithAny _ [".json"; ".yaml"; ".yml"; ".toml"; ".ini"; ".xml"]);
    [split; [discriminate | cbn; tauto] |].
  destruct (endsWithAny _ [".md"; ".txt"; ".rst"; ".adoc"]);
    [split; [discriminate | cbn; tauto] |].
  destruct (endsWithAny _ [".test.ts"; _; _; _; _; _; _; _]) eqn:Htest.
  { apply test_suffix_is_source_suffix in Htest. congruence. }
  repeat match goal with |- context [if ?c then _ else _] => destruct c end;
    (split; [discriminate | cbn; tauto]).
Qed.

Section Extensions.

Lemma split_nonempty (c : ascii) (s : string) : JS.split c s <> [].
Proof.
  destruct s as [|a s]; cbn; [discriminate |].
  destruct (Ascii.eqb a c); [discriminate |].
  destruct (JS.split c s); discriminate.
Qed.

(** The pieces of [b ++ c ++ e] end with the pieces of [e]. *)
Lemma split_after_separator (c : ascii) (b e : string) :
  exists pre, JS.split c (b +:+ String c e) = pre ++ JS.split c e /\ pre <> [].
Proof.
  induction b as [|a b (pre & IH & Hpre)].
  - exists [""]. rewrite append_nil_l. cbn [JS.split]. rewrite Ascii.eqb_refl.
    split; [reflexivity | discriminate].
  - rewrite append_cons. cbn [JS.split]. rewrite IH.
    destruct (Ascii.eqb a c).
    + exists ("" :: pre). split; [reflexivity | discriminate].
    + destruct pre as [|p pre]; [congruence |].
      exists (String a p :: pre). split; [reflexivity | discriminate].
Qed.

Lemma last_split_extension (base ext : string) :
  JS.has_char "." ext = false ->
  List.last (JS.split "." (base +:+ String "." ext)) "" = ext.
Proof.
  intros Hext. destruct (split_after_separator "." base ext) as (pre & -> & _).
  rewrite (split_no_separator "." ext Hext). apply last_last.
Qed.

End Extensions.

Lemma assoc_existsb (key : string) (table : list (string * string)) :
  match assoc key table with Some _ => true | None => false end
  = existsb (String.eqb key) (map fst table).
Proof.
  induction table as [|[k v] table IH]; [reflexivity |]. cbn.
  destruct (String.eqb key k); [reflexivity | exact IH].
Qed.

(** X7: the language of a path is decided by the text after its last dot
    as the runtime lower-cases it.  For an extension without a dot,
    [detectLanguage] answers with the language the table gives for the
    lower-cased extension; with the member of [Object.prototype] of that
    name when the table has no such extension but every object has such a
    member (the function [Object] for the extension [constructor], the
    prototype object for [__proto__]); and with [Unknown] otherwise. *)
Theorem X7_detectLanguage_uses_last_extension
  (toLowerCase : string -> string) (base ext : string) :
  JS.has_char "." ext = false ->
  detectLanguageWith toLowerCase (base +:+ String "." ext) =
  match assoc (toLowerCase ext) languageMap with
  | Some lang => LanguageName lang
  | None =>
      if existsb (String.eqb (toLowerCase ext)) (map fst objectPrototype)
      then PrototypeMember (toLowerCase ext)
      else LanguageName "Unknown"
  end.
Proof.
  intros Hext. unfold detectLanguageWith.
  rewrite (last_split_extension base ext Hext).
  destruct (base +:+ String "." ext) eqn:Hpath;
    [destruct base; discriminate Hpath |].
  cbn [JS.falsy]. unfold languageOf, property.
  destruct (assoc (toLowerCase ext) languageMap); [reflexivity |].
  rewrite <- (assoc_existsb (toLowerCase ext) objectPrototype).
  destruct (assoc (toLowerCase ext) objectPrototype); reflexivity.
Qed.

Lemma X7_detectLanguage_uses_last_extension_witness :
  detectLanguageWith JS.toLowerCase ("src/app.module" +:+ String "." "TS") =
  match assoc (JS.toLowerCase "TS") languageMap with
  | Some lang => LanguageName lang
  | None =>
      if existsb (String.eqb (JS.toLowerCase "TS")) (map fst objectPrototype)
      then PrototypeMember (JS.toLowerCase "TS")
      else LanguageName "Unknown"
  end.
Proof.
  apply (X7_detectLanguage_uses_last_extension JS.toLowerCase "src/app.module" "TS").
  reflexivity.
Defined.

(** Three paths: a TypeScript module, a file whose extension names a
    member of [Object.prototype], and a file without a known
    extension. *)
Example detectLanguage_examples :
  detectLanguage "src/app.module.TS" = LanguageName "TypeScript" /\
  detectLanguage "notes.constructor" = PrototypeMember "constructor" /\
  detectLanguage "lib/x.__PROTO__" = PrototypeMember "__proto__" /\
  detectLanguage "Makefile" = LanguageName "Unknown".
Proof. repeat split; vm_compute; reflexivity. Qed.

(* ===================================================================== *)
(** * Further facts: model selection                                      *)
(* ===================================================================== *)

(** X8: [selectModelForCommit] always answers with one of the configured
    tiers, and only the Azure provider is ever given one of the two
    reasoning tiers: any other provider gets the complex, nano, simple or
    default tier. *)
Theorem X8_selectModelForCommit_tiers
  (provider : AIProvider.Provider) (cfg : AIProvider.ModelConfig)
  (info : AIProvider.CommitInfo) :
  In (AIProvider.selectModelForCommit provider cfg info)
     [AIProvider.advanced_reasoning cfg; AIProvider.reasoning cfg;
      AIProvider.complex cfg; AIProvider.nano cfg; AIProvider.simple cfg;
      AIProvider.default cfg] /\
  (provider <> AIProvider.Azure ->
   In (AIProvider.selectModelForCommit provider cfg info)
      [AIProvider.complex cfg; AIProvider.nano cfg; AIProvider.simple cfg;
       AIProvider.default cfg]).
Proof.
  unfold AIProvider.selectModelForCommit. split.
  - destruct provider;
      repeat match goal with |- context [if ?c then _ else _] => destruct c end;
      cbn; tauto.
  - intros Hprovider. destruct provider; [congruence | |];
      repeat match goal with |- context [if ?c then _ else _] => destruct c end;
      cbn; tauto.
Qed.

Lemma X8_selectModelForCommit_tiers_witness :
  In (AIProvider.selectModelForCommit AIProvider.OpenAI AIProvider.defaultModelConfig
        (commitInfoOf Examples.firstCommit))
     [AIProvider.advanced_reasoning AIProvider.defaultModelConfig;
      AIProvider.reasoning AIProvider.defaultModelConfig;
      AIProvider.complex AIProvider.defaultModelConfig;
      AIProvider.nano AIProvider.defaultModelConfig;
      AIProvider.simple AIProvider.defaultModelConfig;
      AIProvider.default AIProvider.defaultModelConfig] /\
  (AIProvider.OpenAI <> AIProvider.Azure ->
   In (AIProvider.selectModelForCommit AIProvider.OpenAI AIProvider.defaultModelConfig
         (commitInfoOf Examples.firstCommit))
      [AIProvider.complex AIProvider.defaultModelConfig;
       AIProvider.nano AIProvider.defaultModelConfig;
       AIProvider.simple AIProvider.defaultModelConfig;
       AIProvider.default AIProvider.defaultModelConfig]).
Proof.
  apply (X8_selectModelForCommit_tiers AIProvider.OpenAI AIProvider.defaultModelConfig
           (commitInfoOf Examples.firstCommit)).
Defined.

Section Availability.

Variable svc : Service.

Lemma openai_default_tier_supported (info : AIProvider.CommitInfo) :
  validateModelAvailability svc AIProvider.OpenAI
    (AIProvider.selectModelForCommit AIProvider.OpenAI AIProvider.defaultModelConfig info)
  = true.
Proof.
  unfold AIProvider.selectModelForCommit.
  repeat match goal with |- context [if ?c then _ else _] => destruct c end;
    reflexivity.
Qed.

Lemma find_fallback_available (cfg : AIProvider.ModelConfig)
  (preferred fallback : string) (fallbacks : list string) :
  List.find (fun name => negb (String.eqb name preferred) &&
                         validateModelAvailability svc AIProvider.Azure name)
            fallbacks = Some fallback ->
  probe svc fallback = true.
Proof.
  intros H. apply find_some in H as [_ H].
  apply andb_prop in H as [_ H]. exact H.
Qed.

End Availability.

(** X9: on the OpenAI provider with the default tier configuration and no
    model override, the model the generator selects for a commit is
    always one the availability check accepts, so a summary never falls
    back to the rules for want of a model. *)
Theorem X9_openai_default_model_available
  (svc : Service) (gen : Generator) (commit : CommitAnalysis) :
  hasAI gen = true ->
  activeProvider gen = AIProvider.OpenAI ->
  modelConfig gen = AIProvider.defaultModelConfig ->
  GitManager.given (modelOverride gen) = None ->
  validateModelAvailability svc (activeProvider gen)
    (checkedModel gen (selectOptimalModel gen svc commit)) = true.
Proof.
  intros Hai Hprovider Hcfg Hoverride.
  unfold selectOptimalModel, providerSelectOptimalModel.
  rewrite Hai, Hoverride, Hprovider, Hcfg. cbn [negb].
  rewrite openai_default_tier_supported.
  pose proof (openai_default_tier_supported svc (commitInfoOf commit)) as Hok.
  destruct (JS.truthy _) eqn:Htruthy.
  - unfold checkedModel, GitManager.given. rewrite Htruthy. exact Hok.
  - unfold checkedModel, GitManager.given. rewrite Hcfg. reflexivity.
Qed.

Lemma X9_openai_default_model_available_witness :
  validateModelAvailability Examples.downService
    (activeProvider Examples.openaiGenerator)
    (checkedModel Examples.openaiGenerator
       (selectOptimalModel Examples.openaiGenerator Examples.downService
          Examples.firstCommit)) = true.
Proof.
  apply (X9_openai_default_model_available Examples.downService
           Examples.openaiGenerator Examples.firstCommit); reflexivity.
Defined.

(** X10: [AIProvider.selectOptimalModel] on Azure only returns a model
    that passed the availability probe, and throws only when the probe
    fails for the preferred model and for every fallback; on the other
    providers it returns the preferred model without throwing. *)
Theorem X10_provider_selects_available_model
  (svc : Service) (cfg : AIProvider.ModelConfig) (info : AIProvider.CommitInfo) :
  match providerSelectOptimalModel svc AIProvider.Azure cfg info with
  | Returned name => probe svc name = true
  | Thrown _ =>
      Forall (fun name => probe svc name = false)
             [AIProvider.selectModelForCommit AIProvider.Azure cfg info;
              AIProvider.default cfg; AIProvider.simple cfg;
              "gpt-4o"; "gpt-4"; "gpt-35-turbo"]
  end /\
  providerSelectOptimalModel svc AIProvider.OpenAI cfg info
    = Returned (AIProvider.selectModelForCommit AIProvider.OpenAI cfg info).
Proof.
  split.
  - unfold providerSelectOptimalModel.
    set (preferred := AIProvider.selectModelForCommit AIProvider.Azure cfg info).
    cbn [validateModelAvailability].
    destruct (probe svc preferred) eqn:Hpreferred; [exact Hpreferred |].
    destruct (List.find _ _) as [fallback|] eqn:Hfind.
    + now apply (find_fallback_available svc cfg preferred fallback _ Hfind).
    + constructor; [exact Hpreferred |].
      apply Forall_forall. intros name Hin. apply list_elem_of_In in Hin.
      pose proof (find_none _ _ Hfind name Hin) as Hnone. cbn beta in Hnone.
      destruct (String.eqb_spec name preferred) as [-> | Hne];
        [exact Hpreferred |].
      cbn in Hnone. exact Hnone.
  - unfold providerSelectOptimalModel.
    destruct (validateModelAvailability _ _ _); reflexivity.
Qed.

(* ===================================================================== *)
(** * Further facts: summaries                                            *)
(* ===================================================================== *)

Section ServiceSummaries.

Variable rt : Runtime.

Lemma js_or_populated (v d : jsval) : populated d -> populated (js_or v d).
Proof.
  intros Hd. unfold js_or. destruct (js_truthy v) eqn:Hv; [| exact Hd].
  split; intros ->; discriminate Hv.
Qed.

Lemma js_or_defined (v : jsval) : js_or v JNull <> JUndefined.
Proof.
  unfold js_or. destruct (js_truthy v) eqn:Hv; [| discriminate].
  intros ->; discriminate Hv.
Qed.

Lemma array_or_empty_populated (v : jsval) : populated (array_or_empty v).
Proof. destruct v; split; discriminate. Qed.

Lemma populated_JNum (q : Q) : populated (JNum q).
Proof. split; discriminate. Qed.

(** The two ways [parseAIResponse] ends. *)
Lemma parseAIResponse_cases (text : string) (commit : CommitAnalysis) (m : Metrics) :
  (exists s, parseAIResponse rt text commit m = (Returned s, m) /\ complete s) \/
  parseAIResponse rt text commit m
    = (Returned (generateRuleBasedSummary commit), bump_errors m).
Proof.
  unfold parseAIResponse, try_catch, bind, lift, update, ret.
  destruct (json_parse rt (cleanResponse text)) as [parsed|]; [| right; reflexivity].
  destruct (fieldsOf parsed) as [fields|] eqn:Hfields; [| right; reflexivity].
  left. eexists. split; [reflexivity |].
  unfold complete. cbn.
  repeat split;
    try (apply js_or_populated; first [apply populated_JStr | apply populated_JNum]);
    try apply array_or_empty_populated;
    try (apply (proj1 (js_or_populated _ _ (populated_JStr _))));
    try (apply (proj2 (js_or_populated _ _ (populated_JStr _))));
    try (apply (proj1 (js_or_populated _ _ (populated_JNum _))));
    try (apply (proj2 (js_or_populated _ _ (populated_JNum _))));
    try (apply (proj1 (array_or_empty_populated _)));
    try (apply (proj2 (array_or_empty_populated _)));
    try apply js_or_defined.
Qed.

End ServiceSummaries.

Ltac fin_tokens :=
  split; [reflexivity |]; split; [assumption |]; cbn;
  do 4 (split; [lia |]); split; [left; split; reflexivity | intros _; lia].

Ltac fin_called response :=
  split; [reflexivity |]; split; [assumption |]; cbn;
  do 4 (split; [lia |]);
  split; [right; exists response; split; [first [assumption | reflexivity] |];
          split; assumption
         | assumption].

(** X11: whatever the service, the runtime and the configuration do,
    [generateAISummary] does not throw and returns a summary with every
    required field populated.  It adds at most one error and at most one
    service call to the counters and leaves the counters of commits and
    batches alone.  The token counter is changed only after a service
    call that went through, and then by the total the response reports,
    if it reports one; so it is not lowered unless the service reports a
    negative total. *)
Theorem X11_generateAISummary_total_and_complete
  (rt : Runtime) (svc : Service) (gen : Generator) (commit : CommitAnalysis)
  (m : Metrics) :
  exists s m',
    generateAISummary rt svc gen commit m = (Returned s, m') /\
    complete s /\
    errors m <= errors m' <= errors m + 1 /\
    apiCalls m <= apiCalls m' <= apiCalls m + 1 /\
    commitsProcessed m' = commitsProcessed m /\
    batchesProcessed m' = batchesProcessed m /\
    (totalTokens m' = totalTokens m /\ apiCalls m' = apiCalls m \/
     exists response,
       completion svc commit (settingsFor gen (selectOptimalModel gen svc commit))
         = Returned response /\
       apiCalls m' = apiCalls m + 1 /\
       totalTokens m'
       = totalTokens m + match usage response with Some total => total | None => 0 end) /\
    ((forall settings response total,
        completion svc commit settings = Returned response ->
        usage response = Some total -> 0 <= total) ->
     totalTokens m <= totalTokens m').
Proof.
  pose proof (generateRuleBasedSummary_complete commit) as Hrules.
  unfold generateAISummary.
  destruct (hasAI gen); cbn [negb];
    [| exists (generateRuleBasedSummary commit), m; fin_tokens].
  unfold try_catch, bind, lift, update, ret, throw.
  destruct (validateModelAvailability _ _ _); cbn [negb];
    [| exists (generateRuleBasedSummary commit), m; fin_tokens].
  destruct (completion svc commit _) as [response | reason] eqn:Hcall;
    [| exists (generateRuleBasedSummary commit), (bump_errors m);
       fin_tokens].
  set (m1 := match usage response with
             | Some total_tokens => add_tokens total_tokens
             | None => id
             end (bump_apiCalls m)).
  assert (Hm1 : errors m1 = errors m /\ apiCalls m1 = apiCalls m + 1 /\
                commitsProcessed m1 = commitsProcessed m /\
                batchesProcessed m1 = batchesProcessed m /\
                totalTokens m1
                = totalTokens m +
                  match usage response with Some total => total | None => 0 end).
  { subst m1. destruct (usage response); cbn; repeat split; lia. }
  destruct Hm1 as (He & Ha & Hc & Hb & Ht).
  assert (Hlow : (forall settings response total,
                    completion svc commit settings = Returned response ->
                    usage response = Some total -> 0 <= total) ->
                 totalTokens m <= totalTokens m1).
  { intros Hpos. rewrite Ht. destruct (usage response) as [total|] eqn:Hu; [| lia].
    pose proof (Hpos _ _ total Hcall Hu). lia. }
  destruct (GitManager.given (content response)) as [text|].
  - destruct (parseAIResponse_cases rt text commit m1) as [(s & Hrun & Hs) | Hrun];
      rewrite Hrun.
    + exists s, m1. fin_called response.
    + exists (generateRuleBasedSummary commit), (bump_errors m1). fin_called response.
  - exists (generateRuleBasedSummary commit), (bump_errors m1). fin_called response.
Qed.

Section Fences.

Lemma trimStart_spaces (ws s : string) :
  JS.all_space ws = true -> JS.trimStart (ws +:+ s) = JS.trimStart s.
Proof.
  induction ws as [|c ws IH]; [reflexivity |]. cbn [JS.all_space].
  intros H. apply andb_prop in H as [Hc Hws].
  rewrite append_cons. cbn [JS.trimStart]. rewrite Hc. now apply IH.
Qed.

Lemma trimEnd_all_space (ws : string) : JS.all_space ws = true -> JS.trimEnd ws = "".
Proof.
  induction ws as [|c ws IH]; [reflexivity |]. cbn [JS.all_space JS.trimEnd].
  intros H. apply andb_prop in H as [Hc Hws]. now rewrite (IH Hws), Hc.
Qed.

Lemma trimEnd_spaces (s ws : string) :
  JS.all_space ws = true -> JS.trimEnd (s +:+ ws) = JS.trimEnd s.
Proof.
  intros Hws. induction s as [|c s IH].
  - rewrite append_nil_l. now apply trimEnd_all_space.
  - rewrite append_cons. cbn [JS.trimEnd]. now rewrite IH.
Qed.

Lemma trimStart_length (s : string) :
  (String.length (JS.trimStart s) <= String.length s)%nat.
Proof.
  induction s as [|c s IH]; [cbn; lia |]. cbn [JS.trimStart].
  destruct (JS.is_space c); cbn; lia.
Qed.

Lemma trimEnd_length (s : string) :
  (String.length (JS.trimEnd s) <= String.length s)%nat.
Proof.
  induction s as [|c s IH]; [cbn; lia |]. cbn [JS.trimEnd].
  destruct (JS.trimEnd s); [destruct (JS.is_space c) |]; cbn in *; lia.
Qed.

Lemma trimStart_same_length (s : string) :
  String.length (JS.trimStart s) = String.length s -> JS.trimStart s = s.
Proof.
  destruct s as [|c s]; [reflexivity |]. cbn [JS.trimStart].
  destruct (JS.is_space c); [| reflexivity].
  pose proof (trimStart_length s). cbn. lia.
Qed.

(** A text that [trim] leaves alone is left alone at both ends. *)
Lemma trim_fixed (s : string) :
  JS.trim s = s -> JS.trimStart s = s /\ JS.trimEnd s = s.
Proof.
  unfold JS.trim. intros H.
  assert (Hstart : JS.trimStart s = s).
  { apply trimStart_same_length.
    pose proof (trimStart_length s). pose proof (trimEnd_length (JS.trimStart s)).
    rewrite H in *. lia. }
  rewrite Hstart in H. now split.
Qed.

Lemma trimEnd_after (s t : string) :
  t <> "" -> JS.trimEnd t = t -> JS.trimEnd (s +:+ t) = s +:+ t.
Proof.
  intros Hne Ht. induction s as [|c s IH]; [exact Ht |].
  rewrite append_cons. cbn [JS.trimEnd]. rewrite IH.
  destruct (s +:+ t) eqn:Hst; [| reflexivity].
  destruct s; [| discriminate Hst]. rewrite append_nil_l in Hst. contradiction.
Qed.

Lemma startsWith_append (p s : string) : JS.startsWith (p +:+ s) p = true.
Proof. apply startsWith_spec. now exists s. Qed.

Lemma endsWith_append (s p : string) : JS.endsWith (s +:+ p) p = true.
Proof. unfold JS.endsWith. rewrite rev_append. apply startsWith_append. Qed.

Lemma string_of_list_of (s : string) :
  string_of_list_ascii (list_ascii_of_string s) = s.
Proof. induction s as [|c s IH]; cbn; [reflexivity | now rewrite IH]. Qed.

Lemma length_list_of (s : string) :
  length (list_ascii_of_string s) = String.length s.
Proof. induction s as [|c s IH]; cbn; [reflexivity | now rewrite IH]. Qed.

Lemma dropChars_prefix (p s : string) : dropChars (String.length p) (p +:+ s) = s.
Proof.
  unfold dropChars. rewrite list_of_append, <- length_list_of.
  rewrite drop_app_length. apply string_of_list_of.
Qed.

Lemma stripClosingFence_fenced (s : string) :
  stripClosingFence (s +:+ fence) = JS.trimEnd s.
Proof.
  unfold stripClosingFence. rewrite endsWith_append, list_of_append.
  rewrite length_app.
  replace (length (list_ascii_of_string s) + length (list_ascii_of_string fence) - 3)%nat
    with (length (list_ascii_of_string s)) by (cbn; lia).
  now rewrite take_app_length, string_of_list_of.
Qed.

(** The clean-up undoes a [json] fence around a trimmed text. *)
Lemma cleanResponse_fenced (body ws1 ws2 : string) :
  JS.trim body = body -> body <> "" ->
  JS.all_space ws1 = true -> JS.all_space ws2 = true ->
  cleanResponse (fence +:+ "json" +:+ ws1 +:+ body +:+ ws2 +:+ fence) = body.
Proof.
  intros Htrim Hne Hws1 Hws2.
  destruct (trim_fixed body Htrim) as [Hstart Hend].
  set (content := fence +:+ "json" +:+ ws1 +:+ body +:+ ws2 +:+ fence).
  assert (Hcontent : JS.trim content = content).
  { unfold JS.trim.
    replace (JS.trimStart content) with content by reflexivity.
    subst content.
    rewrite <- !append_assoc. apply trimEnd_after; [discriminate | reflexivity]. }
  unfold cleanResponse. rewrite Hcontent.
  assert (Hprefix : content = (fence +:+ "json") +:+ ws1 +:+ body +:+ ws2 +:+ fence).
  { subst content. now rewrite append_assoc. }
  rewrite Hprefix at 1. rewrite startsWith_append.
  rewrite Hprefix.
  change 7%nat with (String.length (fence +:+ "json")).
  rewrite dropChars_prefix, trimStart_spaces by exact Hws1.
  assert (Hbody : JS.trimStart (body +:+ ws2 +:+ fence) = body +:+ ws2 +:+ fence).
  { destruct body as [|c b]; [congruence |].
    cbn [JS.trimStart] in Hstart. rewrite append_cons. cbn [JS.trimStart].
    destruct (JS.is_space c); [| reflexivity].
    pose proof (trimStart_length b) as Hlen. rewrite Hstart in Hlen. cbn in Hlen. lia. }
  rewrite Hbody, <- append_assoc, stripClosingFence_fenced.
  now rewrite trimEnd_spaces.
Qed.

Lemma cleanResponse_bare (body : string) :
  JS.trim body = body -> JS.startsWith body fence = false ->
  cleanResponse body = body.
Proof.
  intros Htrim Hfence. unfold cleanResponse. rewrite Htrim.
  destruct (JS.startsWith body (fence +:+ "json")) eqn:Hjson.
  - apply startsWith_shorter in Hjson. congruence.
  - now rewrite Hfence.
Qed.

End Fences.

(** X12: a reply wrapped in a [json] code fence is read exactly as the
    bare reply: for a trimmed, non-empty text that does not itself start
    with a fence, the clean-up of the fenced text (any white space after
    the opening fence and before the closing one) gives the text back,
    and [parseAIResponse] returns the same summary and counters for
    both. *)
Theorem X12_fenced_reply_parses_like_bare
  (rt : Runtime) (body ws1 ws2 : string) (commit : CommitAnalysis) (m : Metrics) :
  JS.trim body = body -> body <> "" ->
  JS.startsWith body fence = false ->
  JS.all_space ws1 = true -> JS.all_space ws2 = true ->
  cleanResponse (fence +:+ "json" +:+ ws1 +:+ body +:+ ws2 +:+ fence) = body /\
  parseAIResponse rt (fence +:+ "json" +:+ ws1 +:+ body +:+ ws2 +:+ fence) commit m
    = parseAIResponse rt body commit m.
Proof.
  intros Htrim Hne Hfence Hws1 Hws2.
  pose proof (cleanResponse_fenced body ws1 ws2 Htrim Hne Hws1 Hws2) as Hfenced.
  split; [exact Hfenced |].
  unfold parseAIResponse. now rewrite Hfenced, (cleanResponse_bare body Htrim Hfence).
Qed.

Lemma X12_fenced_reply_parses_like_bare_witness :
  cleanResponse (fence +:+ "json" +:+ String (ascii_of_nat 10) "" +:+
                 "{ the reply }" +:+ String (ascii_of_nat 10) "" +:+ fence)
    = "{ the reply }" /\
  parseAIResponse Examples.replyRuntime
    (fence +:+ "json" +:+ String (ascii_of_nat 10) "" +:+
     "{ the reply }" +:+ String (ascii_of_nat 10) "" +:+ fence)
    Examples.firstCommit Examples.zeroMetrics
  = parseAIResponse Examples.replyRuntime "{ the reply }" Examples.firstCommit
      Examples.zeroMetrics.
Proof.
  apply (X12_fenced_reply_parses_like_bare Examples.replyRuntime "{ the reply }"
           (String (ascii_of_nat 10) "") (String (ascii_of_nat 10) "")
           Examples.firstCommit Examples.zeroMetrics);
    try reflexivity; discriminate.
Defined.
(** X13: the grades of the rule-based summary.  The impact is one of the
    four grades and fixes the scope (critical: major, high: minor,
    otherwise patch); a security-related file makes the summary
    "security" with impact high and scope minor, also for a breaking
    commit; a breaking commit is never graded below high and always
    carries migration notes, any other commit carries none; a summary is
    user-facing only at impact medium for a commit that is not breaking;
    and at most three highlights and three related areas are kept. *)
Theorem X13_rule_based_summary_grades (c : CommitAnalysis) :
  let s := generateRuleBasedSummary c in
  ((impact s = JStr "critical" /\ sm_scope s = JStr "major") \/
   (impact s = JStr "high" /\ sm_scope s = JStr "minor") \/
   (impact s = JStr "medium" /\ sm_scope s = JStr "patch") \/
   (impact s = JStr "low" /\ sm_scope s = JStr "patch")) /\
  (existsb (fun f => fi_securityRelated (functionalImpact f)) (files c) = true ->
   sm_category s = JStr "security" /\ impact s = JStr "high" /\
   sm_scope s = JStr "minor" /\ userFacing s = false) /\
  (breaking c = true ->
   (impact s = JStr "high" \/ impact s = JStr "critical") /\
   migrationNotes s = JStr "Review breaking changes before deployment") /\
  (breaking c = false -> migrationNotes s = JNull) /\
  (userFacing s = true ->
   impact s = JStr "medium" /\ breaking c = false /\
   businessImpact s = JStr "Affects user experience") /\
  (exists hs, highlights s = strings hs /\ (length hs <= 3)%nat) /\
  (exists areas, relatedAreas s = strings areas /\ (length areas <= 3)%nat).
Proof.
  intros s.
  assert (E : s = generateRuleBasedSummary c) by reflexivity. clearbody s.
  revert E. unfold generateRuleBasedSummary.
  (destruct (String.eqb (ra_level (riskAssessment c)) "critical") eqn:Hcritical;
   [apply String.eqb_eq in Hcritical
   | destruct (String.eqb (ra_level (riskAssessment c)) "high") eqn:Hhigh;
     [apply String.eqb_eq in Hhigh
     | destruct (String.eqb (cx_level (ca_complexity c)) "high" ||
                 String.eqb (cx_level (ca_complexity c)) "very high")]]);
    (destruct (existsb (fun f => fi_securityRelated (functionalImpact f)) (files c))
       eqn:Hsecurity;
     destruct (breaking c) eqn:Hbreaking;
     [| | | destruct (someCategory "database" (files c) ||
                     existsb (fun f => fi_apiChanges (functionalImpact f)) (files c));
            [| destruct (existsb (fun f => String.eqb (category f) "source" &&
                                           endsWithAny (filePath f) [".tsx"; ".jsx"])
                                 (files c))]]);
    cbv beta iota zeta delta [orb];
    intros ->;
    cbv beta iota zeta delta [impact sm_scope sm_category userFacing businessImpact
                              migrationNotes highlights relatedAreas];
    rewrite ?Hcritical, ?Hhigh.
  all: split; [cbn; tauto |].
  all: split; [intros; first [congruence | cbn; repeat split; reflexivity] |].
  all: split; [intros; first [congruence | cbn; split; [tauto | reflexivity]] |].
  all: split; [intros; first [congruence | reflexivity] |].
  all: split; [intros; first [congruence | repeat split; reflexivity] |].
  all: split; eexists; (split; [reflexivity | unfold firstN; rewrite length_take; lia]).
Qed.
(* ===================================================================== *)
(** * Further facts: release insights                                   *)
(* ===================================================================== *)

Section Releases.

Lemma countOfType_increment (t k : string) (counts : list (string * Z)) :
  countOfType t (increment k counts)
  = countOfType t counts + (if String.eqb t k then 1 else 0).
Proof.
  induction counts as [|[k' n] counts IH]; cbn [increment countOfType].
  - destruct (String.eqb t k); lia.
  - destruct (String.eqb k k') eqn:Hk; cbn [countOfType].
    + apply String.eqb_eq in Hk. subst k'.
      destruct (String.eqb t k); lia.
    + destruct (String.eqb t k') eqn:Ht; [| exact IH].
      apply String.eqb_eq in Ht. subst k'.
      rewrite String.eqb_sym, Hk. lia.
Qed.

Lemma increment_keys (k : string) (counts : list (string * Z)) :
  map fst (increment k counts)
  = if existsb (String.eqb k) (map fst counts) then map fst counts
    else map fst counts ++ [k].
Proof.
  induction counts as [|[k' n] counts IH]; cbn [increment map existsb fst]; [reflexivity |].
  destruct (String.eqb k k'); cbn [map fst orb]; [reflexivity |].
  rewrite IH. now destruct (existsb (String.eqb k) (map fst counts)).
Qed.

Lemma existsb_eqb_In (k : string) (ks : list string) :
  existsb (String.eqb k) ks = true <-> In k ks.
Proof.
  rewrite existsb_exists. split.
  - intros (x & Hx & Heq). apply String.eqb_eq in Heq. now subst.
  - intros Hk. exists k. split; [exact Hk | apply String.eqb_refl].
Qed.

Lemma increment_NoDup (k : string) (counts : list (string * Z)) :
  NoDup (map fst counts) -> NoDup (map fst (increment k counts)).
Proof.
  intros Hnd. rewrite increment_keys.
  destruct (existsb (String.eqb k) (map fst counts)) eqn:Hk; [exact Hnd |].
  apply (proj2 (NoDup_app _ _)). split; [exact Hnd |]. split.
  - intros x Hx Hin. apply list_elem_of_singleton in Hin. subst x.
    apply list_elem_of_In, existsb_eqb_In in Hx. congruence.
  - apply NoDup_singleton.
Qed.

Lemma increment_total (k : string) (counts : list (string * Z)) :
  sumZ (map snd (increment k counts)) = sumZ (map snd counts) + 1.
Proof.
  unfold sumZ.
  induction counts as [|[k' n] counts IH]; cbn [increment map snd fold_right]; [lia |].
  destruct (String.eqb k k'); cbn [map snd fold_right]; lia.
Qed.

(** What the loop over the commits leaves in each field of the insights. *)
Lemma insightStep_fields (commits : list AnalyzedCommit) (insights : ReleaseInsights) :
  let r := fold_left insightStep commits insights in
  commitTypes r
    = fold_left (fun counts commit => increment (type (analysis commit)) counts)
        commits (commitTypes insights) /\
  totalCommits r = totalCommits insights /\
  affectedAreas r
    = affectedAreas insights ++
      flat_map (fun commit => map category (files (analysis commit))) commits /\
  ri_riskLevel r
    = (if existsb (fun commit =>
                     String.eqb (sa_riskLevel (semanticAnalysis (analysis commit))) "high")
                  commits
       then "high" else ri_riskLevel insights) /\
  deploymentRequirements r
    = deploymentRequirements insights ++
      flat_map (fun commit =>
                  (if hasDbChanges (semanticAnalysis (analysis commit))
                   then ["Database migration required"] else []) ++
                  (if breaking (analysis commit)
                   then ["Breaking changes - review migration notes above."] else []))
               commits.
Proof.
  revert insights. induction commits as [|c commits IH]; intros insights.
  - cbn. rewrite !app_nil_r. repeat split.
  - cbn [fold_left flat_map existsb].
    destruct (IH (insightStep insights c)) as (Htypes & Htotal & Hareas & Hrisk & Hdeploy).
    cbn zeta. rewrite Htypes, Htotal, Hareas, Hrisk, Hdeploy.
    cbn [insightStep commitTypes totalCommits affectedAreas ri_riskLevel
         deploymentRequirements].
    rewrite <- !app_assoc. repeat split.
    destruct (String.eqb (sa_riskLevel (semanticAnalysis (analysis c))) "high");
      cbn [orb]; [| reflexivity].
    now destruct (existsb _ commits).
Qed.

Lemma counts_of_commits (t : string) (commits : list AnalyzedCommit)
  (counts : list (string * Z)) :
  let counts' :=
    fold_left (fun counts commit => increment (type (analysis commit)) counts)
      commits counts in
  countOfType t counts'
    = countOfType t counts +
      zlength (List.filter (fun commit => String.eqb t (type (analysis commit))) commits) /\
  (NoDup (map fst counts) -> NoDup (map fst counts')) /\
  sumZ (map snd counts') = sumZ (map snd counts) + zlength commits.
Proof.
  revert counts. induction commits as [|c commits IH]; intros counts.
  - cbn [fold_left List.filter]. unfold zlength. cbn [length Z.of_nat].
    rewrite !Z.add_0_r. repeat split; auto.
  - cbn [fold_left List.filter].
    destruct (IH (increment (type (analysis c)) counts)) as (Hcount & Hnd & Hsum).
    cbn zeta. rewrite Hcount, Hsum, countOfType_increment, increment_total.
    repeat split.
    + destruct (String.eqb t (type (analysis c))); unfold zlength; cbn [length]; lia.
    + intros H. now apply Hnd, increment_NoDup.
    + unfold zlength. cbn [length]. lia.
Qed.

Lemma uniq_from_spec (seen xs : list string) :
  NoDup (uniq_from seen xs) /\
  forall x, In x (uniq_from seen xs) <-> In x xs /\ ~ In x seen.
Proof.
  revert seen. induction xs as [|y xs IH]; intros seen.
  - cbn. split; [apply NoDup_nil_2 | tauto].
  - cbn [uniq_from].
    destruct (existsb (String.eqb y) seen) eqn:Hy.
    + apply existsb_eqb_In in Hy.
      destruct (IH seen) as [Hnd Hin]. split; [exact Hnd |].
      intros x. rewrite Hin. cbn [In]. split; [tauto |].
      intros [[-> | Hx] Hseen]; tauto.
    + assert (Hnot : ~ In y seen).
      { intros H. apply existsb_eqb_In in H. congruence. }
      destruct (IH (y :: seen)) as [Hnd Hin]. split.
      * apply NoDup_cons_2; [| exact Hnd]. rewrite list_elem_of_In, Hin. cbn [In]. tauto.
      * intros x. cbn [In]. rewrite Hin. cbn [In].
        destruct (string_dec y x) as [-> | Hne]; tauto.
Qed.

Lemma uniq_spec (xs : list string) :
  NoDup (uniq xs) /\ forall x, In x (uniq xs) <-> In x xs.
Proof.
  destruct (uniq_from_spec [] xs) as [Hnd Hin]. split; [exact Hnd |].
  intros x. unfold uniq. rewrite Hin. cbn [In]. tauto.
Qed.

End Releases.

(** X14: the counts of a release.  For every commit type, the number
    recorded under it in [commitTypes] is the number of analyzed commits
    of that type; no type is listed twice; the counts add up to
    [totalCommits], which is the number of analyzed commits. *)
Theorem X14_release_counts_commit_types
  (analyzedCommits : list AnalyzedCommit) (t : string) :
  let r := generateReleaseInsights analyzedCommits in
  countOfType t (commitTypes r)
    = zlength (List.filter (fun commit => String.eqb t (type (analysis commit)))
                 analyzedCommits) /\
  NoDup (map fst (commitTypes r)) /\
  sumZ (map snd (commitTypes r)) = totalCommits r /\
  totalCommits r = zlength analyzedCommits.
Proof.
  intros r. subst r. unfold generateReleaseInsights.
  cbn [commitTypes totalCommits].
  match goal with
  | |- context [fold_left insightStep analyzedCommits ?init] =>
      destruct (insightStep_fields analyzedCommits init) as (Htypes & Htotal & _)
  end.
  cbn zeta in Htypes, Htotal. rewrite Htypes, Htotal.
  cbn [commitTypes totalCommits].
  destruct (counts_of_commits t analyzedCommits []) as (Hcount & Hnd & Hsum).
  cbn zeta in Hcount, Hnd, Hsum. rewrite Hcount, Hsum. cbn.
  repeat split; first [lia | apply Hnd, NoDup_nil_2].
Qed.

(** X15: the areas, risk and grades of a release.  [affectedAreas] lists
    each category of a changed file exactly once; the risk level is
    "high" when some commit's semantic analysis says so and "low"
    otherwise; a breaking release is graded complexity "high" and
    business impact "major"; and the deployment requirements hold the
    breaking-change notice once per breaking commit. *)
Theorem X15_release_areas_risk_and_grades (analyzedCommits : list AnalyzedCommit) :
  let r := generateReleaseInsights analyzedCommits in
  NoDup (affectedAreas r) /\
  (forall area,
     In area (affectedAreas r) <->
     exists commit file,
       In commit analyzedCommits /\ In file (files (analysis commit)) /\
       category file = area) /\
  ri_riskLevel r
    = (if existsb (fun commit =>
                     String.eqb (sa_riskLevel (semanticAnalysis (analysis commit))) "high")
                  analyzedCommits
       then "high" else "low") /\
  (ri_breaking r = true -> ri_complexity r = "high" /\ ri_businessImpact r = "major") /\
  In (ri_complexity r) ["low"; "medium"; "high"] /\
  In (ri_businessImpact r) ["minor"; "moderate"; "major"] /\
  zlength (List.filter (String.eqb "Breaking changes - review migration notes above.")
             (deploymentRequirements r))
    = zlength (List.filter (fun commit => breaking (analysis commit)) analyzedCommits).
Proof.
  intros r. subst r. unfold generateReleaseInsights.
  cbn [affectedAreas ri_riskLevel ri_breaking ri_complexity ri_businessImpact
       deploymentRequirements].
  match goal with
  | |- context [fold_left insightStep analyzedCommits ?init] =>
      destruct (insightStep_fields analyzedCommits init)
        as (_ & _ & Hareas & Hrisk & Hdeploy);
      generalize (ri_breaking (fold_left insightStep analyzedCommits init))
  end.
  cbn zeta in Hareas, Hrisk, Hdeploy. rewrite Hareas, Hrisk, Hdeploy.
  cbn [affectedAreas ri_riskLevel deploymentRequirements app].
  intros b.
  destruct (uniq_spec (flat_map (fun commit => map category (files (analysis commit)))
                         analyzedCommits)) as [Hnd Hin].
  split; [exact Hnd |]. split.
  { intros area. rewrite Hin, in_flat_map. split.
    - intros (commit & Hc & Hf). apply in_map_iff in Hf as (file & Heq & Hf).
      now exists commit, file.
    - intros (commit & file & Hc & Hf & Heq). exists commit. split; [exact Hc |].
      apply in_map_iff. now exists file. }
  split; [reflexivity |]. split.
  { intros ->. rewrite !orb_true_r. now split. }
  split.
  { repeat match goal with
           | |- context [if ?cond then _ else _] => destruct cond
           end; cbn; auto. }
  split.
  { repeat match goal with
           | |- context [if ?cond then _ else _] => destruct cond
           end; cbn; auto. }
  clear. induction analyzedCommits as [|c commits IH]; [reflexivity |].
  cbn [flat_map List.filter]. rewrite !List.filter_app.
  unfold zlength in *. rewrite !length_app, !Nat2Z.inj_add, IH.
  destruct (hasDbChanges (semanticAnalysis (analysis c))), (breaking (analysis c));
    cbn; lia.
Qed.
(* ===================================================================== *)
(** * Further facts: commit analysis                                    *)
(* ===================================================================== *)

Section Analysis.

Variable rt : Runtime.
Variable git : Git.

Lemma assessRisk_breaking_factor (files : list FileChange) (ds : DiffStats)
  (subject body : string) :
  isBreakingChange subject body = true ->
  In "Breaking changes detected" (ra_factors (assessRisk files ds subject body)) /\
  5 <= ra_score (assessRisk files ds subject body).
Proof.
  intros Hb. split.
  - unfold assessRisk, risk_factor. rewrite Hb. cbn [ra_factors].
    repeat match goal with
           | |- context [if ?cond then _ else _] => destruct cond
           end; cbn; auto.
  - rewrite assessRisk_score, Hb. unfold points.
    repeat match goal with
           | |- context [if ?cond then _ else _] => destruct cond
           end; lia.
Qed.

End Analysis.

(** X16: an analysis that [getCommitAnalysis] returns is consistent.  The
    hash passed validation; the short hash is the first seven characters
    of the full one; type, scope, breaking flag, semantic analysis,
    complexity and risk are the ones computed from the subject, body,
    files and diff statistics stored in the same analysis; a breaking
    analysis carries the factor "Breaking changes detected" and a risk
    score of at least 5; and the call counts exactly one more processed
    commit and nothing else. *)
Theorem X16_returned_analysis_is_consistent
  (rt : Runtime) (git : Git) (commitHash : string) (m m' : Metrics)
  (a : CommitAnalysis) :
  getCommitAnalysis rt git commitHash m = (Returned (Some a), m') ->
  GitManager.validateCommitHash git commitHash = true /\
  hash a = take_chars 7 (fullHash a) /\
  type a = extractCommitType rt (subject a) /\
  scope a = extractCommitScope rt (subject a) /\
  breaking a = isBreakingChange (subject a) (body a) /\
  semanticAnalysis a = performSemanticAnalysis (files a) (subject a) (body a) /\
  ca_complexity a = assessOverallComplexity (files a) (diffStats a) /\
  riskAssessment a = assessRisk (files a) (diffStats a) (subject a) (body a) /\
  diffStats a = getCommitDiffStats rt git commitHash /\
  (breaking a = true ->
   In "Breaking changes detected" (ra_factors (riskAssessment a)) /\
   5 <= ra_score (riskAssessment a)) /\
  m' = bump_commitsProcessed m.
Proof.
  unfold getCommitAnalysis.
  destruct (GitManager.validateCommitHash git commitHash); cbn [negb];
    [| discriminate].
  unfold execGit. destruct (git (showCommand commitHash)) as [commitInfo|];
    [| discriminate].
  match goal with
  | |- context [mapM ?f ?xs] =>
      assert (Hfiles : exists vs, forall m, mapM f xs m = (Returned vs, m))
  end.
  { apply mapM_unchanged. intros line.
    destruct (JS.split TAB line) as [|st [|path rest]];
      try (exists None; reflexivity).
    apply analyzeFileChange_run. }
  destruct Hfiles as [vs Hvs].
  unfold try_catch, bind, ret. rewrite Hvs.
  destruct (nth_error (JS.split "|" (hd "" (JS.split (ascii_of_nat 10) commitInfo)))
              1%nat) as [subj|]; [| discriminate].
  cbn. intros H. injection H as <- <-.
  cbn [hash fullHash type scope breaking semanticAnalysis ca_complexity riskAssessment
       diffStats subject body files].
  repeat split; try reflexivity; now apply assessRisk_breaking_factor.
Qed.

Lemma X16_returned_analysis_is_consistent_witness :
  let a := default Examples.firstCommit
             (analysisOf Examples.silentRuntime Examples.batchGit "aaa0001") in
  GitManager.validateCommitHash Examples.batchGit "aaa0001" = true /\
  hash a = take_chars 7 (fullHash a) /\
  type a = extractCommitType Examples.silentRuntime (subject a) /\
  scope a = extractCommitScope Examples.silentRuntime (subject a) /\
  breaking a = isBreakingChange (subject a) (body a) /\
  semanticAnalysis a = performSemanticAnalysis (files a) (subject a) (body a) /\
  ca_complexity a = assessOverallComplexity (files a) (diffStats a) /\
  riskAssessment a = assessRisk (files a) (diffStats a) (subject a) (body a) /\
  diffStats a = getCommitDiffStats Examples.silentRuntime Examples.batchGit "aaa0001" /\
  (breaking a = true ->
   In "Breaking changes detected" (ra_factors (riskAssessment a)) /\
   5 <= ra_score (riskAssessment a)) /\
  bump_commitsProcessed Examples.zeroMetrics
    = bump_commitsProcessed Examples.zeroMetrics.
Proof.
  apply (X16_returned_analysis_is_consistent Examples.silentRuntime Examples.batchGit
           "aaa0001" Examples.zeroMetrics (bump_commitsProcessed Examples.zeroMetrics)).
  vm_compute. reflexivity.
Defined.
(* ===================================================================== *)
(** * Further facts: provider and completions                           *)
(* ===================================================================== *)

Section Providers.

Import AIClient.

Lemma active_provider_cases (cfg : Config) :
  match determineActiveProvider cfg with
  | AIProvider.Azure => isAzureConfigured cfg = true
  | AIProvider.OpenAI =>
      isOpenAIConfigured cfg = true /\
      (isAzureConfigured cfg = true -> provider cfg = "openai")
  | AIProvider.NoProvider =>
      isAzureConfigured cfg = false /\ isOpenAIConfigured cfg = false
  end.
Proof.
  unfold determineActiveProvider.
  destruct (String.eqb_spec (provider cfg) "auto") as [Hauto | _].
  { destruct (isAzureConfigured cfg), (isOpenAIConfigured cfg); auto.
    split; [reflexivity | discriminate]. }
  destruct (String.eqb (provider cfg) "azure"), (isAzureConfigured cfg) eqn:Hazure;
    cbn [andb]; auto;
    destruct (String.eqb_spec (provider cfg) "openai"), (isOpenAIConfigured cfg);
    cbn [andb]; auto; split; auto; discriminate.
Qed.

(** The requests of one call go to the client of the call, which is
    configured. *)
Lemma callAzureOpenAI_requests (cfg : Config) (clients : Clients) (settings : Settings) :
  let run := callAzureOpenAI cfg clients settings in
  (fst run = [] /\ (exists e, snd run = Thrown e)) \/
  (fst run = [(AIProvider.Azure, azureRequest cfg settings)] /\
   isAzureConfigured cfg = true).
Proof.
  unfold callAzureOpenAI. destruct (isAzureConfigured cfg); cbn; eauto.
Qed.

Lemma callOpenAI_requests (cfg : Config) (clients : Clients) (settings : Settings) :
  let run := callOpenAI cfg clients settings in
  (fst run = [] /\ (exists e, snd run = Thrown e)) \/
  (exists body,
     fst run = [(AIProvider.OpenAI, body)] /\ isOpenAIConfigured cfg = true /\
     rq_model body = model settings /\
     rq_temperature body = Some (temperature settings) /\
     ((rq_max_tokens body = Some (max_tokens settings) /\
       rq_max_completion_tokens body = None) \/
      (rq_max_tokens body = None /\
       rq_max_completion_tokens body = Some (max_tokens settings)))).
Proof.
  unfold callOpenAI. destruct (isOpenAIConfigured cfg); cbn; eauto.
  destruct (model settings) as [name|]; cbn; eauto.
  right. eexists. split; [reflexivity |]. cbn.
  destruct (JS.includes (JS.toLowerCase name) "gpt-4.1"); auto 10.
Qed.

End Providers.

(** X17: the active provider is a configured one.  [azure] is chosen only
    when the Azure endpoint and key are set, [openai] only when the
    OpenAI key is set, and [none] exactly when neither service is
    configured; a configured Azure is passed over for OpenAI only when
    the provider is set to [openai]. *)
Theorem X17_active_provider_is_configured (cfg : AIClient.Config) :
  (AIClient.determineActiveProvider cfg = AIProvider.Azure ->
   AIClient.isAzureConfigured cfg = true) /\
  (AIClient.determineActiveProvider cfg = AIProvider.OpenAI ->
   AIClient.isOpenAIConfigured cfg = true) /\
  (AIClient.determineActiveProvider cfg = AIProvider.NoProvider <->
   AIClient.isAzureConfigured cfg = false /\ AIClient.isOpenAIConfigured cfg = false) /\
  (AIClient.determineActiveProvider cfg = AIProvider.OpenAI ->
   AIClient.isAzureConfigured cfg = true -> AIClient.provider cfg = "openai").
Proof.
  pose proof (active_provider_cases cfg) as H.
  destruct (AIClient.determineActiveProvider cfg);
    repeat split; try discriminate; try tauto.
  - intros [Ha _]. congruence.
  - intros [_ Ho]. destruct H. congruence.
Qed.

(** X18: the requests of [generateCompletion].  Without an available
    provider it throws before sending anything.  Otherwise the requests
    go to the active provider alone, or to Azure and then to OpenAI; the
    second request is sent only in auto mode with both services
    configured, so the fall-back from OpenAI to Azure never happens.
    Every request goes to a configured service, a reply is returned only
    after a request, and the reasoning effort in the options changes
    nothing. *)
Theorem X18_completion_falls_back_only_to_openai
  (cfg : AIClient.Config) (clients : AIClient.Clients) (options : AIClient.Options) :
  let run := AIClient.generateCompletion cfg clients options in
  let active := AIClient.determineActiveProvider cfg in
  (AIClient.isAvailable cfg = false -> run = ([], Thrown "No AI provider available")) /\
  (map fst (fst run) = [] \/
   map fst (fst run) = [active] \/
   (map fst (fst run) = [AIProvider.Azure; AIProvider.OpenAI] /\
    active = AIProvider.Azure /\ AIClient.provider cfg = "auto" /\
    AIClient.isOpenAIConfigured cfg = true)) /\
  (forall service body,
     In (service, body) (fst run) ->
     (service = AIProvider.Azure /\ AIClient.isAzureConfigured cfg = true) \/
     (service = AIProvider.OpenAI /\ AIClient.isOpenAIConfigured cfg = true)) /\
  (fst run = [] -> exists e, snd run = Thrown e) /\
  (forall effort,
     AIClient.generateCompletion cfg clients
       (AIClient.mkOptions (AIClient.o_temperature options) (AIClient.o_max_tokens options)
          (AIClient.o_model options) effort)
     = run).
Proof.
  cbn zeta.
  assert (Heffort : forall effort,
            AIClient.generateCompletion cfg clients
              (AIClient.mkOptions (AIClient.o_temperature options)
                 (AIClient.o_max_tokens options) (AIClient.o_model options) effort)
            = AIClient.generateCompletion cfg clients options) by reflexivity.
  revert Heffort.
  generalize (fun effort =>
                AIClient.generateCompletion cfg clients
                  (AIClient.mkOptions (AIClient.o_temperature options)
                     (AIClient.o_max_tokens options) (AIClient.o_model options) effort)).
  intros other Heffort.
  enough (Hrun :
    (AIClient.isAvailable cfg = false ->
     AIClient.generateCompletion cfg clients options
     = ([], Thrown "No AI provider available")) /\
    (map fst (fst (AIClient.generateCompletion cfg clients options)) = [] \/
     map fst (fst (AIClient.generateCompletion cfg clients options))
     = [AIClient.determineActiveProvider cfg] \/
     (map fst (fst (AIClient.generateCompletion cfg clients options))
      = [AIProvider.Azure; AIProvider.OpenAI] /\
      AIClient.determineActiveProvider cfg = AIProvider.Azure /\
      AIClient.provider cfg = "auto" /\
      AIClient.isOpenAIConfigured cfg = true)) /\
    (forall service body,
       In (service, body) (fst (AIClient.generateCompletion cfg clients options)) ->
       (service = AIProvider.Azure /\ AIClient.isAzureConfigured cfg = true) \/
       (service = AIProvider.OpenAI /\ AIClient.isOpenAIConfigured cfg = true)) /\
    (fst (AIClient.generateCompletion cfg clients options) = [] ->
     exists e, snd (AIClient.generateCompletion cfg clients options) = Thrown e))
    by (destruct Hrun as (H1 & H2 & H3 & H4); repeat split; auto).
  clear other Heffort.
  unfold AIClient.generateCompletion, AIClient.isAvailable.
  pose proof (active_provider_cases cfg) as Hactive.
  split; [destruct (AIClient.determineActiveProvider cfg); try discriminate; reflexivity |].
  destruct (AIClient.determineActiveProvider cfg) eqn:Hprovider; cbn [negb].
  - (* Azure is active *)
    destruct (callAzureOpenAI_requests cfg clients (AIClient.withDefaults options))
      as [[Hnone [e He]] | [Hsent _]];
      [unfold AIClient.callAzureOpenAI in Hnone, He |- *; rewrite Hactive in *;
       cbn in Hnone; discriminate |].
    destruct (AIClient.callAzureOpenAI cfg clients (AIClient.withDefaults options))
      as [requests [reply | error]] eqn:Hcall; cbn [fst snd] in Hsent; subst requests.
    + cbn. repeat split; auto.
      * intros service body [[= <- <-] | []]. auto.
      * discriminate.
    + destruct (String.eqb_spec (AIClient.provider cfg) "auto") as [Hauto | Hnot].
      2:{ cbn. repeat split; auto.
          - intros service body [[= <- <-] | []]. auto.
          - discriminate. }
      destruct (AIClient.isOpenAIConfigured cfg) eqn:Hopenai.
      2:{ cbn. repeat split; auto.
          - intros service body [[= <- <-] | []]. auto.
          - discriminate. }
      destruct (callOpenAI_requests cfg clients (AIClient.withDefaults options))
        as [[Hnone [e He]] | (body & Hbody & _)];
        destruct (AIClient.callOpenAI cfg clients (AIClient.withDefaults options))
          as [more result] eqn:Hmore; cbn [fst snd] in *; subst more.
      * cbn. repeat split; auto.
        -- intros service body [[= <- <-] | []]. auto.
        -- discriminate.
      * cbn. repeat split; auto 6.
        -- intros service body' [[= <- <-] | [[= <- <-] | []]]; auto.
        -- discriminate.
  - (* OpenAI is active *)
    destruct Hactive as [Hopenai Hazure].
    assert (Hnofallback :
              String.eqb (AIClient.provider cfg) "auto" && AIClient.isAzureConfigured cfg
              = false).
    { destruct (String.eqb_spec (AIClient.provider cfg) "auto") as [Hauto |];
        [| reflexivity].
      destruct (AIClient.isAzureConfigured cfg); [| reflexivity].
      rewrite Hazure in Hauto by reflexivity. discriminate. }
    destruct (callOpenAI_requests cfg clients (AIClient.withDefaults options))
      as [[Hnone [e He]] | (body & Hbody & _)];
      destruct (AIClient.callOpenAI cfg clients (AIClient.withDefaults options))
        as [requests [reply | error]] eqn:Hcall; cbn [fst snd] in *; subst requests;
      try discriminate.
    + destruct (String.eqb (AIClient.provider cfg) "auto"),
        (AIClient.isAzureConfigured cfg); try discriminate;
        cbn; repeat split; eauto; tauto.
    + cbn. repeat split; auto.
      * intros service body' [[= <- <-] | []]. auto.
      * discriminate.
    + destruct (String.eqb (AIClient.provider cfg) "auto"),
        (AIClient.isAzureConfigured cfg); try discriminate;
        cbn; repeat split; auto;
        try (intros service body' [[= <- <-] | []]; auto);
        discriminate.
  - (* no provider *)
    cbn. repeat split; eauto; tauto.
Qed.
Section Requests.

Import AIClient.

Lemma generateCompletion_requests (cfg : Config) (clients : Clients) (options : Options)
  (request : AIProvider.Provider * RequestBody) :
  In request (fst (generateCompletion cfg clients options)) ->
  In request (fst (callAzureOpenAI cfg clients (withDefaults options))) \/
  In request (fst (callOpenAI cfg clients (withDefaults options))).
Proof.
  unfold generateCompletion.
  destruct (isAvailable cfg); cbn [negb]; [| intros []].
  destruct (callAzureOpenAI cfg clients (withDefaults options))
    as [azureRequests azureResult];
    destruct (callOpenAI cfg clients (withDefaults options))
      as [openaiRequests openaiResult].
  cbn [fst].
  destruct (determineActiveProvider cfg), azureResult, openaiResult,
    (String.eqb (provider cfg) "auto"), (isOpenAIConfigured cfg),
    (isAzureConfigured cfg); cbn [fst]; rewrite ?in_app_iff; tauto.
Qed.

Lemma azureRequest_limits (cfg : Config) (settings : Settings) :
  let body := azureRequest cfg settings in
  rq_model body = Some (deploymentName (azureConfig cfg)) /\
  ((rq_max_tokens body = Some (max_tokens settings) /\
    rq_max_completion_tokens body = None) \/
   (rq_max_tokens body = None /\
    rq_max_completion_tokens body = Some (max_tokens settings))) /\
  (rq_temperature body = None <->
   cap_reasoning (getModelCapabilities (deploymentName (azureConfig cfg))) = true) /\
  (rq_temperature body = None \/ rq_temperature body = Some (temperature settings)).
Proof.
  unfold azureRequest, getModelCapabilities. cbn.
  split; [reflexivity |]. split.
  - destruct (_ || _ || _); auto.
  - destruct (JS.includes _ "o3" || JS.includes _ "o4"); split; auto;
      split; intros; congruence.
Qed.

End Requests.

(** X19: the requests that [generateCompletion] sends.  Each one carries
    the token limit of the settings under exactly one of the two keys
    [max_tokens] and [max_completion_tokens].  A request to Azure names
    the configured deployment, whatever model the settings ask for, and
    has no temperature exactly when the deployment is a reasoning model;
    a request to OpenAI names the model of the settings and always has
    their temperature. *)
Theorem X19_requests_carry_one_token_limit
  (cfg : AIClient.Config) (clients : AIClient.Clients) (options : AIClient.Options)
  (service : AIProvider.Provider) (body : AIClient.RequestBody) :
  In (service, body) (fst (AIClient.generateCompletion cfg clients options)) ->
  let settings := AIClient.withDefaults options in
  ((AIClient.rq_max_tokens body = Some (max_tokens settings) /\
    AIClient.rq_max_completion_tokens body = None) \/
   (AIClient.rq_max_tokens body = None /\
    AIClient.rq_max_completion_tokens body = Some (max_tokens settings))) /\
  (service = AIProvider.Azure ->
   AIClient.rq_model body = Some (AIClient.deploymentName (AIClient.azureConfig cfg)) /\
   (AIClient.rq_temperature body = None <->
    AIClient.cap_reasoning
      (AIClient.getModelCapabilities (AIClient.deploymentName (AIClient.azureConfig cfg)))
    = true)) /\
  (service = AIProvider.OpenAI ->
   AIClient.rq_model body = model settings /\
   AIClient.rq_temperature body = Some (temperature settings)) /\
  service <> AIProvider.NoProvider.
Proof.
  intros Hin settings. subst settings.
  apply generateCompletion_requests in Hin as [Hin | Hin].
  - destruct (callAzureOpenAI_requests cfg clients (AIClient.withDefaults options))
      as [[Hnone _] | [Hsent _]]; cbn zeta in *;
      [rewrite Hnone in Hin; destruct Hin |].
    rewrite Hsent in Hin. destruct Hin as [[= <- <-] | []].
    destruct (azureRequest_limits cfg (AIClient.withDefaults options))
      as (Hmodel & Hlimit & Htemp & _).
    repeat split; auto; try discriminate; apply Htemp.
  - destruct (callOpenAI_requests cfg clients (AIClient.withDefaults options))
      as [[Hnone _] | (sent & Hsent & _ & Hmodel & Htemp & Hlimit)]; cbn zeta in *;
      [rewrite Hnone in Hin; destruct Hin |].
    rewrite Hsent in Hin. destruct Hin as [[= <- <-] | []].
    repeat split; auto; discriminate.
Qed.

Lemma X19_requests_carry_one_token_limit_witness :
  let body := AIClient.mkRequestBody (Some "gpt-4.1") (Some (3 # 10)) None (Some 1000) in
  let settings := AIClient.withDefaults Examples.summaryOptions in
  ((AIClient.rq_max_tokens body = Some (max_tokens settings) /\
    AIClient.rq_max_completion_tokens body = None) \/
   (AIClient.rq_max_tokens body = None /\
    AIClient.rq_max_completion_tokens body = Some (max_tokens settings))) /\
  (AIProvider.OpenAI = AIProvider.Azure ->
   AIClient.rq_model body
   = Some (AIClient.deploymentName (AIClient.azureConfig Examples.bothConfigured)) /\
   (AIClient.rq_temperature body = None <->
    AIClient.cap_reasoning
      (AIClient.getModelCapabilities
         (AIClient.deploymentName (AIClient.azureConfig Examples.bothConfigured)))
    = true)) /\
  (AIProvider.OpenAI = AIProvider.OpenAI ->
   AIClient.rq_model body = model settings /\
   AIClient.rq_temperature body = Some (temperature settings)) /\
  AIProvider.OpenAI <> AIProvider.NoProvider.
Proof.
  apply (X19_requests_carry_one_token_limit Examples.bothConfigured Examples.azureLimited
           Examples.summaryOptions AIProvider.OpenAI).
  vm_compute. right. left. reflexivity.
Defined.

(** The example run: Azure is tried first and answers that the rate
    limit is exceeded, OpenAI then answers. *)
Example completion_falls_back :
  AIClient.generateCompletion Examples.bothConfigured Examples.azureLimited
    Examples.summaryOptions
  = ([(AIProvider.Azure,
       AIClient.mkRequestBody (Some "o4-mini") None None (Some 1000));
      (AIProvider.OpenAI,
       AIClient.mkRequestBody (Some "gpt-4.1") (Some (3 # 10)) None (Some 1000))],
     Returned (AIClient.mkReply (Some "{}") (Some 12) (Some "gpt-4.1"))).
Proof. vm_compute. reflexivity. Qed.
(* ===================================================================== *)
(** * Further facts: changed files                                      *)
(* ===================================================================== *)

Section DiffLines.

Lemma join_split (c : ascii) (s : string) :
  JS.join (String c "") (JS.split c s) = s.
Proof.
  induction s as [|a s IH]; [reflexivity |].
  cbn [JS.split].
  destruct (JS.split c s) as [|p ps] eqn:Hsplit;
    [now apply split_nonempty in Hsplit |].
  destruct (Ascii.eqb_spec a c) as [-> | Hne].
  - change (JS.join (String c "") ("" :: p :: ps))
      with ("" +:+ String c "" +:+ JS.join (String c "") (p :: ps)).
    rewrite IH, append_nil_l. reflexivity.
  - destruct ps as [|q ps].
    + cbn [JS.join] in IH |- *. now rewrite IH.
    + change (JS.join (String c "") (String a p :: q :: ps))
        with (String a p +:+ String c "" +:+ JS.join (String c "") (q :: ps)).
      change (JS.join (String c "") (p :: q :: ps))
        with (p +:+ String c "" +:+ JS.join (String c "") (q :: ps)) in IH.
      now rewrite append_cons, IH.
Qed.

Lemma has_char_append (c : ascii) (a b : string) :
  JS.has_char c (a +:+ b) = JS.has_char c a || JS.has_char c b.
Proof.
  induction a as [|x a IH]; [now rewrite append_nil_l |].
  rewrite append_cons. cbn [JS.has_char]. now rewrite IH, orb_assoc.
Qed.

(** A line [status <TAB> path] gives the entry of the status and the
    path, also when the path holds tabs. *)
Lemma diffEntryOf_line (extname : string -> string) (status path : string) :
  JS.has_char GitManager.HT status = false ->
  GitManager.diffEntryOf extname (status +:+ String GitManager.HT "" +:+ path)
  = Some (GitManager.mkDiffEntry (GitManager.mapDiffStatus status) path
            (GitManager.getFileType extname path) (GitManager.categorizeFile path)).
Proof.
  intros Hstatus. unfold GitManager.diffEntryOf.
  rewrite append_cons, append_nil_l, split_before_separator by exact Hstatus.
  pose proof (join_split GitManager.HT path) as Hjoin.
  destruct (JS.split GitManager.HT path) as [|p ps] eqn:Hsplit;
    [now apply split_nonempty in Hsplit |].
  now rewrite Hjoin.
Qed.

End DiffLines.

(** X20: [parseDiffOutput] recovers the entries of a name-status listing.
    When the trimmed output is made of the lines [status <TAB> path], one
    per entry and joined by newlines, where no status holds a tab and no
    status or path holds a newline, the result has one entry per line, in
    order, with the mapped status and the whole path, tabs included; type
    and category are those of that path. *)
Theorem X20_parseDiffOutput_recovers_entries
  (extname : string -> string) (entries : list (string * string)) (output : string) :
  Forall (fun e => JS.has_char GitManager.HT (fst e) = false /\
                   JS.has_char GitManager.LF (fst e) = false /\
                   JS.has_char GitManager.LF (snd e) = false) entries ->
  JS.trim output
  = JS.join (String GitManager.LF "")
      (map (fun e => fst e +:+ String GitManager.HT "" +:+ snd e) entries) ->
  GitManager.parseDiffOutput extname (Some output)
  = map (fun e => GitManager.mkDiffEntry (GitManager.mapDiffStatus (fst e)) (snd e)
                    (GitManager.getFileType extname (snd e))
                    (GitManager.categorizeFile (snd e)))
        entries.
Proof.
  intros Hentries Hout. unfold GitManager.parseDiffOutput. rewrite Hout.
  destruct entries as [|e0 rest] eqn:Hlist; [reflexivity |].
  rewrite <- Hlist in *.
  assert (Hlines : Forall (fun r => JS.has_char GitManager.LF r = false)
                     (map (fun e => fst e +:+ String GitManager.HT "" +:+ snd e) entries)).
  { apply Forall_map. eapply Forall_impl; [exact Hentries |].
    intros e (_ & Hs & Hp). cbn beta.
    rewrite !has_char_append, Hs, Hp. reflexivity. }
  rewrite split_join; [| subst entries; discriminate | exact Hlines].
  destruct (JS.falsy _) eqn:Hfalsy.
  { apply falsy_spec in Hfalsy. subst entries. cbn [map] in Hfalsy.
    destruct rest; cbn [map JS.join] in Hfalsy;
      destruct (fst e0); discriminate Hfalsy. }
  clear Hfalsy Hout Hlines Hlist. unfold GitManager.dropNull.
  induction Hentries as [|e entries (Hstatus & _) _ IH]; [reflexivity |].
  cbn [map]. rewrite diffEntryOf_line by exact Hstatus.
  rewrite <- IH. reflexivity.
Qed.

Lemma X20_parseDiffOutput_recovers_entries_witness :
  GitManager.parseDiffOutput (fun _ => ".js")
    (Some ("M" +:+ String GitManager.HT "src/app.js" +:+ String GitManager.LF
           ("R100" +:+ String GitManager.HT "old name.js" +:+
            String GitManager.HT "new name.js") +:+ String GitManager.LF ""))
  = map (fun e => GitManager.mkDiffEntry (GitManager.mapDiffStatus (fst e)) (snd e)
                    (GitManager.getFileType (fun _ => ".js") (snd e))
                    (GitManager.categorizeFile (snd e)))
        [("M", "src/app.js");
         ("R100", "old name.js" +:+ String GitManager.HT "new name.js")].
Proof.
  apply (X20_parseDiffOutput_recovers_entries (fun _ => ".js")
           [("M", "src/app.js");
            ("R100", "old name.js" +:+ String GitManager.HT "new name.js")]).
  - repeat constructor.
  - vm_compute. reflexivity.
Defined.
Section Categorizers.

(** Two prefixes of one string: one is a prefix of the other. *)
Lemma prefixes_comparable (r a b : string) :
  JS.startsWith r a = true -> JS.startsWith r b = true ->
  JS.startsWith a b || JS.startsWith b a = true.
Proof.
  revert r b. induction a as [|x a IH]; intros r b Ha Hb.
  - destruct b; apply orb_true_r.
  - destruct b as [|y b]; [reflexivity |].
    destruct r as [|z r]; [discriminate Ha |].
    cbn [JS.startsWith] in *.
    destruct (Ascii.eqb_spec x z) as [-> |]; [| discriminate Ha].
    destruct (Ascii.eqb_spec y z) as [-> |]; [| discriminate Hb].
    rewrite Ascii.eqb_refl. now apply (IH r).
Qed.

(** Suffixes of which none ends with another cannot both end a string. *)
Lemma endsWithAny_disjoint (s : string) (l1 l2 : list string) :
  forallb (fun e1 =>
             forallb (fun e2 =>
                        negb (JS.startsWith (JS.rev e1) (JS.rev e2) ||
                              JS.startsWith (JS.rev e2) (JS.rev e1))) l2) l1 = true ->
  endsWithAny s l1 = true -> endsWithAny s l2 = false.
Proof.
  unfold endsWithAny. intros Hdisjoint H1.
  apply existsb_exists in H1 as (e1 & Hin1 & He1).
  destruct (existsb (JS.endsWith s) l2) eqn:H2; [| reflexivity].
  apply existsb_exists in H2 as (e2 & Hin2 & He2).
  rewrite forallb_forall in Hdisjoint. specialize (Hdisjoint e1 Hin1).
  rewrite forallb_forall in Hdisjoint. specialize (Hdisjoint e2 Hin2).
  unfold JS.endsWith in He1, He2.
  rewrite (prefixes_comparable _ _ _ He1 He2) in Hdisjoint. discriminate.
Qed.

Lemma endsWithAny_suffix (base suffix : string) (suffixes : list string) :
  existsb (JS.endsWith suffix) suffixes = true ->
  endsWithAny (base +:+ suffix) suffixes = true.
Proof.
  unfold endsWithAny. rewrite !existsb_exists.
  intros (e & Hin & He). exists e. split; [exact Hin |].
  unfold JS.endsWith in *. rewrite rev_append.
  apply startsWith_spec in He as [b Hb]. apply startsWith_spec.
  exists (b +:+ JS.rev base). now rewrite Hb, append_assoc.
Qed.

Lemma includes_suffix (base suffix token : string) :
  JS.includes suffix token = true -> JS.includes (base +:+ suffix) token = true.
Proof.
  rewrite !includes_spec. intros (a & b & ->). exists (base +:+ a), b.
  now rewrite <- append_assoc.
Qed.

Lemma falsy_append (a b : string) : JS.falsy b = false -> JS.falsy (a +:+ b) = false.
Proof.
  destruct b; [discriminate |]. intros _.
  destruct a; [now rewrite append_nil_l | now rewrite append_cons].
Qed.

End Categorizers.

(** X21: the two file categorizers.  For a path that ends in one of the
    test suffixes ([.test.js], [.spec.ts], ...), the generator answers
    [source] and [GitManager] answers [test].  A path the generator calls
    [source] is [source] or [test] for [GitManager], and the two agree on
    which paths are style sheets. *)
Theorem X21_categorizers_differ_on_tests (path : string) :
  (forall base suffix,
     In suffix [".test.ts"; ".test.tsx"; ".test.js"; ".test.jsx";
                ".spec.ts"; ".spec.tsx"; ".spec.js"; ".spec.jsx"] ->
     categorizeFile (base +:+ suffix) = "source" /\
     GitManager.categorizeFile (base +:+ suffix) = "test") /\
  (categorizeFile path = "source" ->
   GitManager.categorizeFile path = "source" \/ GitManager.categorizeFile path = "test") /\
  (categorizeFile path = "style" <-> GitManager.categorizeFile path = "style").
Proof.
  split; [| split].
  - intros base suffix Hin.
    assert (Hlower : JS.toLowerCase suffix = suffix /\ JS.falsy suffix = false /\
                     existsb (JS.endsWith suffix) [".ts"; ".tsx"; ".js"; ".jsx"] = true /\
                     existsb (JS.endsWith suffix)
                       [".js"; ".ts"; ".tsx"; ".jsx"; ".py"; ".java"; ".c"; ".cpp"; ".go";
                        ".rs"; ".php"; ".rb"; ".swift"; ".kt"] = true /\
                     JS.includes suffix "test" || JS.includes suffix "spec" = true).
    { cbn [In] in Hin.
      destruct Hin as [<- | [<- | [<- | [<- | [<- | [<- | [<- | [<- | []]]]]]]]];
        vm_compute; auto. }
    destruct Hlower as (Hlow & Hfalsy & H4 & H14 & Htest).
    unfold categorizeFile, GitManager.categorizeFile.
    rewrite (falsy_append base suffix Hfalsy).
    unfold JS.toLowerCase in *. rewrite map_chars_app, Hlow.
    rewrite (endsWithAny_suffix _ _ _ H4), (endsWithAny_suffix _ _ _ H14).
    split; [reflexivity |].
    apply orb_true_iff in Htest as [Ht | Hs].
    + now rewrite (includes_suffix _ _ _ Ht).
    + rewrite (includes_suffix _ _ _ Hs). now rewrite orb_true_r.
  - unfold categorizeFile, GitManager.categorizeFile.
    destruct (JS.falsy path); [discriminate |].
    destruct (endsWithAny (JS.toLowerCase path) [".ts"; ".tsx"; ".js"; ".jsx"]) eqn:H4.
    + assert (H14 : endsWithAny (JS.toLowerCase path)
                      [".js"; ".ts"; ".tsx"; ".jsx"; ".py"; ".java"; ".c"; ".cpp"; ".go";
                       ".rs"; ".php"; ".rb"; ".swift"; ".kt"] = true).
      { unfold endsWithAny in *. cbn [existsb] in *.
        rewrite !orb_false_r in H4. rewrite !orb_true_iff in H4. rewrite !orb_true_iff.
        tauto. }
      rewrite H14. intros _. destruct (_ || _); auto.
    + repeat match goal with
             | |- context [if ?cond then _ else _] => destruct cond
             end; discriminate.
  - unfold categorizeFile, GitManager.categorizeFile.
    destruct (JS.falsy path); [split; discriminate |].
    destruct (endsWithAny (JS.toLowerCase path)
                [".css"; ".scss"; ".sass"; ".less"; ".styl"]) eqn:Hstyle.
    + rewrite (endsWithAny_disjoint _ [".css"; ".scss"; ".sass"; ".less"; ".styl"]
                 [".ts"; ".tsx"; ".js"; ".jsx"] eq_refl Hstyle).
      rewrite (endsWithAny_disjoint _ [".css"; ".scss"; ".sass"; ".less"; ".styl"]
                 [".js"; ".ts"; ".tsx"; ".jsx"; ".py"; ".java"; ".c"; ".cpp"; ".go";
                  ".rs"; ".php"; ".rb"; ".swift"; ".kt"] eq_refl Hstyle).
      split; reflexivity.
    + split; intros H; exfalso; revert H;
        repeat match goal with
               | |- context [if ?cond then _ else _] => destruct cond
               end; discriminate.
Qed.

(** X22: [mapDiffStatus] reads the first character only.  A status that
    starts with one of the letters A, M, D, R, C, U, T is given the name
    of that letter whatever follows it (so [R100] is [renamed]); any
    other status is returned as it is; the answer is never empty, and it
    is [unknown] only for an empty status or for the status [unknown]
    itself. *)
Theorem X22_mapDiffStatus_reads_first_character (letter : ascii) (rest : string) :
  (forall name,
     In (String letter "", name) GitManager.statusMap ->
     GitManager.mapDiffStatus (String letter rest) = name) /\
  ((forall name, ~ In (String letter "", name) GitManager.statusMap) ->
   GitManager.mapDiffStatus (String letter rest) = String letter rest) /\
  GitManager.mapDiffStatus (String letter rest) <> "" /\
  GitManager.mapDiffStatus "" = "unknown" /\
  (GitManager.mapDiffStatus (String letter rest) = "unknown" ->
   String letter rest = "unknown").
Proof.
  unfold GitManager.mapDiffStatus. cbn [JS.falsy take_chars].
  assert (Hassoc :
    match assoc (String letter "") GitManager.statusMap with
    | Some name =>
        In (String letter "", name) GitManager.statusMap /\
        (forall name', In (String letter "", name') GitManager.statusMap -> name' = name)
    | None => forall name, ~ In (String letter "", name) GitManager.statusMap
    end).
  { unfold GitManager.statusMap. cbn [assoc].
    repeat match goal with
           | |- context [String.eqb (String letter "") ?k] =>
               let E := fresh "E" in
               destruct (String.eqb_spec (String letter "") k) as [E | E];
               [injection E as ->; cbv beta iota;
                split; [cbn; tauto |];
                intros name'; cbn [In];
                intros H; repeat destruct H as [H | H]; try contradiction;
                now inversion H
               |]
           end.
    cbv beta iota. intros name. cbn [In]. intros H.
    repeat destruct H as [H | H]; try contradiction;
      inversion H; subst; contradiction. }
  destruct (assoc (String letter "") GitManager.statusMap) as [name|].
  - destruct Hassoc as [Hin Huniq]. repeat split.
    + intros name' H. symmetry. now apply Huniq.
    + intros Hnone. now apply Hnone in Hin.
    + intros ->. cbn in Hin. repeat destruct Hin as [Hin | Hin]; try contradiction;
        discriminate Hin.
    + intros ->. cbn in Hin. repeat destruct Hin as [Hin | Hin]; try contradiction;
        discriminate Hin.
  - repeat split; try discriminate; auto.
    intros name H. now apply Hassoc in H.
Qed.
(* ===================================================================== *)
(** * Further facts: filters of the log command                         *)
(* ===================================================================== *)

Section Escaping.

Import GitManager.






End Escaping.


(** A filter with a command substitution is put into the command as it
    is; a filter with a double quote gets a backslash. *)
Example escapeQuotes_examples :
  GitManager.filterArg "author" (Some "$(id)")
  = " --author=" +:+ dquote +:+ "$(id)" +:+ dquote /\
  GitManager.filterArg "grep" (Some ("say " +:+ dquote +:+ "hi" +:+ dquote))
  = " --grep=" +:+ dquote +:+ "say " +:+ String (ascii_of_nat 92) dquote +:+ "hi" +:+
    String (ascii_of_nat 92) dquote +:+ dquote.
Proof. split; vm_compute; reflexivity. Qed.

(* ===================================================================== *)
(** * Further facts: key lines of a diff                                *)
(* ===================================================================== *)

Section Trimming.

Lemma trimEnd_idempotent (s : string) : JS.trimEnd (JS.trimEnd s) = JS.trimEnd s.
Proof.
  induction s as [|c s IH]; [reflexivity |]. cbn [JS.trimEnd].
  destruct (JS.trimEnd s) as [|d t] eqn:Ht.
  - destruct (JS.is_space c) eqn:Hc; [reflexivity |]. cbn [JS.trimEnd]. now rewrite Hc.
  - cbn [JS.trimEnd]. fold JS.trimEnd. cbn [JS.trimEnd] in IH.
    destruct (JS.trimEnd t) as [|e u] eqn:Hu.
    + destruct (JS.is_space d); [discriminate IH | now rewrite IH].
    + now rewrite IH.
Qed.

(** What [trimStart] leaves starts with a character that is no white
    space, and so does what [trimEnd] makes of it. *)
Lemma trimStart_trimEnd (s : string) :
  JS.trimStart (JS.trimEnd (JS.trimStart s)) = JS.trimEnd (JS.trimStart s).
Proof.
  induction s as [|c s IH]; [reflexivity |]. cbn [JS.trimStart].
  destruct (JS.is_space c) eqn:Hc; [exact IH |].
  cbn [JS.trimEnd]. destruct (JS.trimEnd s); rewrite ?Hc; cbn [JS.trimStart];
    now rewrite Hc.
Qed.

Lemma trim_idempotent (s : string) : JS.trim (JS.trim s) = JS.trim s.
Proof. unfold JS.trim. now rewrite trimStart_trimEnd, trimEnd_idempotent. Qed.

End Trimming.

(** X24: the key lines of a diff.  At most five are returned.  Each one
    is the trimmed rest of a line of the diff that starts with [+] or
    [-] and that is no [+++] or [---] header; it is not empty and has no
    white space at either end. *)
Theorem X24_key_diff_lines (diff key : string) :
  In key (extractKeyDiffLines diff) ->
  (length (extractKeyDiffLines diff) <= 5)%nat /\
  key <> "" /\ JS.trim key = key /\
  exists sign rest,
    In (String sign rest) (JS.split (ascii_of_nat 10) diff) /\
    (sign = "+"%char \/ sign = "-"%char) /\
    key = JS.trim rest /\
    JS.startsWith rest (String sign (String sign "")) = false.
Proof.
  unfold extractKeyDiffLines. destruct (diffMissing diff); [intros [] |].
  intros Hin. split.
  { rewrite length_map. unfold firstN. rewrite length_take. lia. }
  apply in_map_iff in Hin as (line & <- & Hline).
  unfold firstN in Hline. apply list_elem_of_In, elem_of_take in Hline as (i & Hline & _).
  apply list_elem_of_lookup_2, list_elem_of_In, filter_In in Hline as [Hline Hkeep].
  apply andb_prop in Hkeep as [Hkeep Hlong].
  apply andb_prop in Hkeep as [Hkeep Hminus].
  apply andb_prop in Hkeep as [Hsign Hplus].
  destruct line as [|sign rest]; [discriminate Hsign |].
  change (dropChars 1 (String sign rest)) with (dropChars 0 rest).
  replace (dropChars 0 rest) with rest
    by (unfold dropChars; rewrite drop_0; now rewrite string_of_list_of).
  assert (Hsigns : sign = "+"%char \/ sign = "-"%char).
  { cbn [JS.startsWith] in Hsign.
    destruct (Ascii.eqb_spec "+" sign) as [<- | _]; [now left |].
    destruct (Ascii.eqb_spec "-" sign) as [<- | _]; [now right |].
    discriminate Hsign. }
  split; [| split; [apply trim_idempotent |]].
  - intros Hempty. apply trim_empty in Hempty.
    assert (Hspace : JS.is_space sign = false)
      by (destruct Hsigns as [-> | ->]; reflexivity).
    unfold JS.trim in Hlong. cbn [JS.trimStart] in Hlong. rewrite Hspace in Hlong.
    cbn [JS.trimEnd] in Hlong. rewrite (trimEnd_all_space rest Hempty), Hspace in Hlong.
    discriminate Hlong.
  - exists sign, rest. repeat split; try assumption.
    destruct Hsigns as [-> | ->].
    + apply negb_true_iff in Hplus. exact Hplus.
    + apply negb_true_iff in Hminus. exact Hminus.
Qed.

Lemma X24_key_diff_lines_witness :
  let diff := "--- a/src/app.js" +:+ String (ascii_of_nat 10)
              ("+++ b/src/app.js" +:+ String (ascii_of_nat 10)
               "+  const total = price + tax;") in
  (length (extractKeyDiffLines diff) <= 5)%nat /\
  "const total = price + tax;" <> "" /\
  JS.trim "const total = price + tax;" = "const total = price + tax;" /\
  exists sign rest,
    In (String sign rest) (JS.split (ascii_of_nat 10) diff) /\
    (sign = "+"%char \/ sign = "-"%char) /\
    "const total = price + tax;" = JS.trim rest /\
    JS.startsWith rest (String sign (String sign "")) = false.
Proof.
  apply (X24_key_diff_lines
           ("--- a/src/app.js" +:+ String (ascii_of_nat 10)
            ("+++ b/src/app.js" +:+ String (ascii_of_nat 10)
             "+  const total = price + tax;"))
           "const total = price + tax;").
  vm_compute. left. reflexivity.
Defined.
(* ===================================================================== *)
(** * Further facts: counters of the batches                            *)
(* ===================================================================== *)

Section BatchCounters.

Variable rt : Runtime.
Variable git : Git.

(** What one analysis does to the counters. *)
Lemma getCommitAnalysis_counts (commitHash : string) (m : Metrics) :
  exists m',
    getCommitAnalysis rt git commitHash m
      = (Returned (analysisOf rt git commitHash), m') /\
    commitsProcessed m'
      = commitsProcessed m + yielded (Some (analysisOf rt git commitHash)) /\
    errors m <= errors m' <= errors m + failed (Some (analysisOf rt git commitHash)) /\
    apiCalls m' = apiCalls m /\ totalTokens m' = totalTokens m.
Proof.
  unfold analysisOf.
  destruct (getCommitAnalysis_cases rt git commitHash) as [H | [H | [a H]]];
    rewrite !H; cbn; eexists; (split; [reflexivity |]); cbn; repeat split; lia.
Qed.

Lemma settleInOrder_counts (batch : list string) (completion : list nat) :
  forall slots m,
    let vals := map (analysisOf rt git) batch in
    let m' := snd (settleInOrder (map (getCommitAnalysis rt git) batch)
                     completion slots m) in
    commitsProcessed m'
      = commitsProcessed m + sumZ (map (fun i => yielded (vals !! i)) completion) /\
    errors m <= errors m'
      <= errors m + sumZ (map (fun i => failed (vals !! i)) completion) /\
    apiCalls m' = apiCalls m /\ totalTokens m' = totalTokens m.
Proof.
  induction completion as [|i later IH]; intros slots m; cbn zeta.
  - cbn. repeat split; lia.
  - cbn [settleInOrder map sumZ fold_right].
    change (map (getCommitAnalysis rt git) batch)
      with (getCommitAnalysis rt git <$> batch).
    change (map (analysisOf rt git) batch) with (analysisOf rt git <$> batch).
    rewrite !list_lookup_fmap.
    destruct (batch !! i) as [h|]; cbn [fmap option_fmap option_map].
    + unfold bind, settle.
      destruct (getCommitAnalysis_counts h m) as (m1 & Hrun & Hc & He & Ha & Ht).
      rewrite Hrun.
      specialize (IH (<[i := Some (Fulfilled (analysisOf rt git h))]> slots) m1).
      cbn zeta in IH. destruct IH as (IHc & IHe & IHa & IHt).
      change (getCommitAnalysis rt git <$> batch)
        with (map (getCommitAnalysis rt git) batch).
      change (analysisOf rt git <$> batch) with (map (analysisOf rt git) batch) in *.
      unfold sumZ in *. repeat split; lia.
    + specialize (IH slots m). cbn zeta in IH. destruct IH as (IHc & IHe & IHa & IHt).
      change (getCommitAnalysis rt git <$> batch)
        with (map (getCommitAnalysis rt git) batch).
      change (analysisOf rt git <$> batch) with (map (analysisOf rt git) batch) in *.
      unfold sumZ in *. cbn [yielded failed]. repeat split; lia.
Qed.

Lemma sumZ_Permutation (xs ys : list Z) : xs ≡ₚ ys -> sumZ xs = sumZ ys.
Proof.
  unfold sumZ. induction 1; cbn [fold_right]; lia.
Qed.

Lemma lookup_positions {A} (f : option A -> Z) (vals : list A) :
  map (fun i => f (vals !! i)) (seq 0 (length vals)) = map (fun v => f (Some v)) vals.
Proof.
  induction vals as [|v vals IH]; [reflexivity |].
  cbn [length seq map]. rewrite <- seq_shift, map_map. cbn [lookup list_lookup].
  now rewrite <- IH.
Qed.

(** A sum over the positions at which the calls of a batch settle, each
    exactly once, is the sum over the batch. *)
Lemma sum_over_completion {A} (f : option A -> Z) (vals : list A) (completion : list nat) :
  f None = 0 ->
  NoDup completion ->
  (forall i, (i < length vals)%nat -> i ∈ completion) ->
  sumZ (map (fun i => f (vals !! i)) completion)
  = sumZ (map (fun v => f (Some v)) vals).
Proof.
  intros Hnone Hnodup Hall.
  rewrite <- lookup_positions.
  transitivity (sumZ (map (fun i => f (vals !! i))
                        (filter (fun i => (i < length vals)%nat) completion))).
  - clear Hnodup Hall. induction completion as [|i later IH]; [reflexivity |].
    rewrite filter_cons. destruct (decide (i < length vals)%nat) as [Hi | Hi].
    + cbn [map]. unfold sumZ in *. cbn [fold_right]. now rewrite IH.
    + cbn [map]. unfold sumZ in *. cbn [fold_right]. rewrite IH.
      rewrite (proj2 (lookup_ge_None vals i)) by lia. lia.
  - apply sumZ_Permutation.
    change (map (fun i => f (vals !! i))) with (fmap (M := list) (fun i => f (vals !! i))).
    apply fmap_Permutation, NoDup_Permutation.
    + now apply NoDup_filter.
    + apply NoDup_seq.
    + intros i. rewrite list_elem_of_filter, elem_of_seq. split.
      * intros [Hi _]. lia.
      * intros [_ Hi]. split; [lia | apply Hall; lia].
Qed.

Lemma yielded_count (vals : list (option CommitAnalysis)) :
  sumZ (map (fun v => yielded (Some v)) vals) = zlength (omap id vals) /\
  sumZ (map (fun v => failed (Some v)) vals) = zlength vals - zlength (omap id vals).
Proof.
  unfold sumZ, zlength. induction vals as [|[a|] vals [IHy IHf]];
    cbn [map fold_right yielded failed length] in *.
  - split; reflexivity.
  - change (omap id (Some a :: vals)) with (a :: omap id vals). cbn [length].
    split; lia.
  - change (omap id (None :: vals)) with (omap id vals). split; lia.
Qed.

(** The counters after the calls of one batch have settled. *)
Lemma allSettled_counts (completion : list nat) (batch : list string) (m : Metrics) :
  NoDup completion ->
  (forall j, (j < length batch)%nat -> j ∈ completion) ->
  let m' := snd (allSettled completion (map (getCommitAnalysis rt git) batch) m) in
  commitsProcessed m'
    = commitsProcessed m + zlength (omap (analysisOf rt git) batch) /\
  errors m <= errors m'
    <= errors m + (zlength batch - zlength (omap (analysisOf rt git) batch)) /\
  apiCalls m' = apiCalls m /\ totalTokens m' = totalTokens m.
Proof.
  intros Hnodup Hall. unfold allSettled.
  destruct (settleInOrder_counts batch completion
              (replicate (length (map (getCommitAnalysis rt git) batch)) None) m)
    as (Hc & He & Ha & Ht).
  cbn zeta in *.
  rewrite (sum_over_completion yielded) in Hc;
    [| reflexivity | exact Hnodup | now rewrite length_map].
  rewrite (sum_over_completion failed) in He;
    [| reflexivity | exact Hnodup | now rewrite length_map].
  destruct (yielded_count (map (analysisOf rt git) batch)) as [Hy Hf].
  rewrite Hy in Hc. rewrite Hf in He.
  rewrite omap_id_map in Hc, He. rewrite zlength_map in He.
  repeat split; solve [assumption | lia].
Qed.

(** The counters after the loop, from batch number [b] on. *)
Lemma batchLoop_counts (completion : nat -> list nat) (commitHashes : list string) :
  everySettles completion commitHashes ->
  (forall b, NoDup (completion b)) ->
  forall fuel b results m,
    let rest := drop (b * batchSize) commitHashes in
    let m' := snd (batchLoop rt git completion commitHashes fuel (b * batchSize)
                     results m) in
    (length commitHashes <= b * batchSize + fuel * batchSize)%nat ->
    commitsProcessed m'
      = commitsProcessed m + zlength (omap (analysisOf rt git) rest) /\
    errors m <= errors m'
      <= errors m + (zlength rest - zlength (omap (analysisOf rt git) rest)) /\
    apiCalls m' = apiCalls m /\ totalTokens m' = totalTokens m.
Proof.
  intros Hall Hnodup. unfold batchSize in *.
  induction fuel as [|fuel IH]; intros b results m; cbn zeta; intros Hfuel.
  - cbn [batchLoop ret snd]. rewrite drop_ge by lia. cbn. unfold zlength. cbn.
    repeat split; lia.
  - cbn [batchLoop]. unfold batchSize.
    destruct (Nat.ltb_spec (b * 10) (length commitHashes)) as [Hlt | Hge].
    + unfold bind. rewrite Nat.div_mul by discriminate.
      pose proof (allSettled_counts (completion b)
                    (slice (b * 10) (b * 10 + 10) commitHashes) m
                    (Hnodup b) (Hall b)) as Hbatch.
      destruct (batch_settled rt git (completion b)
                  (slice (b * 10) (b * 10 + 10) commitHashes) m)
        as (batchResults & m1 & Hrun & _ & _).
      { apply Hall. }
      rewrite Hrun in Hbatch |- *. cbn [snd] in Hbatch.
      destruct Hbatch as (Hc & He & Ha & Ht).
      unfold update.
      specialize (IH (S b) (results ++ successfulResults batchResults)
                     (bump_batchesProcessed m1)).
      cbn zeta in IH.
      replace (S b * 10)%nat with (b * 10 + 10)%nat in IH by lia.
      destruct IH as (IHc & IHe & IHa & IHt); [lia |].
      cbn [bump_batchesProcessed commitsProcessed errors apiCalls totalTokens] in *.
      assert (Hsplit : drop (b * 10) commitHashes
                       = slice (b * 10) (b * 10 + 10) commitHashes ++
                         drop (b * 10 + 10) commitHashes).
      { unfold slice. replace (b * 10 + 10 - b * 10)%nat with 10%nat by lia.
        rewrite <- (drop_drop commitHashes 10 (b * 10)), take_drop. reflexivity. }
      rewrite Hsplit, omap_app. unfold zlength in *. rewrite !length_app.
      repeat split; lia.
    + cbn [ret snd]. rewrite drop_ge by lia. cbn. unfold zlength. cbn.
      repeat split; lia.
Qed.

End BatchCounters.

(** X25: the counters after the batches.  When the calls of every batch
    settle, each exactly once, [generateChangelogBatch] counts one
    processed commit for every analysis it returns and at most one error
    for every hash it returns no analysis for; it makes no service call
    and uses no token. *)
Theorem X25_batches_count_returned_analyses
  (rt : Runtime) (git : Git) (completion : nat -> list nat)
  (commitHashes : list string) (m : Metrics) :
  everySettles completion commitHashes ->
  (forall b, NoDup (completion b)) ->
  exists results m',
    generateChangelogBatch rt git completion commitHashes m = (Returned results, m') /\
    commitsProcessed m' = commitsProcessed m + zlength results /\
    errors m <= errors m' <= errors m + (zlength commitHashes - zlength results) /\
    apiCalls m' = apiCalls m /\ totalTokens m' = totalTokens m.
Proof.
  intros Hall Hnodup.
  destruct (generateChangelogBatch_result rt git completion commitHashes m Hall)
    as (m' & Hrun & _).
  exists (omap (analysisOf rt git) commitHashes), m'. split; [exact Hrun |].
  pose proof (batchLoop_counts rt git completion commitHashes Hall Hnodup
                (length commitHashes) 0 [] m) as Hcounts.
  cbn zeta in Hcounts. unfold generateChangelogBatch in Hrun.
  change (0 * batchSize)%nat with 0%nat in Hcounts. rewrite Hrun in Hcounts.
  cbn [snd drop] in Hcounts. apply Hcounts. unfold batchSize. lia.
Qed.

Lemma X25_batches_count_returned_analyses_witness :
  exists results m',
    generateChangelogBatch Examples.silentRuntime Examples.batchGit Examples.lastFirst
      Examples.batchHashes Examples.zeroMetrics = (Returned results, m') /\
    commitsProcessed m' = commitsProcessed Examples.zeroMetrics + zlength results /\
    errors Examples.zeroMetrics <= errors m'
      <= errors Examples.zeroMetrics + (zlength Examples.batchHashes - zlength results) /\
    apiCalls m' = apiCalls Examples.zeroMetrics /\
    totalTokens m' = totalTokens Examples.zeroMetrics.
Proof.
  apply (X25_batches_count_returned_analyses Examples.silentRuntime Examples.batchGit
           Examples.lastFirst Examples.batchHashes Examples.zeroMetrics).
  - apply everySettles_of_all. intros b j Hj. unfold batchSize in Hj.
    do 10 (destruct j as [|j]; [apply list_elem_of_In; cbn; tauto |]). lia.
  - intros b. unfold Examples.lastFirst.
    repeat (apply NoDup_cons_2; [rewrite list_elem_of_In; cbn; lia |]).
    apply NoDup_nil_2.
Defined.
(* ===================================================================== *)
(** * Further facts: records of the full format                         *)
(* ===================================================================== *)

Section Records.

Variable rt : Runtime.

Lemma split_fields (fields : list string) :
  fields <> [] ->
  Forall (fun field => JS.has_char "|" field = false) fields ->
  JS.split "|" (JS.join "|" fields) = fields.
Proof. apply (split_join "|"). Qed.

End Records.

(** X26: the fields of a record of the [full] format.  When none of the
    eight fields holds a bar, the parser gives each of them back,
    trimmed; the body may span several lines, and the message is the
    subject, followed after an empty line by the body when there is one.
    When the body holds a bar, the text after its first bar is taken for
    the author, and every later field moves one place on: the raw body of
    [%B] is not protected against the field separator. *)
Theorem X26_full_record_fields
  (rt : Runtime) (fullHash shortHash subject body author email authorDate commitDate
   : string) :
  Forall (fun field => JS.has_char "|" field = false)
         [fullHash; shortHash; subject; author; email; authorDate; commitDate] ->
  (JS.has_char "|" body = false ->
   GitManager.fullCommit rt "full"
     (JS.join "|" [fullHash; shortHash; subject; body; author; email; authorDate;
                   commitDate])
   = Some (GitManager.Full (JS.trim fullHash) (JS.trim shortHash) (JS.trim subject)
             (JS.trim body)
             (JS.trim subject +:+
              (if JS.truthy (JS.trim body)
               then String GitManager.LF (String GitManager.LF "") +:+ JS.trim body
               else ""))
             (JS.trim author) (JS.trim email) (JS.trim authorDate) (JS.trim commitDate)
             (GitManager.extractCommitType rt subject)
             (GitManager.extractCommitScope rt subject)
             (isBreakingChange subject body) None)) /\
  (forall before after,
     body = before +:+ String "|" after ->
     JS.has_char "|" before = false -> JS.has_char "|" after = false ->
     GitManager.fullCommit rt "full"
       (JS.join "|" [fullHash; shortHash; subject; body; author; email; authorDate;
                     commitDate])
     = Some (GitManager.Full (JS.trim fullHash) (JS.trim shortHash) (JS.trim subject)
               (JS.trim before)
               (JS.trim subject +:+
                (if JS.truthy (JS.trim before)
                 then String GitManager.LF (String GitManager.LF "") +:+ JS.trim before
                 else ""))
               (JS.trim after) (JS.trim author) (JS.trim email) (JS.trim authorDate)
               (GitManager.extractCommitType rt subject)
               (GitManager.extractCommitScope rt subject)
               (isBreakingChange subject before) None)).
Proof.
  intros Hfields.
  inversion Hfields as [|? ? H1 Hrest1]; subst.
  inversion Hrest1 as [|? ? H2 Hrest2]; subst.
  inversion Hrest2 as [|? ? H3 Hrest3]; subst.
  split.
  - intros Hbody. unfold GitManager.fullCommit.
    rewrite split_fields; [reflexivity | discriminate |].
    do 3 (constructor; [assumption |]). constructor; [exact Hbody | exact Hrest3].
  - intros before after -> Hbefore Hafter. unfold GitManager.fullCommit.
    replace (JS.join "|" [fullHash; shortHash; subject; before +:+ String "|" after;
                          author; email; authorDate; commitDate])
      with (JS.join "|" [fullHash; shortHash; subject; before; after; author; email;
                         authorDate; commitDate]).
    + rewrite split_fields; [reflexivity | discriminate |].
      do 3 (constructor; [assumption |]).
      constructor; [exact Hbefore |]. constructor; [exact Hafter | exact Hrest3].
    + cbn [JS.join]. change (String "|" after) with ("|" +:+ after).
      rewrite <- !append_assoc. reflexivity.
Qed.

Lemma X26_full_record_fields_witness :
  (JS.has_char "|" ("first line" +:+ String GitManager.LF "second line") = false ->
   GitManager.fullCommit Examples.silentRuntime "full"
     (JS.join "|" ["0123456789abcdef"; "0123456"; "improve the parser";
                   "first line" +:+ String GitManager.LF "second line";
                   "Al"; "al@example.org"; "2024-01-01"; "2024-01-02"])
   = Some (GitManager.Full (JS.trim "0123456789abcdef") (JS.trim "0123456")
             (JS.trim "improve the parser")
             (JS.trim ("first line" +:+ String GitManager.LF "second line"))
             (JS.trim "improve the parser" +:+
              (if JS.truthy (JS.trim ("first line" +:+ String GitManager.LF "second line"))
               then String GitManager.LF (String GitManager.LF "") +:+
                    JS.trim ("first line" +:+ String GitManager.LF "second line")
               else ""))
             (JS.trim "Al") (JS.trim "al@example.org") (JS.trim "2024-01-01")
             (JS.trim "2024-01-02")
             (GitManager.extractCommitType Examples.silentRuntime "improve the parser")
             (GitManager.extractCommitScope Examples.silentRuntime "improve the parser")
             (isBreakingChange "improve the parser"
                ("first line" +:+ String GitManager.LF "second line")) None)) /\
  (forall before after,
     "first line" +:+ String GitManager.LF "second line" = before +:+ String "|" after ->
     JS.has_char "|" before = false -> JS.has_char "|" after = false ->
     GitManager.fullCommit Examples.silentRuntime "full"
       (JS.join "|" ["0123456789abcdef"; "0123456"; "improve the parser";
                     "first line" +:+ String GitManager.LF "second line";
                     "Al"; "al@example.org"; "2024-01-01"; "2024-01-02"])
     = Some (GitManager.Full (JS.trim "0123456789abcdef") (JS.trim "0123456")
               (JS.trim "improve the parser")
               (JS.trim before)
               (JS.trim "improve the parser" +:+
                (if JS.truthy (JS.trim before)
                 then String GitManager.LF (String GitManager.LF "") +:+ JS.trim before
                 else ""))
               (JS.trim after) (JS.trim "Al") (JS.trim "al@example.org")
               (JS.trim "2024-01-01")
               (GitManager.extractCommitType Examples.silentRuntime "improve the parser")
               (GitManager.extractCommitScope Examples.silentRuntime "improve the parser")
               (isBreakingChange "improve the parser" before) None)).
Proof.
  apply (X26_full_record_fields Examples.silentRuntime "0123456789abcdef" "0123456"
           "improve the parser" ("first line" +:+ String GitManager.LF "second line")
           "Al" "al@example.org" "2024-01-01" "2024-01-02").
  repeat constructor.
Defined.
(* ===================================================================== *)
(** * Further facts: commit message suggestion                          *)
(* ===================================================================== *)

Section CommonPaths.

Lemma split_parts (c : ascii) (s : string) :
  Forall (fun part => JS.has_char c part = false) (JS.split c s).
Proof.
  induction s as [|a s IH]; [repeat constructor |].
  cbn [JS.split]. destruct (Ascii.eqb a c) eqn:Ha.
  - constructor; [reflexivity | exact IH].
  - destruct (JS.split c s) as [|p ps]; [repeat constructor; cbn; now rewrite Ha |].
    inversion IH as [|? ? Hp Hps]; subst.
    constructor; [| exact Hps]. cbn [JS.has_char]. now rewrite Ha, Hp.
Qed.

Lemma drop_nth_error {A} (l : list A) (i : nat) (x : A) :
  nth_error l i = Some x -> drop i l = x :: drop (S i) l.
Proof.
  revert i. induction l as [|y l IH]; intros [|i] H; try discriminate H.
  - now injection H as ->.
  - cbn [nth_error] in H. cbn [drop]. now apply IH.
Qed.

(** The parts the loop collects are shared, place by place, by every
    path. *)
Lemma commonParts_shared (sep : ascii) (paths parts : list string) (p : string) :
  In p paths ->
  forall i, exists rest,
    drop i (JS.split sep p) = commonParts sep paths parts i ++ rest.
Proof.
  intros Hin. induction parts as [|part parts IH]; intros i; cbn [commonParts].
  - now exists (drop i (JS.split sep p)).
  - destruct (forallb _ paths) eqn:Hall; [| now exists (drop i (JS.split sep p))].
    rewrite forallb_forall in Hall. specialize (Hall p Hin).
    destruct (nth_error (JS.split sep p) i) as [part'|] eqn:Hnth; [| discriminate Hall].
    apply String.eqb_eq in Hall. subst part'.
    destruct (IH (S i)) as [rest Hrest]. exists rest.
    rewrite (drop_nth_error _ _ _ Hnth), Hrest. reflexivity.
Qed.

Lemma commonParts_parts (sep : ascii) (paths parts : list string) (i : nat)
  (P : string -> Prop) :
  Forall P parts -> Forall P (commonParts sep paths parts i).
Proof.
  intros H. revert i. induction H as [|part parts Hpart _ IH]; intros i; cbn [commonParts].
  - constructor.
  - destruct (forallb _ paths); [constructor; [exact Hpart | apply IH] | constructor].
Qed.

(** Two leading parts that every path has are collected. *)
Lemma commonParts_two (sep : ascii) (paths : list string) (a b : string)
  (more : list string) :
  (forall p, In p paths -> exists rest, JS.split sep p = a :: b :: rest) ->
  (2 <= length (commonParts sep paths (a :: b :: more) 0))%nat.
Proof.
  intros Hshared. cbn [commonParts].
  assert (H0 : forallb (fun p => match nth_error (JS.split sep p) 0 with
                                 | Some part' => String.eqb part' a
                                 | None => false
                                 end) paths = true).
  { apply forallb_forall. intros p Hp. destruct (Hshared p Hp) as [rest ->].
    cbn. apply String.eqb_refl. }
  assert (H1 : forallb (fun p => match nth_error (JS.split sep p) 1 with
                                 | Some part' => String.eqb part' b
                                 | None => false
                                 end) paths = true).
  { apply forallb_forall. intros p Hp. destruct (Hshared p Hp) as [rest ->].
    cbn. apply String.eqb_refl. }
  rewrite H0, H1. cbn [length]. lia.
Qed.

End CommonPaths.

(** X27: the common path of two or more paths.  When [findCommonPath]
    answers with a path, that path has at least two parts and its parts
    are the leading parts of every given path.  It answers exactly when
    all the paths share their first two parts: files that share only one
    leading directory get no common path. *)
Theorem X27_common_path_needs_two_shared_parts
  (path : Path) (first second : string) (others : list string) :
  let paths := first :: second :: others in
  (forall common,
     findCommonPath path paths = Some common ->
     (2 <= length (JS.split (sep path) common))%nat /\
     forall p, In p paths ->
       exists rest, JS.split (sep path) p = JS.split (sep path) common ++ rest) /\
  (is_Some (findCommonPath path paths) <->
   exists a b, forall p, In p paths ->
     exists rest, JS.split (sep path) p = a :: b :: rest).
Proof.
  intros paths. subst paths. cbn [findCommonPath].
  set (paths := first :: second :: others).
  set (common := commonParts (sep path) paths (JS.split (sep path) first) 0).
  assert (Hsplit : (1 < length common)%nat ->
                   JS.split (sep path) (JS.join (String (sep path) "") common) = common).
  { intros Hlen. apply split_join.
    - destruct common; [cbn in Hlen; lia | discriminate].
    - apply commonParts_parts, split_parts. }
  assert (Hshared : forall p, In p paths ->
                    exists rest, JS.split (sep path) p = common ++ rest).
  { intros p Hp. destruct (commonParts_shared (sep path) paths
                             (JS.split (sep path) first) p Hp 0) as [rest Hrest].
    exists rest. now rewrite drop_0 in Hrest. }
  split.
  - intros text. destruct (Nat.ltb_spec 1 (length common)) as [Hlen | Hlen];
      [| discriminate].
    intros [= <-]. rewrite (Hsplit Hlen). split; [lia | exact Hshared].
  - split.
    + intros [text Htext].
      destruct (Nat.ltb_spec 1 (length common)) as [Hlen | Hlen]; [| discriminate Htext].
      destruct common as [|a [|b more]]; cbn [length] in Hlen; try lia.
      exists a, b. intros p Hp. destruct (Hshared p Hp) as [rest ->].
      now exists (more ++ rest).
    + intros (a & b & Hab).
      destruct (Hab first) as [rest Hfirst]; [now left |].
      pose proof (commonParts_two (sep path) paths a b rest Hab) as Hlen.
      subst common. rewrite Hfirst.
      destruct (Nat.ltb_spec 1 (length (commonParts (sep path) paths (a :: b :: rest) 0)))
        as [_ | Hshort]; [eauto | lia].
Qed.

(** Two files directly under [src] have no common path, two files under
    [src/lib] have the common path [src/lib]. *)
Example common_paths :
  findCommonPath (mkPath "/" id id) ["src/a.js"; "src/b.js"] = None /\
  findCommonPath (mkPath "/" id id) ["src/lib/a.js"; "src/lib/b.js"] = Some "src/lib".
Proof. split; reflexivity. Qed.
Section Suggestions.

Lemma filesIn_pushInto (c k : string) (x : GitManager.DiffEntry)
  (categories : list (string * list GitManager.DiffEntry)) :
  filesIn c (pushInto k x categories)
  = if String.eqb c k
    then Some (match filesIn k categories with Some files => files | None => [] end ++ [x])
    else filesIn c categories.
Proof.
  induction categories as [|[k' files] categories IH]; cbn [pushInto filesIn].
  - destruct (String.eqb c k); reflexivity.
  - destruct (String.eqb_spec k k') as [<- | Hk]; cbn [filesIn].
    + destruct (String.eqb c k); reflexivity.
    + destruct (String.eqb_spec c k') as [-> | Hc].
      * destruct (String.eqb_spec k' k) as [-> | _]; [contradiction | reflexivity].
      * exact IH.
Qed.

Lemma pushInto_keys (k : string) (x : GitManager.DiffEntry)
  (categories : list (string * list GitManager.DiffEntry)) :
  map fst (pushInto k x categories)
  = if existsb (String.eqb k) (map fst categories) then map fst categories
    else map fst categories ++ [k].
Proof.
  induction categories as [|[k' files] categories IH]; cbn [pushInto map existsb fst];
    [reflexivity |].
  destruct (String.eqb k k'); cbn [map fst orb]; [reflexivity |].
  rewrite IH. now destruct (existsb (String.eqb k) (map fst categories)).
Qed.

Lemma pushInto_total (k : string) (x : GitManager.DiffEntry)
  (categories : list (string * list GitManager.DiffEntry)) :
  sumZ (map (fun entry => zlength (snd entry)) (pushInto k x categories))
  = sumZ (map (fun entry => zlength (snd entry)) categories) + 1.
Proof.
  unfold sumZ, zlength.
  induction categories as [|[k' files] categories IH]; cbn [pushInto map snd fold_right];
    [cbn; lia |].
  destruct (String.eqb k k'); cbn [map snd fold_right]; [rewrite length_app; cbn |]; lia.
Qed.

Lemma hasFiles_filesIn (c : string)
  (categories : list (string * list GitManager.DiffEntry)) :
  hasFiles c categories
  = match filesIn c categories with
    | Some (_ :: _) => true
    | _ => false
    end.
Proof.
  induction categories as [|[k files] categories IH]; cbn [hasFiles filesIn];
    [reflexivity |].
  destruct (String.eqb c k); [now destruct files | exact IH].
Qed.

(** What the [forEach] leaves: under each category, the changes of that
    category in their order; every category once; every change once. *)
Lemma categories_fold (changes : list GitManager.DiffEntry) :
  forall categories,
    let categories' :=
      fold_left (fun categories change =>
                   pushInto (GitManager.de_category change) change categories)
                changes categories in
    (forall c,
       filesIn c categories'
       = match filesIn c categories, List.filter (fun change => String.eqb (GitManager.de_category change) c) changes with
         | None, [] => None
         | None, files => Some files
         | Some before, files => Some (before ++ files)
         end) /\
    (NoDup (map fst categories) -> NoDup (map fst categories')) /\
    sumZ (map (fun entry => zlength (snd entry)) categories')
    = sumZ (map (fun entry => zlength (snd entry)) categories) + zlength changes.
Proof.
  induction changes as [|x changes IH]; intros categories; cbn zeta.
  - cbn [fold_left List.filter]. split; [| split; [auto | unfold zlength; cbn; lia]].
    intros c. destruct (filesIn c categories); [now rewrite app_nil_r | reflexivity].
  - cbn [fold_left List.filter].
    destruct (IH (pushInto (GitManager.de_category x) x categories))
      as (Hfiles & Hkeys & Hsum).
    cbn zeta in Hfiles, Hkeys, Hsum. split; [| split].
    + intros c. rewrite Hfiles, filesIn_pushInto.
      destruct (String.eqb_spec (GitManager.de_category x) c) as [<- | Hne].
      * rewrite String.eqb_refl.
        destruct (filesIn (GitManager.de_category x) categories);
          cbn [app]; rewrite <- ?app_assoc; reflexivity.
      * destruct (String.eqb_spec c (GitManager.de_category x)) as [-> | _];
          [contradiction | reflexivity].
    + intros Hnd. apply Hkeys. rewrite pushInto_keys.
      destruct (existsb _ (map fst categories)) eqn:Hk; [exact Hnd |].
      apply (proj2 (NoDup_app _ _)). split; [exact Hnd |]. split.
      * intros k Hin Hsingle. apply list_elem_of_singleton in Hsingle. subst k.
        apply list_elem_of_In, existsb_eqb_In in Hin. congruence.
      * apply NoDup_singleton.
    + rewrite Hsum, pushInto_total. unfold zlength. cbn [length]. lia.
Qed.

Lemma existsb_filter {A} (keep : A -> bool) (l : list A) :
  existsb keep l = match List.filter keep l with [] => false | _ :: _ => true end.
Proof.
  induction l as [|x l IH]; [reflexivity |]. cbn [existsb List.filter].
  destruct (keep x); [reflexivity | exact IH].
Qed.

Lemma hasFiles_categoriesOf (c : string) (changes : list GitManager.DiffEntry) :
  hasFiles c (categoriesOf changes) = existsb (fun change => String.eqb (GitManager.de_category change) c) changes.
Proof.
  rewrite hasFiles_filesIn, existsb_filter. unfold categoriesOf.
  destruct (categories_fold changes []) as (Hfiles & _). cbn zeta in Hfiles.
  rewrite Hfiles. cbn [filesIn].
  destruct (List.filter _ changes); reflexivity.
Qed.

End Suggestions.

(** X28: the suggested commit message.  [analyzeChangesForCommitMessage]
    does not throw.  The type follows a fixed order of precedence over
    the categories of the changed files: config, then style, docs, test,
    and last source, where it is feat when some change is an addition and
    refactor otherwise; without any of these it is chore.  The message is
    the type, the scope in brackets when one was found, a colon and the
    description.  Every category of a change is listed exactly once, and
    the counts of the breakdown add up to the number of changes. *)
Theorem X28_suggestion_type_precedence
  (path : Path) (changes : list GitManager.DiffEntry) (includeScope : bool) :
  let has c :=
    existsb (fun change => String.eqb (GitManager.de_category change) c) changes in
  exists s,
    analyzeChangesForCommitMessage path changes includeScope = Returned s /\
    sg_type s
    = (if has "config" then "config"
       else if has "style" then "style"
       else if has "docs" then "docs"
       else if has "test" then "test"
       else if has "source"
            then if existsb (fun c => String.eqb (GitManager.de_status c) "added") changes
                 then "feat" else "refactor"
            else "chore") /\
    suggested_message s
    = sg_type s +:+
      (match GitManager.given (sg_scope s) with
       | Some scope => "(" +:+ scope +:+ ")"
       | None => ""
       end) +:+ ": " +:+ sg_description s /\
    (includeScope = false -> sg_scope s = None) /\
    files_changed s = zlength changes /\
    NoDup (sg_categories s) /\
    sumZ (map (fun entry => snd (fst entry)) (file_breakdown s)) = zlength changes.
Proof.
  intros has. unfold analyzeChangesForCommitMessage.
  rewrite !hasFiles_categoriesOf. fold (has "source") (has "test") (has "docs")
    (has "style") (has "config").
  destruct (categories_fold changes []) as (_ & Hkeys & Hsum).
  cbn zeta in Hkeys, Hsum. fold (categoriesOf changes) in Hkeys, Hsum.
  match goal with
  | |- context [generateCommitDescription path ?type (categoriesOf changes) ?n] =>
      assert (Hdescription :
                exists text,
                  generateCommitDescription path type (categoriesOf changes) n
                  = Returned text)
  end.
  { unfold generateCommitDescription.
    destruct (zlength changes =? 1) eqn:Hone; [| destruct (_ >? 1); eauto].
    destruct changes as [|x [|y changes]]; [discriminate Hone | | exfalso].
    - cbn. eauto.
    - apply Z.eqb_eq in Hone. unfold zlength in Hone. cbn [length] in Hone. lia. }
  destruct Hdescription as [text ->].
  eexists. split; [reflexivity |].
  cbn [sg_type suggested_message sg_scope sg_description files_changed sg_categories
       file_breakdown].
  split.
  { destruct (has "config"), (has "style"), (has "docs"), (has "test"), (has "source");
      reflexivity. }
  split; [reflexivity |]. split; [now intros -> |]. split; [reflexivity |].
  split; [apply Hkeys, NoDup_nil_2 |].
  rewrite map_map. cbn [fst snd]. rewrite Hsum. cbn. lia.
Qed.
(* ===================================================================== *)
(** * Further facts: model capabilities                                 *)
(* ===================================================================== *)

Section Capabilities.

Lemma lower_upper_char (c : ascii) :
  JS.lower_char (JS.upper_char c) = JS.lower_char c.
Proof. destruct c as [[] [] [] [] [] [] [] []]; reflexivity. Qed.

Lemma toLowerCase_toUpperCase (s : string) :
  JS.toLowerCase (JS.toUpperCase s) = JS.toLowerCase s.
Proof.
  unfold JS.toLowerCase, JS.toUpperCase.
  induction s as [|c s IH]; [reflexivity |].
  cbn [JS.map_chars]. now rewrite lower_upper_char, IH.
Qed.

Lemma includes_toLowerCase (s p : string) :
  JS.includes s p = true ->
  JS.includes (JS.toLowerCase s) (JS.toLowerCase p) = true.
Proof.
  rewrite !includes_spec. intros (a & b & ->).
  exists (JS.toLowerCase a), (JS.toLowerCase b).
  unfold JS.toLowerCase. now rewrite !map_chars_app.
Qed.

Lemma includes_shorter (s p q : string) :
  JS.includes s (p +:+ q) = true -> JS.includes s p = true.
Proof. rewrite !includes_spec. apply Contains_prefix_token. Qed.

End Capabilities.

(** X29: the capabilities of a model.  They do not depend on the case of
    the letters of its name.  A model of the latest reasoning generation
    is a reasoning model; a model with the large or the standard context
    window, and every reasoning model, supports tools.  Whenever
    [generateAISummary] puts a reasoning effort in the settings for a
    model, the provider counts that model as a reasoning model. *)
Theorem X29_capabilities_are_consistent (gen : Generator) (modelName : string) :
  let capabilities := AIClient.getModelCapabilities modelName in
  AIClient.getModelCapabilities (JS.toUpperCase modelName) = capabilities /\
  (AIClient.latestReasoning capabilities = true ->
   AIClient.cap_reasoning capabilities = true) /\
  (AIClient.largeContext capabilities = true -> AIClient.tools capabilities = true) /\
  (AIClient.standardContext capabilities = true -> AIClient.tools capabilities = true) /\
  (AIClient.cap_reasoning capabilities = true -> AIClient.tools capabilities = true) /\
  (is_Some (reasoning_effort (settingsFor gen (Some modelName))) ->
   AIClient.cap_reasoning capabilities = true).
Proof.
  cbn zeta. unfold AIClient.getModelCapabilities.
  rewrite toLowerCase_toUpperCase.
  cbn [AIClient.latestReasoning AIClient.cap_reasoning AIClient.largeContext
       AIClient.tools AIClient.standardContext].
  set (model := JS.toLowerCase modelName).
  split; [reflexivity |]. split; [| split; [| split; [| split]]].
  - intros ->. apply orb_true_r.
  - intros H. rewrite (includes_shorter model "gpt-4" ".1" H). apply orb_true_r.
  - intros H. rewrite (includes_shorter model "gpt-4" "o" H). apply orb_true_r.
  - intros ->. reflexivity.
  - unfold settingsFor. cbn [reasoning_effort]. unfold GitManager.given.
    destruct (JS.truthy modelName); [| intros [? [=]]].
    destruct (JS.includes modelName "o3") eqn:H3.
    + intros _. subst model.
      pose proof (includes_toLowerCase modelName "o3" H3) as Hlower.
      change (JS.toLowerCase "o3") with "o3" in Hlower. now rewrite Hlower.
    + destruct (JS.includes modelName "o4") eqn:H4; [| intros [? [=]]].
      intros _. subst model.
      pose proof (includes_toLowerCase modelName "o4" H4) as Hlower.
      change (JS.toLowerCase "o4") with "o4" in Hlower. rewrite Hlower.
      apply orb_true_r.
Qed.
(* ===================================================================== *)
(** * Further facts: status of the working tree                         *)
(* ===================================================================== *)

Ltac ground_chars :=
  repeat match goal with
         | |- context [Ascii.eqb ?x ?y] =>
             tryif is_var y then fail else idtac;
             let v := eval vm_compute in (Ascii.eqb x y) in
             change (Ascii.eqb x y) with v
         end.

Section StatusLines.

(** A line of the status falls in at most one of the seven classes. *)
Lemma status_line_one_class (f : string) :
  (if startsWithAny f [" M"; "MM"] then 1 else 0) +
  (if startsWithAny f ["A "; "AM"] then 1 else 0) +
  (if startsWithAny f [" D"; "AD"] then 1 else 0) +
  (if startsWithAny f ["R "] then 1 else 0) +
  (if startsWithAny f ["C "] then 1 else 0) +
  (if startsWithAny f ["??"] then 1 else 0) +
  (if startsWithAny f ["UU"; "AA"] then 1 else 0) <= 1.
Proof.
  destruct f as [|a [|b rest]]; unfold startsWithAny;
    cbn [existsb JS.startsWith orb].
  - lia.
  - repeat match goal with
           | |- context [Ascii.eqb ?x a] => destruct (Ascii.eqb x a)
           end; cbn; lia.
  - repeat match goal with
           | |- context [Ascii.eqb ?x a] =>
               destruct (Ascii.eqb_spec x a); [subst a; ground_chars |]
           end;
    repeat match goal with
           | |- context [Ascii.eqb ?x b] =>
               destruct (Ascii.eqb_spec x b); [subst b; ground_chars |]
           end; cbn; lia.
Qed.

Lemma countStarting_cons (prefixes : list string) (f : string) (files : list string) :
  GitManager.countStarting prefixes (f :: files)
  = (if startsWithAny f prefixes then 1 else 0) + GitManager.countStarting prefixes files.
Proof.
  unfold GitManager.countStarting, zlength. cbn [List.filter].
  destruct (startsWithAny f prefixes); cbn [length]; lia.
Qed.

Lemma countStarting_nonneg (prefixes : list string) (files : list string) :
  0 <= GitManager.countStarting prefixes files.
Proof. unfold GitManager.countStarting, zlength. lia. Qed.

Lemma status_classes_total (files : list string) :
  GitManager.countStarting [" M"; "MM"] files +
  GitManager.countStarting ["A "; "AM"] files +
  GitManager.countStarting [" D"; "AD"] files +
  GitManager.countStarting ["R "] files +
  GitManager.countStarting ["C "] files +
  GitManager.countStarting ["??"] files +
  GitManager.countStarting ["UU"; "AA"] files <= zlength files.
Proof.
  induction files as [|f files IH]; [unfold GitManager.countStarting, zlength; cbn; lia |].
  rewrite !countStarting_cons. pose proof (status_line_one_class f).
  unfold zlength in *. cbn [length]. lia.
Qed.

End StatusLines.

(** X30: the counts of [getStatus].  The classes do not overlap: no count
    is negative and together they never exceed the total, and the tree
    is reported clean exactly when the total is zero.  But the output is
    trimmed as a whole before it is split, which removes the leading
    blank of the first line: a tree whose only change is an unstaged
    modification is reported with total 1 and modified 0. *)
Theorem X30_status_counts_and_first_line (git : Git) :
  match GitManager.getStatus git with
  | GitManager.Unreadable => git "git status --porcelain" = None
  | GitManager.Counted s =>
      0 <= GitManager.st_modified s /\ 0 <= GitManager.st_added s /\
      0 <= GitManager.st_deleted s /\ 0 <= GitManager.st_renamed s /\
      0 <= GitManager.st_copied s /\ 0 <= GitManager.st_untracked s /\
      0 <= GitManager.st_unmerged s /\
      GitManager.st_modified s + GitManager.st_added s + GitManager.st_deleted s +
      GitManager.st_renamed s + GitManager.st_copied s + GitManager.st_untracked s +
      GitManager.st_unmerged s <= GitManager.st_total s /\
      (GitManager.clean s = true <-> GitManager.st_total s = 0)
  end /\
  (forall name,
     JS.trim name = name -> name <> "" -> JS.has_char GitManager.LF name = false ->
     git "git status --porcelain"
     = Some (" M " +:+ name +:+ String GitManager.LF "") ->
     exists s,
       GitManager.getStatus git = GitManager.Counted s /\
       GitManager.st_total s = 1 /\ GitManager.st_modified s = 0 /\
       GitManager.clean s = false).
Proof.
  unfold GitManager.getStatus. split.
  - destruct (git "git status --porcelain") as [output|]; [| reflexivity].
    cbn [GitManager.st_modified GitManager.st_added GitManager.st_deleted
         GitManager.st_renamed GitManager.st_copied GitManager.st_untracked
         GitManager.st_unmerged GitManager.st_total GitManager.clean].
    repeat (split; [apply countStarting_nonneg |]).
    split; [apply status_classes_total |]. apply Z.eqb_eq.
  - intros name Htrim Hname Hline ->.
    destruct (trim_fixed name Htrim) as [_ Hend].
    assert (Houtput : JS.trim (" M " +:+ name +:+ String GitManager.LF "")
                      = "M " +:+ name).
    { unfold JS.trim.
      change (JS.trimStart (" M " +:+ name +:+ String GitManager.LF ""))
        with ("M " +:+ name +:+ String GitManager.LF "").
      rewrite <- append_assoc, trimEnd_spaces by reflexivity.
      now apply trimEnd_after. }
    rewrite Houtput.
    rewrite split_no_separator
      by (rewrite has_char_append, Hline; reflexivity).
    eexists. split; [reflexivity |].
    cbn [GitManager.st_total GitManager.st_modified GitManager.clean].
    destruct name as [|c name]; [contradiction |]. repeat split.
Qed.

(** The example: one unstaged modification. *)
Example status_of_one_modification :
  GitManager.getStatus
    (fun _ => Some (" M src/app.js" +:+ String GitManager.LF ""))
  = GitManager.Counted (GitManager.mkStatus false 0 0 0 0 0 0 0 1).
Proof. vm_compute. reflexivity. Qed.
